(** * ZooPrediction: ingestion, enrichment and forecasting post-processing

    A shallow embedding of [utils/data_processing.py], [utils/prediction.py]
    and the delimiter sniffing of [app.py].

    Conventions of the embedding
    - Python [float] / numpy [float64] values are the rationals they stand
      for ([Q]); NaN / NaT / None are the cell [Null].  Where the program
      divides, and where it scales a forecast, the result is rounded to
      the nearest float64 ([Float64.round64]).  Sums and products of
      ticket counts and prices are exact: that is what the program
      computes, in int64 and in float64, as long as they are whole numbers
      below 2^53; the theorems on the sums of a row state the range in
      which they hold of the machine's arithmetic.
    - A pandas [Timestamp] is its number of nanoseconds since the Unix epoch.
    - A [DataFrame] is a row count together with a finite map from column
      labels to columns; the order of the labels, where the program
      depends on it, is the environment's.
    - Python exceptions are values of [exn]; a computation that may raise
      lives in [result].
    - What pandas, the csv module and the fitted models do with text is not
      part of this repository: it is taken from the class [PandasEnv] and
      from the [Forecaster] records handed to the prediction code. *)

From Stdlib Require Import ZArith QArith Qround Qabs Qpower Qfield Lia Lqa.
From Stdlib Require Import String Ascii List Bool.
From Stdlib Require Import DecimalString Floats.
From stdpp Require Import base option list gmap strings fin_maps sorting.

Local Open Scope Z_scope.

(* Decimal literals of floats stand for the nearest double, as in Python. *)
Set Warnings "-inexact-float".

(* ===================================================================== *)
(** ** Python values: exceptions, strings                                 *)
(* ===================================================================== *)

Module Py.

(** An exception: its class name and [str(e)]. *)
Record exn := Exn { exn_class : string; exn_msg : string }.

Inductive result (A : Type) : Type :=
| Ok (a : A)
| Raise (e : exn).
Arguments Ok {A} a.
Arguments Raise {A} e.

#[export] Instance result_ret : MRet result := fun _ a => Ok a.
#[export] Instance result_bind : MBind result := fun _ _ f m =>
  match m with
  | Ok a => f a
  | Raise e => Raise e
  end.

(** [try: m except Exception as e: h e] *)
Definition try_except {A} (m : result A) (h : exn -> result A) : result A :=
  match m with
  | Ok a => Ok a
  | Raise e => h e
  end.

Definition ValueError (msg : string) : exn := Exn "ValueError" msg.
Definition KeyError (key : string) : exn := Exn "KeyError" ("'" ++ key ++ "'").
Definition TypeError (msg : string) : exn := Exn "TypeError" msg.
Definition AttributeError (msg : string) : exn := Exn "AttributeError" msg.

(** [s[:n]] *)
Fixpoint str_take (n : nat) (s : string) : string :=
  match n, s with
  | O, _ => EmptyString
  | S n', String c s' => String c (str_take n' s')
  | S _, EmptyString => EmptyString
  end.

(** [c in s] for a single character [c] *)
Fixpoint char_in (c : ascii) (s : string) : bool :=
  match s with
  | EmptyString => false
  | String d s' => if Ascii.eqb c d then true else char_in c s'
  end.

(** [s.startswith(p)] *)
Fixpoint startswith (p s : string) : bool :=
  match p, s with
  | EmptyString, _ => true
  | String a p', String b s' => Ascii.eqb a b && startswith p' s'
  | String _ _, EmptyString => false
  end.

(** [p in s] for strings *)
Fixpoint str_in (p s : string) : bool :=
  startswith p s ||
  match s with
  | EmptyString => false
  | String _ s' => str_in p s'
  end.

(** [c.lower()] on the ASCII letters *)
Definition lower_char (c : ascii) : ascii :=
  let n := nat_of_ascii c in
  if (65 <=? n)%nat && (n <=? 90)%nat then ascii_of_nat (n + 32) else c.

Fixpoint lower (s : string) : string :=
  match s with
  | EmptyString => EmptyString
  | String c s' => String (lower_char c) (lower s')
  end.

(** ASCII white space, as removed by [str.strip()] *)
Definition is_space (c : ascii) : bool :=
  let n := nat_of_ascii c in
  ((9 <=? n)%nat && (n <=? 13)%nat) || (n =? 32)%nat
  || ((28 <=? n)%nat && (n <=? 31)%nat).

Fixpoint lstrip (s : string) : string :=
  match s with
  | EmptyString => EmptyString
  | String c s' => if is_space c then lstrip s' else s
  end.

Fixpoint rstrip (s : string) : string :=
  match s with
  | EmptyString => EmptyString
  | String c s' =>
      match rstrip s' with
      | EmptyString => if is_space c then EmptyString else String c EmptyString
      | r => String c r
      end
  end.

Definition strip (s : string) : string := rstrip (lstrip s).

(** [s.replace(' ', '')] *)
Fixpoint remove_spaces (s : string) : string :=
  match s with
  | EmptyString => EmptyString
  | String c s' =>
      if Ascii.eqb c " "%char then remove_spaces s' else String c (remove_spaces s')
  end.

(** [', '.join(l)] *)
Fixpoint join (sep : string) (l : list string) : string :=
  match l with
  | [] => EmptyString
  | [x] => x
  | x :: rest => x ++ sep ++ join sep rest
  end.

(** [s.encode('utf-8', errors='ignore')] for characters below U+0100: an
    ASCII character is one byte, the others are two. *)
Fixpoint encode_utf8 (s : string) : string :=
  match s with
  | EmptyString => EmptyString
  | String c s' =>
      let n := nat_of_ascii c in
      if (n <? 128)%nat then String c (encode_utf8 s')
      else String (ascii_of_nat (192 + n / 64))
             (String (ascii_of_nat (128 + n mod 64)) (encode_utf8 s'))
  end.

(** Python's [round] and [numpy.round]: to the nearest integer, ties to the
    even one. *)
Definition round_half_even (x : Q) : Z :=
  let f := Qfloor x in
  match Qcompare (x - inject_Z f) (1 # 2) with
  | Lt => f
  | Gt => f + 1
  | Eq => if Z.even f then f else f + 1
  end.

(** [int(x)]: truncation towards zero *)
Definition int_of (x : Q) : Z :=
  if Qle_bool 0 x then Qfloor x else Qceiling x.

End Py.
Export Py.

(* ===================================================================== *)
(** ** float64: rounding to the nearest double                            *)
(* ===================================================================== *)

(** IEEE 754 binary64 on the rationals: a finite double is the rational it
    stands for, and an operation of the program is the exact operation
    followed by [round64]. That this is the arithmetic of the kernel's
    floats on sample values is [round64_agrees_with_the_hardware] below. *)
Module Float64.

(** [2 ^ e] for an integer [e] of either sign. *)
Definition pow2 (e : Z) : Q := (2 ^ e)%Q.

(** The exponent [E] with [2^E <= |x| < 2^(E+1)], for [x <> 0]. *)
Definition binade (x : Q) : Z :=
  let k := Z.log2 (Z.abs (Qnum x)) - Z.log2 (Z.pos (Qden x)) in
  if Qle_bool (pow2 k) (Qabs x) then k else k - 1.

(** The exponent of the unit in the last place of the double nearest to
    [x]: 52 below the binade, and never below that of the subnormals. *)
Definition ulp_exponent (x : Q) : Z := Z.max (binade x - 52) (-1074).

(** The double nearest to [x], ties to the even significand. A magnitude
    above [MAX] stands for an infinity. *)
Definition round64 (x : Q) : Q :=
  if Qeq_bool x 0 then 0%Q
  else
    let e := ulp_exponent x in
    Qred (inject_Z (round_half_even (x / pow2 e)) * pow2 e).

(** [sys.float_info.max] *)
Definition MAX : Q := inject_Z ((2 ^ 53 - 1) * 2 ^ 971).

(** [math.isfinite] of a rounded value *)
Definition finite (x : Q) : bool := Qle_bool (Qabs x) MAX.

(** [x + y], [x * y], [x / y] of two doubles *)
Definition fadd (x y : Q) : Q := round64 (x + y).
Definition fmul (x y : Q) : Q := round64 (x * y).
Definition fdiv (x y : Q) : Q := round64 (x / y).

(** The rational that a finite float of the kernel stands for. *)
Definition of_float (f : PrimFloat.float) : Q :=
  match Prim2SF f with
  | S754_finite s m e => Qred (inject_Z (if s then Z.neg m else Z.pos m) * pow2 e)
  | _ => 0%Q
  end.

(** [(int64)x] where the cast is defined. *)
Definition INT64_MIN : Z := - 2 ^ 63.
Definition INT64_MAX : Z := 2 ^ 63 - 1.
Definition in_int64 (z : Z) : bool := (INT64_MIN <=? z) && (z <=? INT64_MAX).

(** int64 addition: the sum modulo [2^64], read as a signed number. *)
Definition wrap64 (z : Z) : Z := (z + 2 ^ 63) mod 2 ^ 64 - 2 ^ 63.

End Float64.

(* ===================================================================== *)
(** ** pandas: cells, columns, frames, calendar accessors                 *)
(* ===================================================================== *)

Module Pandas.

(** One value of a column. [Null] stands for NaN, NaT and None. *)
Inductive cell :=
| Num (q : Q)
| Str (s : string)
| Date (t : Z)
| Null.

(** A frame: [len(df)] and the columns by label. *)
Record frame := Frame { nrows : nat; cols : gmap string (list cell) }.

(** A frame as a caller may hand it over. Either the labels of
    [df.columns] are strings ([Labelled]; a label of another type in an
    index of dtype object is never looked up by the program and is left
    out), or the index is numeric, as is the [RangeIndex] of a frame built
    without labels and the headings of a sheet that are all numbers
    ([Numbered], with the columns in order). *)
Inductive table :=
| Labelled (df : frame)
| Numbered (rows : nat) (columns : list (list cell)).

Coercion Labelled : frame >-> table.

(** [name in df.columns] *)
Definition has_column (name : string) (df : frame) : bool :=
  bool_decide (is_Some (cols df !! name)).

(** [df[name]] where the label is known to be there; [KeyError] is
    [getitem]. *)
Definition col (name : string) (df : frame) : list cell :=
  default [] (cols df !! name).

Definition getitem (name : string) (df : frame) : result (list cell) :=
  match cols df !! name with
  | Some c => Ok c
  | None => Raise (KeyError name)
  end.

(** [df[name] = values] *)
Definition set_col (name : string) (values : list cell) (df : frame) : frame :=
  Frame (nrows df) (<[name := values]> (cols df)).

(** [df[name] = scalar] *)
Definition broadcast (df : frame) (c : cell) : list cell := replicate (nrows df) c.

(** [df.iloc[idxs]]: the rows at the given positions, in that order. *)
Definition take_rows (idxs : list nat) (df : frame) : frame :=
  Frame (length idxs) ((fun c => (fun i => nth i c Null) <$> idxs) <$> cols df).

Definition is_null (c : cell) : bool :=
  match c with Null => true | _ => false end.

(** [s.isnull().all()], [s.isnull().any()], [s.isnull().sum()] *)
Definition all_null (c : list cell) : bool := forallb is_null c.
Definition any_null (c : list cell) : bool := existsb is_null c.
Definition count_null (c : list cell) : nat := length (filter (fun x => is_null x = true) c).

(** Positions of the rows kept by [df.dropna(subset=[name])]. *)
Fixpoint notnull_positions (i : nat) (c : list cell) : list nat :=
  match c with
  | [] => []
  | x :: rest =>
      if is_null x then notnull_positions (S i) rest
      else i :: notnull_positions (S i) rest
  end.

Definition dropna (name : string) (df : frame) : frame :=
  take_rows (notnull_positions 0 (col name df)) df.

(** *** Calendar

    The proleptic Gregorian calendar of [Timestamp]: civil date from the day
    number, then the [.dt] accessors used by the program. *)

Definition NS_PER_DAY : Z := 86400000000000.

Definition day_number (t : Z) : Z := t / NS_PER_DAY.

Record civil := Civil { civil_year : Z; civil_month : Z; civil_day : Z }.

Definition civil_from_days (days : Z) : civil :=
  let z := days + 719468 in
  let era := z / 146097 in
  let doe := z - era * 146097 in
  let yoe := (doe - doe / 1460 + doe / 36524 - doe / 146096) / 365 in
  let y := yoe + era * 400 in
  let doy := doe - (365 * yoe + yoe / 4 - yoe / 100) in
  let mp := (5 * doy + 2) / 153 in
  let d := doy - (153 * mp + 2) / 5 + 1 in
  let m := if mp <? 10 then mp + 3 else mp - 9 in
  Civil (if m <=? 2 then y + 1 else y) m d.

Definition is_leap_year (y : Z) : bool :=
  (y mod 4 =? 0) && (negb (y mod 100 =? 0) || (y mod 400 =? 0)).

Definition days_in (y m : Z) : Z :=
  if m =? 2 then (if is_leap_year y then 29 else 28)
  else if (m =? 4) || (m =? 6) || (m =? 9) || (m =? 11) then 30
  else 31.

Definition dt_year (t : Z) : Z := civil_year (civil_from_days (day_number t)).
Definition dt_month (t : Z) : Z := civil_month (civil_from_days (day_number t)).
Definition dt_day (t : Z) : Z := civil_day (civil_from_days (day_number t)).
Definition dt_days_in_month (t : Z) : Z := days_in (dt_year t) (dt_month t).

(** Monday = 0, ..., Sunday = 6; 1970-01-01 was a Thursday. *)
Definition dt_dayofweek (t : Z) : Z := (day_number t + 3) mod 7.

Definition dt_day_name (t : Z) : string :=
  nth (Z.to_nat (dt_dayofweek t))
    ["Monday"; "Tuesday"; "Wednesday"; "Thursday"; "Friday"; "Saturday"; "Sunday"]
    ""%string.

Definition dt_month_name (t : Z) : string :=
  nth (Z.to_nat (dt_month t - 1))
    ["January"; "February"; "March"; "April"; "May"; "June"; "July";
     "August"; "September"; "October"; "November"; "December"]
    ""%string.

(** [dayofweek.isin([5, 6]).astype(int)] *)
Definition is_weekend_of (dow : Z) : Z :=
  if (dow =? 5) || (dow =? 6) then 1 else 0.

(** [s.max()] of a datetime column: NaT is skipped, an empty column gives
    NaT ([None] here). *)
Definition date_max (c : list cell) : option Z :=
  foldr (fun x acc =>
           match x, acc with
           | Date t, Some m => Some (Z.max t m)
           | Date t, None => Some t
           | _, _ => acc
           end) None c.

(** *** What the libraries decide

    The behaviour of pandas and of the csv module on text, which this
    repository only calls. *)
Class PandasEnv := {
  (** [pd.read_csv(io.StringIO(content), delimiter=d)] *)
  read_csv : string -> ascii -> result frame;
  (** [csv.Sniffer().sniff(sample).delimiter] *)
  sniff_delimiter : string -> result ascii;
  (** one string under [pd.to_datetime(..., errors='coerce', format=f)];
      [None] as result is NaT *)
  parse_datetime : option string -> string -> result (option Z);
  (** one string under [pd.to_numeric(..., errors='coerce')] *)
  parse_numeric : string -> option Q;
  (** what [pd.date_range(start, periods=n)] raises for [n < 0] *)
  negative_periods : exn;
  (** [values.argsort(kind='quicksort')] of numpy on int64 values: the
      positions of the values in ascending order. In which order equal
      values come is the implementation's. *)
  argsort_quicksort : list Z -> list nat;
  (** the int64 that [astype(int)] makes of a finite float outside the
      int64 range, where the cast of C is undefined *)
  cast_out_of_range : Q -> Z;
  (** [list(df.columns)]: the labels of a frame in the order in which
      pandas keeps them, which is that of the file the frame was read
      from *)
  column_order : gmap string (list cell) -> list string;
}.

(** [pd.date_range(start=start, periods=periods)], daily frequency. *)
Definition date_range `{PandasEnv} (start : option Z) (periods : Z) : result (list Z) :=
  match start with
  | None => Raise (ValueError "Neither `start` nor `end` can be NaT")
  | Some s =>
      if periods <? 0 then Raise negative_periods
      else Ok ((fun i => s + Z.of_nat i * NS_PER_DAY) <$> seq 0 (Z.to_nat periods))
  end.

End Pandas.
Export Pandas.


(* ===================================================================== *)
(** ** utils/prediction.py                                                *)
(* ===================================================================== *)

Module Prediction.

(** A fitted Prophet model, as far as the program uses it: the [yhat]
    column for the [ds] column of a frame that has rows, or what it
    raises. *)
Record Forecaster := { yhat : list Z -> result (list Q) }.

(** [model.predict(future_df)]: Prophet refuses a frame without rows before
    anything else. *)
Definition predict (model : Forecaster) (ds : list Z) : result (list Q) :=
  match ds with
  | [] => Raise (ValueError "Dataframe has no rows.")
  | _ => yhat model ds
  end.

(** A fitted [LinearRegression] over one feature. *)
Record LinearRegression := { coef : Q; intercept : Q }.

Definition lr_predict (m : LinearRegression) (x : Z) : Q :=
  (intercept m + coef m * inject_Z x)%Q.

(** The dictionary returned by [create_prediction_models]. *)
Record Models := {
  total_visitors_model : Forecaster;
  adult_tickets_model : Forecaster;
  child_tickets_model : Forecaster;
  adult_percentage_model : LinearRegression;
  last_adult_price : Q;
  last_child_price : Q;
}.

(** One row of the frame under construction: date and the three counts. *)
Record Counts := {
  c_date : Z;
  c_total_visitors : Z;
  c_adult_tickets : Z;
  c_child_tickets : Z;
}.

(** One row of the returned prediction frame. *)
Record PredictionRecord := {
  date : Z;
  total_visitors : Z;
  adult_tickets : Z;
  child_tickets : Z;
  adult_price : Q;
  child_price : Q;
  adult_revenue : Q;
  child_revenue : Q;
  total_revenue : Q;
  year : Z;
  month : Z;
  day : Z;
  dayofweek : Z;
  is_weekend : Z;
  day_name : string;
  month_name : string;
}.

(** The literal [0.05]. *)
Definition STEP : Q := Float64.round64 (5 # 100).

(** Body of the loop over [future_dates]: 1.0, or in the last five days of
    the month [1.0 + 0.05 * (4 - days_from_end)], in float64. *)
Definition month_end_factor_at (month_days day_of_month : Z) : Q :=
  if day_of_month >? month_days - 5 then
    let days_from_end := month_days - day_of_month in
    Float64.fadd 1 (Float64.fmul STEP (inject_Z (4 - days_from_end)))
  else 1%Q.

Definition month_end_factor (future_dates : list Z) : list Q :=
  (fun d => month_end_factor_at (dt_days_in_month d) (dt_day d)) <$> future_dates.

(** [np.round(x)]: to the nearest whole number, ties to the even one; an
    infinity stays. *)
Definition np_round (x : Q) : Q :=
  if Float64.finite x then inject_Z (round_half_even x) else x.

(** [.astype(int)] of a float64: pandas refuses the infinities, and the
    cast of a value outside int64 is the platform's. *)
Definition astype_int `{PandasEnv} (x : Q) : result Z :=
  if Float64.finite x then
    Ok (if Float64.in_int64 (int_of x) then int_of x else cast_out_of_range x)
  else Raise (Exn "IntCastingNaNError"
                "Cannot convert non-finite values (NA or inf) to integer").

(** One value of [np.round(forecast['yhat'] * month_end_factor).astype(int)]:
    the float64 product, rounded, as an int64. *)
Definition smooth_at `{PandasEnv} (y f : Q) : result Z :=
  astype_int (np_round (Float64.fmul y f)).

(** [np.round(forecast['yhat'] * month_end_factor).astype(int)]; operands of
    different lengths do not broadcast. *)
Definition smooth `{PandasEnv} (yhat factor : list Q) : result (list Z) :=
  if (length yhat =? length factor)%nat then
    mapM (fun p => smooth_at p.1 p.2) (zip yhat factor)
  else Raise (ValueError "operands could not be broadcast together").

(** [.clip(lower=0)] *)
Definition clip_lower0 (z : Z) : Z := Z.max z 0.

(** Python's [min(a, b)] and [max(a, b)]: the first argument unless the
    second is strictly smaller (larger). *)
Definition py_min (a b : Q) : Q := if Qle_bool a b then a else b.
Definition py_max (a b : Q) : Q := if Qle_bool b a then a else b.

(** Body of the [iterrows] loop. *)
Definition reconcile (len_df : nat) (models : Models) (idx : nat) (row : Counts) : Counts :=
  if negb (c_adult_tickets row + c_child_tickets row =? c_total_visitors row) then
    let X_pred := Z.of_nat len_df + (Z.of_nat idx - 0) + 1 in
    let adult_pct := lr_predict (adult_percentage_model models) X_pred in
    let adult_pct := py_max 0 (py_min 100 adult_pct) in
    let adult_tickets :=
      round_half_even (inject_Z (c_total_visitors row) * adult_pct / 100) in
    let child_tickets := c_total_visitors row - adult_tickets in
    {| c_date := c_date row;
       c_total_visitors := c_total_visitors row;
       c_adult_tickets := adult_tickets;
       c_child_tickets := child_tickets |}
  else row.

(** Prices, revenue and date components of one row. *)
Definition finish (models : Models) (row : Counts) : PredictionRecord :=
  let adult_price := last_adult_price models in
  let child_price := last_child_price models in
  let adult_revenue := (inject_Z (c_adult_tickets row) * adult_price)%Q in
  let child_revenue := (inject_Z (c_child_tickets row) * child_price)%Q in
  {| date := c_date row;
     total_visitors := c_total_visitors row;
     adult_tickets := c_adult_tickets row;
     child_tickets := c_child_tickets row;
     adult_price := adult_price;
     child_price := child_price;
     adult_revenue := adult_revenue;
     child_revenue := child_revenue;
     total_revenue := (adult_revenue + child_revenue)%Q;
     year := dt_year (c_date row);
     month := dt_month (c_date row);
     day := dt_day (c_date row);
     dayofweek := dt_dayofweek (c_date row);
     is_weekend := is_weekend_of (dt_dayofweek (c_date row));
     day_name := dt_day_name (c_date row);
     month_name := dt_month_name (c_date row) |}.

(** [pd.DataFrame({'date': ..., 'total_visitors': ..., ...})] followed by the
    three [clip(lower=0)]. *)
Fixpoint clipped_frame (dates : list Z) (total adult child : list Z) : list Counts :=
  match dates, total, adult, child with
  | d :: dates', t :: total', a :: adult', c :: child' =>
      {| c_date := d;
         c_total_visitors := clip_lower0 t;
         c_adult_tickets := clip_lower0 a;
         c_child_tickets := clip_lower0 c |}
      :: clipped_frame dates' total' adult' child'
  | _, _, _, _ => []
  end.

(** The frame after smoothing and clamping, before the reconciliation
    loop. *)
Definition smoothed_counts `{PandasEnv} (df : frame) (models : Models) (days : Z)
  : result (list Counts) :=
  dates ← getitem "date" df;
  let last_date := date_max dates in
  future_dates ← date_range ((fun t => t + 1 * NS_PER_DAY) <$> last_date) days;
  total_visitors_forecast ← predict (total_visitors_model models) future_dates;
  adult_tickets_forecast ← predict (adult_tickets_model models) future_dates;
  child_tickets_forecast ← predict (child_tickets_model models) future_dates;
  let factor := month_end_factor future_dates in
  total_visitors ← smooth total_visitors_forecast factor;
  adult_tickets ← smooth adult_tickets_forecast factor;
  child_tickets ← smooth child_tickets_forecast factor;
  Ok (clipped_frame future_dates total_visitors adult_tickets child_tickets).

Definition predict_future_attendance `{PandasEnv} (df : frame) (models : Models) (days : Z)
  : result (list PredictionRecord) :=
  predictions ← smoothed_counts df models days;
  let predictions := imap (reconcile (nrows df) models) predictions in
  Ok (finish models <$> predictions).

End Prediction.

(* ===================================================================== *)
(** ** Column operations of pandas used by utils/data_processing.py       *)
(* ===================================================================== *)

Module Series.

(** A column of dtype int64 / float64: numbers and NaN only. *)
Definition is_number (c : cell) : bool :=
  match c with Num _ | Null => true | _ => false end.

Definition numeric (c : list cell) : bool := forallb is_number c.

Definition cell_binop (op : Q -> Q -> cell) (a b : cell) : cell :=
  match a, b with
  | Num x, Num y => op x y
  | _, _ => Null
  end.

(** Element-wise arithmetic of two columns of one frame. A column that
    holds text or dates does not support it. *)
Definition col_binop (op : Q -> Q -> cell) (a b : list cell) : result (list cell) :=
  if numeric a && numeric b then Ok (zip_with (cell_binop op) a b)
  else Raise (TypeError "unsupported operand type(s)").

Definition col_add := col_binop (fun x y => Num (x + y)).
Definition col_mul := col_binop (fun x y => Num (x * y)).

(** A float64 result as a cell; an infinity is [Null] here, as NaN is. *)
Definition float_cell (x : Q) : cell := if Float64.finite x then Num x else Null.

(** True division, in float64. Division by zero gives an infinity or NaN in
    pandas; both are [Null] here. *)
Definition cell_div (x y : Q) : cell :=
  if Qeq_bool y 0 then Null else float_cell (Float64.fdiv x y).

Definition col_div := col_binop cell_div.

(** [s * k] for a float64 column and a Python number [k] *)
Definition cell_scale (k : Q) (x : cell) : cell :=
  match x with Num q => float_cell (Float64.fmul q k) | _ => Null end.

Definition col_scale (k : Q) (a : list cell) : result (list cell) :=
  if numeric a then Ok (cell_scale k <$> a)
  else Raise (TypeError "unsupported operand type(s)").

Definition observations (c : list cell) : list Q :=
  omap (fun x => match x with Num q => Some q | _ => None end) c.

Definition Qsum (l : list Q) : Q := foldr Qplus 0%Q l.

(** [s.sum()], NaN skipped; the comparison of the sum of a text column with
    a number is a [TypeError]. *)
Definition col_sum (c : list cell) : result Q :=
  if numeric c then Ok (Qsum (observations c))
  else Raise (TypeError "'>' not supported between instances of 'str' and 'int'").

Definition mean_cell (window : list cell) : cell :=
  match observations window with
  | [] => Null
  | obs => Num (Qsum obs / inject_Z (Z.of_nat (length obs)))
  end.

(** [s.rolling(window=w, min_periods=1).mean()]: at position [i] the mean of
    the observed values among positions [i-w+1 .. i]. *)
Definition rolling_mean (w : nat) (c : list cell) : result (list cell) :=
  if numeric c then
    Ok ((fun i => mean_cell (drop (S i - w) (take (S i) c))) <$> seq 0 (length c))
  else Raise (Exn "DataError" "No numeric types to aggregate").

Definition INT64_MAX : Z := Float64.INT64_MAX.

(** A number of nanoseconds as a timestamp; outside the int64 range the
    coercion gives NaT. *)
Definition timestamp_of_ns (ns : Z) : cell :=
  if (- INT64_MAX <=? ns) && (ns <=? INT64_MAX) then Date ns else Null.

Section WithEnv.
Context `{PandasEnv}.

(** [pd.to_numeric(s, errors='coerce')] *)
Definition to_numeric (c : list cell) : list cell :=
  (fun x =>
     match x with
     | Num q => Num q
     | Str s => match parse_numeric s with Some q => Num q | None => Null end
     | Date t => Num (inject_Z t)
     | Null => Null
     end) <$> c.

(** [s.fillna(0)] *)
Definition fillna0 (c : list cell) : list cell :=
  (fun x => match x with Null => Num 0 | _ => x end) <$> c.

(** [pd.to_datetime(s, errors='coerce', format=fmt)], and with
    [unit='s'] / [unit='ms'] when [ns_per_unit] is 10^9 / 10^6. Dates stay
    as they are, numbers count units since the epoch, text is parsed. *)
Definition to_datetime_cell (fmt : option string) (ns_per_unit : Z) (x : cell) : result cell :=
  match x with
  | Date t => Ok (Date t)
  | Null => Ok Null
  | Num q => Ok (timestamp_of_ns (int_of (q * inject_Z ns_per_unit)))
  | Str s =>
      r ← parse_datetime fmt s;
      Ok (match r with Some t => Date t | None => Null end)
  end.

Definition to_datetime (fmt : option string) (ns_per_unit : Z) (c : list cell)
  : result (list cell) :=
  mapM (to_datetime_cell fmt ns_per_unit) c.

(** Sort key of a date cell; NaT comes last. *)
Definition date_le (a b : cell) : bool :=
  match a, b with
  | Date x, Date y => x <=? y
  | Date _, _ => true
  | _, Date _ => false
  | _, _ => true
  end.

Fixpoint insert_by_date (x : cell * nat) (l : list (cell * nat)) : list (cell * nat) :=
  match l with
  | [] => [x]
  | y :: l' => if date_le x.1 y.1 then x :: l else y :: insert_by_date x l'
  end.

(** Positions of the rows in ascending date order; rows with equal dates
    keep their relative order. *)
Definition stable_argsort (c : list cell) : list nat :=
  snd <$> foldr insert_by_date [] (zip c (seq 0 (length c))).

Definition is_date (c : cell) : bool :=
  match c with Date _ => true | _ => false end.

(** [items[~mask]] of a datetime column: the dates, as nanoseconds *)
Definition non_nans (c : list cell) : list Z :=
  omap (fun x => match x with Date t => Some t | _ => None end) c.

(** [p] holds each of the positions [0 .. n-1] once. *)
Definition is_permutation (p : list nat) (n : nat) : bool :=
  (length p =? n)%nat && forallb (fun i => existsb (Nat.eqb i) p) (seq 0 n).

Fixpoint nondecreasing (l : list Z) : bool :=
  match l with
  | x :: rest =>
      match rest with
      | y :: _ => (x <=? y) && nondecreasing rest
      | [] => true
      end
  | [] => true
  end.

(** [values.argsort(kind='quicksort')]: the answer of the environment, as
    long as it is an ascending arrangement of the positions; the stable
    arrangement stands in for any other answer. *)
Definition quicksort (values : list Z) : list nat :=
  let p := argsort_quicksort values in
  if is_permutation p (length values)
     && nondecreasing ((fun i => nth i values 0) <$> p)
  then p
  else stable_argsort (Date <$> values).

(** [nargsort(s, kind='quicksort', na_position='last')] of a datetime
    column: the dates by [quicksort], then the rows without a date. *)
Definition argsort (c : list cell) : list nat :=
  let idx := seq 0 (length c) in
  let nonnan_idx := List.filter (fun i => is_date (nth i c Null)) idx in
  let nan_idx := List.filter (fun i => negb (is_date (nth i c Null))) idx in
  ((fun j => nth j nonnan_idx 0%nat) <$> quicksort (non_nans c)) ++ nan_idx.

Fixpoint ascending (c : list cell) : bool :=
  match c with
  | x :: rest =>
      match rest with
      | y :: _ => date_le x y && ascending rest
      | [] => true
      end
  | [] => true
  end.

(** [df.sort_values(name)] *)
Definition sort_values (name : string) (df : frame) : frame :=
  take_rows (argsort (col name df)) df.

End WithEnv.

(** [df.columns = [f(c) for c in df.columns]] (labels that become equal are
    not represented: one of the columns survives). *)
Definition rename_columns (f : string -> string) (df : frame) : frame :=
  Frame (nrows df) (list_to_map (prod_map f id <$> map_to_list (cols df))).

(** [df.columns.str.lower()] for labels that are strings *)
Definition lower_labels (df : frame) : frame := rename_columns lower df.

(** [df.columns = df.columns.str.lower()]: the [.str] accessor of a numeric
    index raises. *)
Definition lower_columns (df : table) : result frame :=
  match df with
  | Labelled df => Ok (lower_labels df)
  | Numbered _ _ =>
      Raise (AttributeError "Can only use .str accessor with string values!")
  end.

(** [df.columns]: the labels in the order of the environment, as long as
    that is an arrangement of the labels of the frame. *)
Definition columns `{PandasEnv} (df : frame) : list string :=
  let labels := (map_to_list (cols df)).*1 in
  let order := column_order (cols df) in
  if (length order =? length labels)%nat
     && forallb (fun k => existsb (String.eqb k) order) labels
  then order
  else labels.

(** [s.dt.f] *)
Definition dt (f : Z -> cell) (c : list cell) : list cell :=
  (fun x => match x with Date t => f t | _ => Null end) <$> c.

(** [s.isin([5, 6]).astype(int)] *)
Definition isin_5_6 (c : list cell) : list cell :=
  (fun x =>
     match x with
     | Num d => if Qeq_bool d 5 || Qeq_bool d 6 then Num 1 else Num 0
     | _ => Num 0
     end) <$> c.

End Series.
Export Series.

(* ===================================================================== *)
(** ** utils/data_processing.py: process_zoo_data                         *)
(* ===================================================================== *)

Module DataProcessing.

Section WithEnv.
Context `{PandasEnv}.

Definition FMT_AMPM_SECONDS : string := "%m/%d/%Y %I:%M:%S %p".
Definition FMT_24H : string := "%m/%d/%Y %H:%M".

(** "Handle the date column - first check if it exists": build [date] from
    [booking date] when it is missing. *)
Definition with_date_column (df : frame) : result frame :=
  if negb (has_column "date" df) then
    if has_column "booking date" df then
      try_except
        (d ← to_datetime (Some FMT_AMPM_SECONDS) 1 (col "booking date" df);
         d ← (if all_null d
              then to_datetime (Some FMT_24H) 1 (col "booking date" df)
              else Ok d);
         d ← (if all_null d
              then to_datetime None 1 (col "booking date" df)
              else Ok d);
         Ok (set_col "date" d df))
        (fun _ => Ok (set_col "date" (col "booking date" df) df))
    else Raise (ValueError "No 'date' or 'booking date' column found in the data")
  else Ok df.

(** "Ensure date column is datetime", "Drop rows with invalid dates",
    "Sort by date". *)
Definition valid_sorted_dates (df : frame) : result frame :=
  d ← to_datetime None 1 (col "date" df);
  let df := set_col "date" d df in
  let invalid_dates := count_null (col "date" df) in
  let df := if (0 <? invalid_dates)%nat then dropna "date" df else df in
  Ok (sort_values "date" df).

(** The pattern
    [if t not in df.columns and s in df.columns: df[t] = to_numeric(df[s]).fillna(0)
     elif t not in df.columns: df[t] = 0]. *)
Definition map_optional_tickets (target source : string) (df : frame) : frame :=
  if negb (has_column target df) && has_column source df then
    set_col target (fillna0 (to_numeric (col source df))) df
  else if negb (has_column target df) then
    set_col target (broadcast df (Num 0)) df
  else df.

(** The same without the [elif]. *)
Definition map_main_tickets (target source : string) (df : frame) : frame :=
  if negb (has_column target df) && has_column source df then
    set_col target (fillna0 (to_numeric (col source df))) df
  else df.

Definition zeros_if_missing (target : string) (df : frame) : frame :=
  if negb (has_column target df) then set_col target (broadcast df (Num 0)) df else df.

(** "Map ticket type columns if not already mapped" *)
Definition map_ticket_columns (df : frame) : frame :=
  let df := map_main_tickets "adult_tickets" "adult tickets" df in
  let df := map_main_tickets "child_tickets" "child tickets" df in
  let df := map_optional_tickets "foreigner_tickets" "foreigner tickets" df in
  let df := map_optional_tickets "camera_tickets" "camera tickets" df in
  let df := map_optional_tickets "hend_camera_tickets" "h-end camera tickets" df in
  let df := zeros_if_missing "adult_tickets" df in
  zeros_if_missing "child_tickets" df.

(** "Calculate total visitors - include all ticket types"; camera tickets
    are not added. *)
Definition calculate_total_visitors (df : frame) : result frame :=
  v ← col_add (col "adult_tickets" df) (col "child_tickets" df);
  let df := set_col "total_visitors" v df in
  if has_column "foreigner_tickets" df then
    v ← col_add (col "total_visitors" df) (col "foreigner_tickets" df);
    Ok (set_col "total_visitors" v df)
  else Ok df.

Definition default_price (name : string) (price : Q) (df : frame) : frame :=
  if negb (has_column name df) then set_col name (broadcast df (Num price)) df else df.

(** "Set default prices if not present" *)
Definition default_prices (df : frame) : frame :=
  let df := default_price "adult_price" 25 df in
  let df := default_price "child_price" 15 df in
  let df := default_price "foreigner_price" 50 df in
  let df := default_price "camera_price" 10 df in
  default_price "hend_camera_price" 20 df.

(** [if t in df.columns and df[t].sum() > 0: df[r] = df[t] * df[p]
     else: df[r] = 0] *)
Definition optional_revenue (revenue tickets price : string) (df : frame) : result frame :=
  positive ← (if has_column tickets df
              then s ← col_sum (col tickets df); Ok (negb (Qle_bool s 0))
              else Ok false);
  if (positive : bool) then
    v ← col_mul (col tickets df) (col price df);
    Ok (set_col revenue v df)
  else Ok (set_col revenue (broadcast df (Num 0)) df).

(** "Calculate revenue by ticket type", "Add revenues for additional ticket
    types" *)
Definition revenue_by_type (df : frame) : result frame :=
  v ← col_mul (col "adult_tickets" df) (col "adult_price" df);
  let df := set_col "adult_revenue" v df in
  v ← col_mul (col "child_tickets" df) (col "child_price" df);
  let df := set_col "child_revenue" v df in
  df ← optional_revenue "foreigner_revenue" "foreigner_tickets" "foreigner_price" df;
  df ← optional_revenue "camera_revenue" "camera_tickets" "camera_price" df;
  optional_revenue "hend_camera_revenue" "hend_camera_tickets" "hend_camera_price" df.

(** "Use actual total from data if available, otherwise calculate" *)
Definition calculate_total_revenue (df : frame) : result frame :=
  if has_column "total amount (inr)" df then
    Ok (set_col "total_revenue" (col "total amount (inr)" df) df)
  else
    v ← col_add (col "adult_revenue" df) (col "child_revenue" df);
    v ← col_add v (col "foreigner_revenue" df);
    v ← col_add v (col "camera_revenue" df);
    v ← col_add v (col "hend_camera_revenue" df);
    Ok (set_col "total_revenue" v df).

Definition num_of (f : Z -> Z) (t : Z) : cell := Num (inject_Z (f t)).

(** "Add date components for analysis" *)
Definition date_components (df : frame) : frame :=
  let df := set_col "year" (dt (num_of dt_year) (col "date" df)) df in
  let df := set_col "month" (dt (num_of dt_month) (col "date" df)) df in
  let df := set_col "day" (dt (num_of dt_day) (col "date" df)) df in
  let df := set_col "dayofweek" (dt (num_of dt_dayofweek) (col "date" df)) df in
  let df := set_col "is_weekend" (isin_5_6 (col "dayofweek" df)) df in
  let df := set_col "day_name" (dt (fun t => Str (dt_day_name t)) (col "date" df)) df in
  set_col "month_name" (dt (fun t => Str (dt_month_name t)) (col "date" df)) df.

(** "Calculate 7-day moving averages", "Calculate 30-day moving averages" *)
Definition moving_averages (df : frame) : result frame :=
  v ← rolling_mean 7 (col "total_visitors" df);
  let df := set_col "ma7_visitors" v df in
  v ← rolling_mean 7 (col "total_revenue" df);
  let df := set_col "ma7_revenue" v df in
  v ← rolling_mean 30 (col "total_visitors" df);
  let df := set_col "ma30_visitors" v df in
  v ← rolling_mean 30 (col "total_revenue" df);
  Ok (set_col "ma30_revenue" v df).

(** "Calculate percentage of adult vs child tickets" *)
Definition percentages (df : frame) : result frame :=
  v ← col_div (col "adult_tickets" df) (col "total_visitors" df);
  v ← col_scale 100 v;
  let df := set_col "adult_percentage" v df in
  v ← col_div (col "child_tickets" df) (col "total_visitors" df);
  v ← col_scale 100 v;
  Ok (set_col "child_percentage" v df).

Definition process_zoo_data (df : table) : result frame :=
  df ← lower_columns df;
  df ← with_date_column df;
  df ← valid_sorted_dates df;
  let df := map_ticket_columns df in
  df ← calculate_total_visitors df;
  let df := default_prices df in
  df ← revenue_by_type df;
  df ← calculate_total_revenue df;
  let df := date_components df in
  df ← moving_averages df;
  percentages df.

End WithEnv.

(* --------------------------------------------------------------------- *)
(** *** validate_csv_format                                               *)
(* --------------------------------------------------------------------- *)

(** The dictionary [{'valid': ..., 'error': ...}]. *)
Record validation := Validation { valid : bool; error : option string }.

Definition invalid (msg : string) : validation := Validation false (Some msg).

(** Control flow of the body: fall through to the next statement, [return]
    a dictionary, or raise. *)
Inductive flow (A : Type) : Type :=
| Next (a : A)
| Return (v : validation)
| Throw (e : exn).
Arguments Next {A} a.
Arguments Return {A} v.
Arguments Throw {A} e.

#[export] Instance flow_ret : MRet flow := fun _ a => Next a.
#[export] Instance flow_bind : MBind flow := fun _ _ f m =>
  match m with
  | Next a => f a
  | Return v => Return v
  | Throw e => Throw e
  end.

Definition lift {A} (r : result A) : flow A :=
  match r with
  | Ok a => Next a
  | Raise e => Throw e
  end.

(** [try: m except Exception as e: h e] *)
Definition flow_try {A} (m : flow A) (h : exn -> flow A) : flow A :=
  match m with
  | Throw e => h e
  | _ => m
  end.



Section Validation.
Context `{PandasEnv}.

Definition TAB : ascii := "009"%char.

(** The bytes [PK\x03\x04] and [\xd0\xcf\x11\xe0]. *)
Definition ZIP_MAGIC : string :=
  String "080" (String "075" (String "003" (String "004" EmptyString))).
Definition OLE_MAGIC : string :=
  String "208" (String "207" (String "017" (String "224" EmptyString))).

Definition looks_like_excel (csv_content : string) : bool :=
  str_in ZIP_MAGIC (str_take 100 (encode_utf8 csv_content))
  || str_in OLE_MAGIC (str_take 100 (encode_utf8 csv_content)).

(** "Try to guess the delimiter" *)
Definition guess_delimiter (csv_content : string) : ascii :=
  if char_in ";" (str_take 1000 csv_content) then ";"%char
  else if char_in TAB (str_take 1000 csv_content) then TAB
  else ","%char.

(** "Try reading with the detected delimiter", then the csv module's
    sniffer. *)
Definition read_frame (csv_content : string) : flow frame :=
  let delimiter := guess_delimiter csv_content in
  match read_csv csv_content delimiter with
  | Ok df => Next df
  | Raise _ =>
      match (delimiter ← sniff_delimiter (str_take 1000 csv_content);
             read_csv csv_content delimiter) with
      | Ok df => Next df
      | Raise e =>
          Return (invalid ("Could not parse CSV: " ++ exn_msg e
            ++ ". Please check the file format and ensure it's properly formatted CSV."))
      end
  end.

(** [df.empty or len(df.columns) < 2] *)
Definition empty_or_narrow (df : frame) : bool :=
  (nrows df =? 0)%nat || (size (cols df) =? 0)%nat || (size (cols df) <? 2)%nat.

Definition is_zoo_format (df : frame) : bool :=
  has_column "booking date" df && has_column "adult tickets" df
  && has_column "child tickets" df.

Definition has_total_amount (df : frame) : bool :=
  has_column "total amount (inr)" df
  || has_column "total amount without service charge" df.

Definition counted (c : string) : bool :=
  str_in "ticket" c || str_in "visit" c || str_in "attendance" c.
Definition priced (c : string) : bool :=
  str_in "price" c || str_in "cost" c || str_in "fee" c || str_in "$" c.

(** The [if]/[elif] chain of the substring match, for one required column
    and one column of the file. *)
Definition fuzzy_match (req_col col_lower : string) : bool :=
  if String.eqb req_col "date" then
    str_in "date" col_lower || str_in "day" col_lower || str_in "time" col_lower
  else if String.eqb req_col "adult_tickets" then
    str_in "adult" col_lower && counted col_lower
  else if String.eqb req_col "child_tickets" then
    str_in "child" col_lower && counted col_lower
  else if String.eqb req_col "adult_price" then
    str_in "adult" col_lower && priced col_lower
  else if String.eqb req_col "child_price" then
    str_in "child" col_lower && priced col_lower
  else false.

(** "Map column names based on semantic similarity": the dictionary
    [column_mapping] and the list [missing_columns]. *)
Fixpoint map_columns (zoo_format : bool) (df : frame) (required_columns : list string)
    (column_mapping : gmap string string) (missing_columns : list string)
  : gmap string string * list string :=
  match required_columns with
  | [] => (column_mapping, missing_columns)
  | req_col :: rest =>
      if has_column req_col df then
        map_columns zoo_format df rest (<[req_col := req_col]> column_mapping) missing_columns
      else
        match (if zoo_format then None
               else List.find (fun c => fuzzy_match req_col (lower c)) (columns df)) with
        | Some c =>
            map_columns zoo_format df rest (<[c := req_col]> column_mapping) missing_columns
        | None =>
            map_columns zoo_format df rest column_mapping (missing_columns ++ [req_col])
        end
  end.

(** [str(int(x))] *)
Definition str_of_int (z : Z) : string := NilZero.string_of_int (Z.to_int z).

Definition first_valid (c : list cell) : option cell :=
  List.find (fun x => negb (is_null x)) c.

(** Python's truth value of a number taken from a numeric column. *)
Definition truthy (x : cell) : bool :=
  match x with
  | Num q => negb (Qeq_bool q 0)
  | _ => true
  end.

(** "Check for timestamp column first": the branch of the zoo format that
    converts a Unix timestamp column. *)
Definition date_from_timestamp (timestamp_col : string) (df : frame) : frame :=
  let df := set_col timestamp_col (to_numeric (col timestamp_col df)) df in
  let attempt :=
    match first_valid (col timestamp_col df) with
    | Some sample_ts =>
        let seconds :=
          truthy sample_ts &&
          match sample_ts with
          | Num q => startswith "17" (str_of_int (int_of q))
          | _ => false
          end in
        d ← to_datetime None (if seconds then 1000000000 else 1000000) (col timestamp_col df);
        Ok (set_col "date" d df)
    | None => Ok df
    end in
  match attempt with
  | Ok df' => df'
  | Raise _ =>
      if has_column "booking date" df then set_col "date" (col "booking date" df) df
      else df
  end.

(** The branch that parses the [booking date] text. *)
Definition date_from_booking (df : frame) : frame :=
  let booking := col "booking date" df in
  let attempt :=
    d ← try_except
          (d ← to_datetime (Some FMT_AMPM_SECONDS) 1 booking;
           if all_null d then to_datetime (Some FMT_24H) 1 booking else Ok d)
          (fun _ => to_datetime None 1 booking);
    if all_null d then to_datetime None 1 booking else Ok d in
  match attempt with
  | Ok d => set_col "date" d df
  | Raise _ => set_col "date" booking df
  end.

Definition copy_or_zero (target source : string) (df : frame) : frame :=
  if has_column source df then set_col target (col source df) df
  else set_col target (broadcast df (Num 0)) df.

Definition copy_if_present (target source : string) (df : frame) : frame :=
  if has_column source df then set_col target (col source df) df else df.

(** "If we have the zoo booking format, prepare the data" *)
Definition prepare_zoo_format (has_price_info : bool) (df : frame) : frame :=
  let timestamp_col :=
    List.find (fun c => String.eqb (remove_spaces (lower c)) "timestamp") (columns df) in
  let df :=
    match timestamp_col with
    | Some c => date_from_timestamp c df
    | None => if has_column "booking date" df then date_from_booking df else df
    end in
  let df := copy_if_present "adult_tickets" "adult tickets" df in
  let df := copy_if_present "child_tickets" "child tickets" df in
  let df := copy_or_zero "foreigner_tickets" "foreigner tickets" df in
  let df := copy_or_zero "camera_tickets" "camera tickets" df in
  let df := copy_or_zero "hend_camera_tickets" "h-end camera tickets" df in
  if has_price_info then
    let df := default_price "adult_price" 25 df in
    default_price "child_price" 15 df
  else
    let df := set_col "adult_price" (broadcast df (Num 25)) df in
    set_col "child_price" (broadcast df (Num 15)) df.

(** "Check date format" *)
Definition check_dates (df : frame) : flow frame :=
  flow_try
    (d ← lift (getitem "date" df);
     d ← lift (to_datetime None 1 d);
     let df := set_col "date" d df in
     if all_null (col "date" df) then
       Return (invalid "All values in the 'date' column are invalid. Please ensure dates are in a standard format or valid timestamps.")
     else
       Next (if any_null (col "date" df) then dropna "date" df else df))
    (fun e =>
       Return (invalid ("Error parsing dates: " ++ exn_msg e
         ++ ". The 'date' column should be in a valid date format (e.g., YYYY-MM-DD).")))%string.

(** "Check numeric columns" *)
Fixpoint check_numeric (numeric_columns : list string) (df : frame) : flow frame :=
  match numeric_columns with
  | [] => Next df
  | c :: rest =>
      v ← lift (getitem c df);
      let df := set_col c (to_numeric v) df in
      if any_null (col c df) then
        Return (invalid ("Some values in the '" ++ c
          ++ "' column are not numeric. Please ensure all values are numbers."))
      else check_numeric rest df
  end.

Definition any_negative (c : list cell) : bool :=
  existsb (fun x => match x with Num q => negb (Qle_bool 0 q) | _ => false end) c.

(** "Ensure no negative values" *)
Fixpoint check_non_negative (numeric_columns : list string) (df : frame) : flow unit :=
  match numeric_columns with
  | [] => Next tt
  | c :: rest =>
      v ← lift (getitem c df);
      if any_negative v then
        Return (invalid ("The '" ++ c
          ++ "' column contains negative values, which are not allowed."))
      else check_non_negative rest df
  end.

Definition NUMERIC_COLUMNS : list string :=
  ["adult_tickets"; "child_tickets"; "adult_price"; "child_price"].

(** The statements inside the outer [try]. *)
Definition validate_body (csv_content : string) : flow validation :=
  if looks_like_excel csv_content then
    Return (invalid "This appears to be an Excel file saved with a .csv extension. Please save it as an actual CSV file.")
  else
    df ← read_frame csv_content;
    let df := rename_columns (fun c => lower (strip c)) df in
    if empty_or_narrow df then
      Return (invalid "The file appears to be empty or improperly formatted. Please check that it contains valid CSV data.")
    else
      let zoo_format := is_zoo_format df in
      let has_price_info := zoo_format && has_total_amount df in
      let required_columns :=
        if zoo_format then ["booking date"; "adult tickets"; "child tickets"]
        else ["date"; "adult_tickets"; "child_tickets"; "adult_price"; "child_price"] in
      let '(column_mapping, missing_columns) :=
        map_columns zoo_format df required_columns ∅ [] in
      if negb (bool_decide (missing_columns = [])) then
        Return (invalid ("Missing required columns: " ++ join ", " missing_columns
          ++ ". Available columns: " ++ join ", " (columns df)))
      else
        let df := if zoo_format then prepare_zoo_format has_price_info df else df in
        let df := rename_columns (fun c => default c (column_mapping !! c)) df in
        df ← check_dates df;
        df ← check_numeric NUMERIC_COLUMNS df;
        _ ← check_non_negative NUMERIC_COLUMNS df;
        Return (Validation true None).

(** The whole function: the outer [except Exception] turns whatever was
    raised into an invalid result. *)
Definition validate_csv_format (csv_content : string) : validation :=
  match validate_body csv_content with
  | Next v => v
  | Return v => v
  | Throw e => invalid ("Validation error: " ++ exn_msg e)
  end.

(** Two stages of the body by name: the frame after
    "Convert column names to lowercase and strip whitespace", and the
    frame handed to the date check, prepared when in the zoo format and
    renamed by [column_mapping]. *)
Definition normalized (df : frame) : frame :=
  rename_columns (fun c => lower (strip c)) df.

Definition required_columns_of (zoo_format : bool) : list string :=
  if zoo_format then ["booking date"; "adult tickets"; "child tickets"]
  else ["date"; "adult_tickets"; "child_tickets"; "adult_price"; "child_price"].

Definition mapped (df : frame) : frame :=
  let zoo_format := is_zoo_format df in
  let has_price_info := zoo_format && has_total_amount df in
  let column_mapping :=
    (map_columns zoo_format df (required_columns_of zoo_format) ∅ []).1 in
  let df := if zoo_format then prepare_zoo_format has_price_info df else df in
  rename_columns (fun c => default c (column_mapping !! c)) df.

End Validation.

(** The dictionary returned by [m], if it returns one, is an invalid
    result. *)
Definition returns_invalid {A} (m : flow A) : Prop :=
  match m with
  | Return v => valid v = false
  | _ => True
  end.

End DataProcessing.

(* ===================================================================== *)
(** ** app.py: delimiter of an uploaded CSV                               *)
(* ===================================================================== *)

Module App.

(** "Try to detect the delimiter (comma, semicolon, tab)" in [main], run
    after [validate_csv_format] accepted the content. *)
Definition detect_delimiter (content : string) : ascii :=
  if char_in DataProcessing.TAB (str_take 1000 content) then DataProcessing.TAB
  else if char_in ";" (str_take 1000 content) then ";"%char
  else ","%char.

(** The list [encodings] of [main]. *)
Definition ENCODINGS : list string :=
  [ "utf-8"; "latin-1"; "cp1252"; "iso-8859-1"; "utf-16"; "utf-16-le"; "utf-16-be";
    "ascii"; "mac-roman"; "cp437" ]%string.

(** [file_bytes.decode(encoding)] for the bytes of the upload; [None] is a
    [UnicodeDecodeError]. *)
Definition codec : Type := string -> list Byte.byte -> option string.

(** "Try each encoding until one works": [content] and
    [successful_encoding] after the loop, or [None] when [content is None]. *)
Fixpoint decode_first (decode : codec) (encodings : list string)
    (file_bytes : list Byte.byte) : option (string * string) :=
  match encodings with
  | [] => None
  | encoding :: rest =>
      match decode encoding file_bytes with
      | Some content => Some (content, encoding)
      | None => decode_first decode rest file_bytes
      end
  end.

(** The dictionary [days_map] of [display_prediction_interface]. *)
Definition days_map : list (string * Z) :=
  [ ("30 days"%string, 30); ("3 months"%string, 90); ("6 months"%string, 180);
    ("1 year"%string, 365) ].

(** [days_map[prediction_period]] *)
Definition prediction_days (prediction_period : string) : result Z :=
  match List.find (fun p => String.eqb p.1 prediction_period) days_map with
  | Some p => Ok p.2
  | None => Raise (KeyError prediction_period)
  end.

(** "Generate predictions if not already in session state or if period
    changed": [st.session_state.predictions] after the test, given what it
    held before. *)
Definition session_predictions `{PandasEnv}
    (cached : option (list Prediction.PredictionRecord)) (df : frame)
    (models : Prediction.Models) (prediction_days : Z)
  : result (list Prediction.PredictionRecord) :=
  match cached with
  | None => Prediction.predict_future_attendance df models prediction_days
  | Some predictions =>
      if negb (Z.of_nat (length predictions) =? prediction_days)
      then Prediction.predict_future_attendance df models prediction_days
      else Ok predictions
  end.

(** [latest_date + timedelta(days=1)] and
    [latest_date + timedelta(days=prediction_days)] *)
Definition min_date (latest_date : Z) : Z := latest_date + 1 * NS_PER_DAY.
Definition max_date (latest_date prediction_days : Z) : Z :=
  latest_date + prediction_days * NS_PER_DAY.

(** [pd.Timestamp(selected_date)] for a [datetime.date], given by its day
    number: midnight of that day. *)
Definition timestamp_of_date (selected_date : Z) : Z := selected_date * NS_PER_DAY.

(** [predictions[predictions['date'] == pd.Timestamp(selected_date)]] *)
Definition selected_pred (predictions : list Prediction.PredictionRecord)
    (selected_date : Z) : list Prediction.PredictionRecord :=
  filter (fun r => Prediction.date r = timestamp_of_date selected_date) predictions.

Definition FMT_AMPM : string := "%m/%d/%Y %I:%M %p".

(** [try: df['date'] = pd.to_datetime(df['booking date'], errors='coerce',
    format=fmt) except Exception: print(...)] *)
Definition try_assign_date `{PandasEnv} (fmt : string) (df : frame) : frame :=
  match to_datetime (Some fmt) 1 (col "booking date" df) with
  | Ok d => set_col "date" d df
  | Raise _ => df
  end.

(** "First pre-process the dataframe to ensure date column is created":
    what [main] does to the frame it read before it calls
    [process_zoo_data]. *)
Definition load_dates `{PandasEnv} (df : frame) : result frame :=
  let df := lower_labels df in
  if has_column "booking date" df then
    let df := try_assign_date DataProcessing.FMT_AMPM_SECONDS df in
    d ← getitem "date" df;
    let df := if all_null d then try_assign_date FMT_AMPM df else df in
    d ← getitem "date" df;
    let df := if all_null d then try_assign_date DataProcessing.FMT_24H df else df in
    d ← getitem "date" df;
    if all_null d then
      d ← to_datetime None 1 (col "booking date" df);
      Ok (set_col "date" d df)
    else Ok df
  else Ok df.

(** A validated upload: the frame that [pd.read_excel] made of a
    workbook, or the frame that [pd.read_csv] made of a text, whose labels
    are the strings of the header row. *)
Inductive upload :=
| Workbook (df : table)
| Csv (df : frame).

(** [process_zoo_data(df)] in the two branches of [main]: a workbook goes
    in as it was read, a CSV file after the pre-processing of its dates. *)
Definition process_upload `{PandasEnv} (file : upload) : result frame :=
  match file with
  | Workbook df => DataProcessing.process_zoo_data df
  | Csv df =>
      df ← load_dates df;
      DataProcessing.process_zoo_data (Labelled df)
  end.

End App.

(* ===================================================================== *)
(** ** utils/visualization.py: the monthly summary                        *)
(* ===================================================================== *)

Module Visualization.
Import Prediction.

(** The key of [groupby(['year', 'month', 'month_name'])]. *)
Definition month_key : Type := Z * Z * string.

Definition key_of (r : PredictionRecord) : month_key := (year r, month r, month_name r).

(** Order of the group keys: by year, then month, then name. *)
Definition key_compare (a b : month_key) : comparison :=
  match Z.compare a.1.1 b.1.1 with
  | Eq =>
      match Z.compare a.1.2 b.1.2 with
      | Eq => String.compare a.2 b.2
      | c => c
      end
  | c => c
  end.

(** The sums of [agg_dict] for a frame made by [predict_future_attendance],
    which has none of the optional ticket columns. *)
Record Sums := {
  s_total_visitors : Z;
  s_adult_tickets : Z;
  s_child_tickets : Z;
  s_total_revenue : Q;
}.

Definition sums_of (r : PredictionRecord) : Sums :=
  {| s_total_visitors := total_visitors r;
     s_adult_tickets := adult_tickets r;
     s_child_tickets := child_tickets r;
     s_total_revenue := total_revenue r |}.

Definition add_sums (a b : Sums) : Sums :=
  {| s_total_visitors := s_total_visitors a + s_total_visitors b;
     s_adult_tickets := s_adult_tickets a + s_adult_tickets b;
     s_child_tickets := s_child_tickets a + s_child_tickets b;
     s_total_revenue := (s_total_revenue a + s_total_revenue b)%Q |}.

(** One more row for the groups, which are kept in key order. *)
Fixpoint add_row (k : month_key) (s : Sums) (groups : list (month_key * Sums))
  : list (month_key * Sums) :=
  match groups with
  | [] => [(k, s)]
  | (k', s') :: rest =>
      match key_compare k k' with
      | Eq => (k', add_sums s' s) :: rest
      | Lt => (k, s) :: groups
      | Gt => (k', s') :: add_row k s rest
      end
  end.

(** [predictions_df.groupby([...]).agg(agg_dict).reset_index()] *)
Definition monthly_summary (predictions : list PredictionRecord)
  : list (month_key * Sums) :=
  fold_left (fun groups r => add_row (key_of r) (sums_of r) groups) predictions [].

(** One row of the returned table. *)
Record SummaryRow := {
  Month : string;
  Total_Visitors : Z;
  Adult_Tickets : Z;
  Child_Tickets : Z;
  Total_Revenue : Q;
}.

(** [.round(2)] *)
Definition round2 (x : Q) : Q := (inject_Z (round_half_even (x * 100)) / 100)%Q.

Definition summary_row (g : month_key * Sums) : SummaryRow :=
  {| Month := (g.1.2 ++ " " ++ DataProcessing.str_of_int g.1.1.1)%string;
     Total_Visitors := s_total_visitors g.2;
     Adult_Tickets := s_adult_tickets g.2;
     Child_Tickets := s_child_tickets g.2;
     Total_Revenue := round2 (s_total_revenue g.2) |}.

Definition create_prediction_table (predictions_df : list PredictionRecord)
  : list SummaryRow :=
  summary_row <$> monthly_summary predictions_df.

End Visualization.

(* ===================================================================== *)
(** ** The column assignments of process_zoo_data                         *)
(* ===================================================================== *)

(** After the date column is settled, [process_zoo_data] is a sequence of
    assignments [df[target] = ...], some of them guarded by
    [if target not in df.columns]. This module names them one by one; that
    the sequence is the function is [process_zoo_data_assignments] below. *)
Module Assignments.

Record step := Step {
  target : string;
  (** [false]: the assignment is skipped when the column exists *)
  always : bool;
  (** [true]: the assignment is never skipped for another reason *)
  sure : bool;
  (** the labels it looks at *)
  reads : list string;
  (** those it reads without testing that they exist *)
  needs : list string;
  (** the assigned column; [None] when nothing is assigned *)
  compute : frame -> result (option (list cell));
}.

Definition run_step (s : step) (df : frame) : result frame :=
  if negb (always s) && has_column (target s) df then Ok df
  else
    o ← compute s df;
    Ok (match o with Some v => set_col (target s) v df | None => df end).

Fixpoint run_steps (l : list step) (df : frame) : result frame :=
  match l with
  | [] => Ok df
  | s :: rest => df' ← run_step s df; run_steps rest df'
  end.

Definition targets (l : list step) : list string := target <$> l.

Section WithEnv.
Context `{PandasEnv}.

Definition main_tickets (t src : string) : step :=
  Step t false false [src] []
    (fun df =>
       if has_column src df then Ok (Some (fillna0 (to_numeric (col src df))))
       else Ok None).

Definition optional_tickets (t src : string) : step :=
  Step t false true [src] []
    (fun df =>
       Ok (Some (if has_column src df then fillna0 (to_numeric (col src df))
                 else broadcast df (Num 0)))).

Definition constant (t : string) (c : cell) : step :=
  Step t false true [] [] (fun df => Ok (Some (broadcast df c))).

Definition visitors : step :=
  Step "total_visitors" true true
    ["adult_tickets"; "child_tickets"; "foreigner_tickets"]
    ["adult_tickets"; "child_tickets"; "foreigner_tickets"]
    (fun df =>
       v ← col_add (col "adult_tickets" df) (col "child_tickets" df);
       if has_column "foreigner_tickets" df then
         v ← col_add v (col "foreigner_tickets" df); Ok (Some v)
       else Ok (Some v)).

Definition product (r a b : string) : step :=
  Step r true true [a; b] [a; b]
    (fun df => v ← col_mul (col a df) (col b df); Ok (Some v)).

Definition optional_product (r t p : string) : step :=
  Step r true true [t; p] [t; p]
    (fun df =>
       positive ← (if has_column t df
                   then s ← col_sum (col t df); Ok (negb (Qle_bool s 0))
                   else Ok false);
       if (positive : bool) then v ← col_mul (col t df) (col p df); Ok (Some v)
       else Ok (Some (broadcast df (Num 0)))).

Definition revenue_total : step :=
  Step "total_revenue" true true
    ["total amount (inr)"; "adult_revenue"; "child_revenue"; "foreigner_revenue";
     "camera_revenue"; "hend_camera_revenue"]
    ["adult_revenue"; "child_revenue"; "foreigner_revenue";
     "camera_revenue"; "hend_camera_revenue"]
    (fun df =>
       if has_column "total amount (inr)" df then
         Ok (Some (col "total amount (inr)" df))
       else
         v ← col_add (col "adult_revenue" df) (col "child_revenue" df);
         v ← col_add v (col "foreigner_revenue" df);
         v ← col_add v (col "camera_revenue" df);
         v ← col_add v (col "hend_camera_revenue" df);
         Ok (Some v)).

Definition accessor (t : string) (f : Z -> cell) : step :=
  Step t true true ["date"] ["date"] (fun df => Ok (Some (dt f (col "date" df)))).

Definition weekend : step :=
  Step "is_weekend" true true ["dayofweek"] ["dayofweek"]
    (fun df => Ok (Some (isin_5_6 (col "dayofweek" df)))).

Definition rolling (t : string) (w : nat) (src : string) : step :=
  Step t true true [src] [src]
    (fun df => v ← rolling_mean w (col src df); Ok (Some v)).

Definition percentage (t src : string) : step :=
  Step t true true [src; "total_visitors"] [src; "total_visitors"]
    (fun df =>
       v ← col_div (col src df) (col "total_visitors" df);
       v ← col_scale 100 v;
       Ok (Some v)).

Definition TICKET_STEPS : list step :=
  [ main_tickets "adult_tickets" "adult tickets";
    main_tickets "child_tickets" "child tickets";
    optional_tickets "foreigner_tickets" "foreigner tickets";
    optional_tickets "camera_tickets" "camera tickets";
    optional_tickets "hend_camera_tickets" "h-end camera tickets";
    constant "adult_tickets" (Num 0);
    constant "child_tickets" (Num 0) ].

Definition PRICE_STEPS : list step :=
  [ constant "adult_price" (Num 25);
    constant "child_price" (Num 15);
    constant "foreigner_price" (Num 50);
    constant "camera_price" (Num 10);
    constant "hend_camera_price" (Num 20) ].

Definition REVENUE_STEPS : list step :=
  [ product "adult_revenue" "adult_tickets" "adult_price";
    product "child_revenue" "child_tickets" "child_price";
    optional_product "foreigner_revenue" "foreigner_tickets" "foreigner_price";
    optional_product "camera_revenue" "camera_tickets" "camera_price";
    optional_product "hend_camera_revenue" "hend_camera_tickets" "hend_camera_price" ].

Definition DATE_STEPS : list step :=
  [ accessor "year" (DataProcessing.num_of dt_year);
    accessor "month" (DataProcessing.num_of dt_month);
    accessor "day" (DataProcessing.num_of dt_day);
    accessor "dayofweek" (DataProcessing.num_of dt_dayofweek);
    weekend;
    accessor "day_name" (fun t => Str (dt_day_name t));
    accessor "month_name" (fun t => Str (dt_month_name t)) ].

Definition AVERAGE_STEPS : list step :=
  [ rolling "ma7_visitors" 7 "total_visitors";
    rolling "ma7_revenue" 7 "total_revenue";
    rolling "ma30_visitors" 30 "total_visitors";
    rolling "ma30_revenue" 30 "total_revenue" ].

Definition PERCENTAGE_STEPS : list step :=
  [ percentage "adult_percentage" "adult_tickets";
    percentage "child_percentage" "child_tickets" ].

Definition STEPS : list step :=
  TICKET_STEPS ++ [visitors] ++ PRICE_STEPS ++ REVENUE_STEPS ++ [revenue_total]
  ++ DATE_STEPS ++ AVERAGE_STEPS ++ PERCENTAGE_STEPS.

End WithEnv.

(** Two frames with the same number of rows and the same columns under the
    labels [ks]. *)
Definition agree (ks : list string) (a b : frame) : Prop :=
  nrows a = nrows b /\ forall k, k ∈ ks -> cols a !! k = cols b !! k.

(** Every column has [len(df)] entries. *)
Definition rectangular (df : frame) : Prop :=
  map_Forall (fun _ c => length c = nrows df) (cols df).

Definition present (ks : list string) (df : frame) : Prop :=
  Forall (fun k => is_Some (cols df !! k)) ks.

(** What a [step] record promises about its [compute]. *)
Record step_ok (s : step) : Prop := {
  reads_ok : forall a b, agree (reads s) a b -> compute s a = compute s b;
  length_ok : forall df v,
    rectangular df -> present (needs s) df -> compute s df = Ok (Some v) ->
    length v = nrows df;
  sure_ok : sure s = true -> forall df, compute s df <> Ok None;
}.

(** The order of the assignments: a column read without a test was assigned
    before; an unguarded assignment does not read its own target, and no
    later assignment writes its target or what it reads; a label whose
    guarded assignment may be skipped gets a later one that is not. *)
Fixpoint well_ordered (avail : list string) (l : list step) : Prop :=
  match l with
  | [] => True
  | s :: rest =>
      Forall (fun k => k ∈ avail) (needs s)
      /\ (always s = true ->
          (target s ∉ reads s)
          /\ Forall (fun s' => (target s' ∉ reads s) /\ target s' <> target s) rest)
      /\ (always s = false ->
          sure s = true
          \/ Exists (fun s' => sure s' = true /\ target s' = target s) rest)
      /\ well_ordered (if sure s then target s :: avail else avail) rest
  end.

(** The columns of the frame returned by [process_zoo_data]. *)
Definition CANONICAL_COLUMNS : list string :=
  [ "date"; "adult_tickets"; "child_tickets"; "foreigner_tickets"; "camera_tickets";
    "hend_camera_tickets"; "adult_price"; "child_price"; "foreigner_price";
    "camera_price"; "hend_camera_price"; "adult_revenue"; "child_revenue";
    "foreigner_revenue"; "camera_revenue"; "hend_camera_revenue"; "total_visitors";
    "total_revenue"; "year"; "month"; "day"; "dayofweek"; "is_weekend"; "day_name";
    "month_name"; "ma7_visitors"; "ma7_revenue"; "ma30_visitors"; "ma30_revenue";
    "adult_percentage"; "child_percentage" ]%string.

(** The prices assigned to a missing price column. *)
Definition DEFAULT_PRICES : list (string * Q) :=
  [ ("adult_price"%string, 25%Q); ("child_price"%string, 15%Q);
    ("foreigner_price"%string, 50%Q); ("camera_price"%string, 10%Q);
    ("hend_camera_price"%string, 20%Q) ].


(** Every label is in lower case. *)
Definition lowercase_labels (df : frame) : Prop :=
  map_Forall (fun k _ => lower k = k) (cols df).

(** There is a [date] column, of dates only, in ascending order. *)
Definition dated (df : frame) : Prop :=
  exists d, cols df !! "date"%string = Some d
            /\ forallb is_date d = true /\ ascending d = true.

#[export] Instance well_ordered_dec avail l : Decision (well_ordered avail l).
Proof. revert avail. induction l as [|s l IH]; intros avail; simpl; apply _. Defined.

End Assignments.

(* ===================================================================== *)
(** ** Sample data                                                        *)
(* ===================================================================== *)

(** The argsort of numpy for [kind='quicksort'] on values of one machine
    word, as [npysort/quicksort.cpp] has it without vector instructions:
    median of three, partitions of more than sixteen positions split
    around the pivot, the others sorted by insertion. The switch to
    heapsort at twice the depth of a balanced recursion is left out; the
    fuel stands for it. *)
Module Numpy.

Definition SMALL_QUICKSORT : nat := 16.

(** [v[tosort[i]]] *)
Definition key (v : list Z) (tosort : list nat) (i : nat) : Z :=
  nth (nth i tosort 0%nat) v 0.

(** [INTP_SWAP(tosort[i], tosort[j])] *)
Definition swap (i j : nat) (tosort : list nat) : list nat :=
  <[i := nth j tosort 0%nat]> (<[j := nth i tosort 0%nat]> tosort).

Definition swap_if (b : bool) (i j : nat) (tosort : list nat) : list nat :=
  if b then swap i j tosort else tosort.

(** [do { ++pi; } while (v[*pi] < vp)], entered after the first [++pi] *)
Fixpoint scan_up (fuel : nat) (v : list Z) (tosort : list nat) (vp : Z) (pi : nat) : nat :=
  match fuel with
  | O => pi
  | S fuel' =>
      if key v tosort pi <? vp then scan_up fuel' v tosort vp (S pi) else pi
  end.

(** [do { --pj; } while (vp < v[*pj])], entered after the first [--pj] *)
Fixpoint scan_down (fuel : nat) (v : list Z) (tosort : list nat) (vp : Z) (pj : nat) : nat :=
  match fuel with
  | O => pj
  | S fuel' =>
      if vp <? key v tosort pj then scan_down fuel' v tosort vp (pj - 1) else pj
  end.

(** The [for (;;)] of the partition; gives the array and [pi]. *)
Fixpoint partition (fuel : nat) (v : list Z) (vp : Z) (tosort : list nat) (pi pj : nat)
  : list nat * nat :=
  match fuel with
  | O => (tosort, pi)
  | S fuel' =>
      let pi := scan_up (length tosort) v tosort vp (S pi) in
      let pj := scan_down (length tosort) v tosort vp (pj - 1) in
      if (pj <=? pi)%nat then (tosort, pi)
      else partition fuel' v vp (swap pi pj tosort) pi pj
  end.

(** The [while (pj > pl && vp < v[*pk])] of the insertion sort *)
Fixpoint shift (fuel : nat) (v : list Z) (vp : Z) (pl : nat) (tosort : list nat) (pj : nat)
  : list nat * nat :=
  match fuel with
  | O => (tosort, pj)
  | S fuel' =>
      if (pl <? pj)%nat && (vp <? key v tosort (pj - 1)) then
        shift fuel' v vp pl (<[pj := nth (pj - 1) tosort 0%nat]> tosort) (pj - 1)
      else (tosort, pj)
  end.

(** The insertion sort of the positions [pl .. pr] *)
Definition insertion (v : list Z) (pl pr : nat) (tosort : list nat) : list nat :=
  fold_left
    (fun tosort pi =>
       let vi := nth pi tosort 0%nat in
       let '(tosort, pj) := shift (length tosort) v (nth vi v 0) pl tosort pi in
       <[pj := vi]> tosort)
    (seq (S pl) (pr - pl)) tosort.

(** The outer [while (1)] with its stack of partitions still to sort *)
Fixpoint sort_loop (fuel : nat) (v : list Z) (tosort : list nat) (pl pr : nat)
    (stack : list (nat * nat)) : list nat :=
  match fuel with
  | O => tosort
  | S fuel' =>
      if (SMALL_QUICKSORT <? pr - pl)%nat then
        let pm := (pl + (pr - pl) / 2)%nat in
        let tosort := swap_if (key v tosort pm <? key v tosort pl) pm pl tosort in
        let tosort := swap_if (key v tosort pr <? key v tosort pm) pr pm tosort in
        let tosort := swap_if (key v tosort pm <? key v tosort pl) pm pl tosort in
        let vp := key v tosort pm in
        let tosort := swap pm (pr - 1) tosort in
        let '(tosort, pi) := partition (length tosort) v vp tosort pl (pr - 1) in
        let tosort := swap pi (pr - 1) tosort in
        if (pi - pl <? pr - pi)%nat then
          sort_loop fuel' v tosort pl (pi - 1) ((S pi, pr) :: stack)
        else
          sort_loop fuel' v tosort (S pi) pr ((pl, (pi - 1)%nat) :: stack)
      else
        let tosort := insertion v pl pr tosort in
        match stack with
        | [] => tosort
        | (pl, pr) :: stack => sort_loop fuel' v tosort pl pr stack
        end
  end.

Definition aquicksort (v : list Z) : list nat :=
  match v with
  | [] => []
  | _ =>
      sort_loop (2 * length v + 2) v (seq 0 (length v)) 0 (length v - 1) []
  end.

End Numpy.

Module Demo.

(** An environment whose parsers recognise nothing; it sorts as numpy
    does, casts as the x86-64 instruction does, and has the labels of a
    frame in the order of the map. *)
Definition env : PandasEnv := {|
  read_csv := fun _ _ => Raise (Exn "ParserError" "Error tokenizing data");
  sniff_delimiter := fun _ => Raise (Exn "Error" "Could not determine delimiter");
  parse_datetime := fun _ _ => Ok None;
  parse_numeric := fun _ => None;
  negative_periods := Exn "OverflowError" "out of bounds for uint64";
  argsort_quicksort := Numpy.aquicksort;
  cast_out_of_range := fun _ => Float64.INT64_MIN;
  column_order := fun m => (map_to_list m).*1;
|}.

(** A forecaster whose point forecast is the same on every day. *)
Definition constant_forecaster (y : Q) : Prediction.Forecaster :=
  {| Prediction.yhat := fun ds => Ok ((fun _ => y) <$> ds) |}.

Definition models_of (f : Q -> Prediction.Forecaster) (total adult child : Q)
  : Prediction.Models :=
  {| Prediction.total_visitors_model := f total;
     Prediction.adult_tickets_model := f adult;
     Prediction.child_tickets_model := f child;
     Prediction.adult_percentage_model :=
       {| Prediction.coef := 0; Prediction.intercept := 70 |};
     Prediction.last_adult_price := 25;
     Prediction.last_child_price := 15 |}.

(** 2025-03-27 and 2025-03-28, as day numbers 20174 and 20175. *)
Definition history : frame :=
  Frame 2 {[ "date"%string := [Date (20174 * NS_PER_DAY); Date (20175 * NS_PER_DAY)] ]}.

(** Three bookings as the application hands them to [process_zoo_data]:
    30 March 2025, a row without a usable date, 19 March 2025. The export
    has the amount without service charge and no [Total Amount (INR)]. *)
Definition ledger : frame :=
  Frame 3
    (list_to_map
       [ ("date"%string, [Date (20177 * NS_PER_DAY); Null; Date (20166 * NS_PER_DAY)]);
         ("Adult Tickets"%string, [Num 6; Num 4; Num 7]);
         ("Child Tickets"%string, [Num 3; Num 4; Num 1]);
         ("Foreigner Tickets"%string, [Num 3; Num 0; Num 1]);
         ("Camera Tickets"%string, [Num 0; Num 1; Num 2]);
         ("Total Amount Without Service Charge"%string, [Num 600; Num 100; Num 550]) ]).

(** A tab-separated export of the booking system in which a name holds a
    semicolon. *)
Definition tabbed_export : string :=
  let tab := String DataProcessing.TAB EmptyString in
  let newline := String "010" EmptyString in
  ("Booking Date" ++ tab ++ "Whatsapp Name" ++ tab ++ "Adult Tickets" ++ tab
   ++ "Child Tickets" ++ newline
   ++ "3/19/2025 9:37" ++ tab ++ "Neha; family" ++ tab ++ "7" ++ tab ++ "1"
   ++ newline)%string.

(** An environment in which [pd.read_csv] gives the frame [df] whatever the
    text, and the two booking times of the template are the only text
    recognised as a date, under the 24-hour format and under free
    parsing. *)
Definition reading (df : frame) : PandasEnv := {|
  read_csv := fun _ _ => Ok df;
  sniff_delimiter := fun _ => Ok ","%char;
  parse_datetime := fun fmt s =>
    Ok (if bool_decide (fmt = Some DataProcessing.FMT_AMPM_SECONDS) then None
        else if String.eqb s "3/19/2025 9:37"
             then Some (20166 * NS_PER_DAY + 34620000000000)
        else if String.eqb s "3/30/2025 9:06"
             then Some (20177 * NS_PER_DAY + 32760000000000)
        else None);
  parse_numeric := fun _ => None;
  negative_periods := Exn "OverflowError" "out of bounds for uint64";
  argsort_quicksort := Numpy.aquicksort;
  cast_out_of_range := fun _ => Float64.INT64_MIN;
  column_order := fun m => (map_to_list m).*1;
|}.

(** The two rows of the template of the application, as [pd.read_csv]
    types them. *)
Definition template : frame :=
  Frame 2
    (list_to_map
       [ ("Booking Date"%string, [Str "3/19/2025 9:37"; Str "3/30/2025 9:06"]);
         ("Adult Tickets"%string, [Num 7; Num 6]);
         ("Child Tickets"%string, [Num 1; Num 3]);
         ("Foreigner Tickets"%string, [Num 1; Num 3]);
         ("Camera Tickets"%string, [Num 2; Num 0]);
         ("H-END Camera Tickets"%string, [Num 0; Num 0]);
         ("Total Amount (INR)"%string, [Num (1133 # 2); Num 618]) ]).

(** A file with a date column and one column whose name matches all four
    numeric fields. *)
Definition ambiguous : frame :=
  Frame 1
    (list_to_map
       [ ("date"%string, [Str "3/19/2025 9:37"]);
         ("adult child ticket price"%string, [Num 5]) ]).

(** [process_zoo_data ledger], evaluated: two rows, 19 and 30 March. *)
Definition enriched : frame :=
  Eval vm_compute in
    match DataProcessing.process_zoo_data (H := env) ledger with
    | Ok e => e
    | Raise _ => Frame 0 ∅
    end.

(** Forecasts of 100 / 70 / 20 a day for the four days after [history]:
    the smoothed and clamped counts of 29, 30, 31 March and 1 April 2025. *)
Definition smoothed : list Prediction.Counts :=
  [ Prediction.Build_Counts 1743206400000000000 110 77 22;
    Prediction.Build_Counts 1743292800000000000 115 80 23;
    Prediction.Build_Counts 1743379200000000000 120 84 24;
    Prediction.Build_Counts 1743465600000000000 100 70 20 ].

(** The four rows predicted from [history] with forecasts 100 / 70 / 20. *)
Definition forecast : list Prediction.PredictionRecord :=
  Eval vm_compute in
    match Prediction.predict_future_attendance (H := env) history
            (models_of constant_forecaster 100 70 20) 4 with
    | Ok rows => rows
    | Raise _ => []
    end.

(** Forecasts of 100 / 70 / 30 a day: the smoothed counts of the first day
    add up, those of the second (80.5 and 34.5 before rounding) do not. *)
Definition smoothed_consistent : list Prediction.Counts :=
  [ Prediction.Build_Counts 1743206400000000000 110 77 33;
    Prediction.Build_Counts 1743292800000000000 115 80 34 ].

(** The forecasters of [models_of] with a trend of the adult share that
    stays at 150 per cent. *)
Definition optimistic : Prediction.Models :=
  {| Prediction.total_visitors_model := constant_forecaster 100;
     Prediction.adult_tickets_model := constant_forecaster 70;
     Prediction.child_tickets_model := constant_forecaster 20;
     Prediction.adult_percentage_model :=
       {| Prediction.coef := 0; Prediction.intercept := 150 |};
     Prediction.last_adult_price := 25;
     Prediction.last_child_price := 15 |}.

(** The thirty rows predicted from [history] for the period "30 days". *)
Definition forecast30 : list Prediction.PredictionRecord :=
  Eval vm_compute in
    match Prediction.predict_future_attendance (H := env) history
            (models_of constant_forecaster 100 70 20) 30 with
    | Ok rows => rows
    | Raise _ => []
    end.

(** A history whose only booking was made on 30 March 2025 at 9:06. *)
Definition timed_history : frame :=
  Frame 1 {[ "date"%string := [Date (20177 * NS_PER_DAY + 32760000000000)] ]}.

(** The four rows predicted from [timed_history]. *)
Definition timed_forecast : list Prediction.PredictionRecord :=
  Eval vm_compute in
    match Prediction.predict_future_attendance (H := env) timed_history
            (models_of constant_forecaster 100 70 20) 4 with
    | Ok rows => rows
    | Raise _ => []
    end.

(** A codec that knows two encodings: utf-8 on ASCII bytes only, and
    latin-1. *)
Definition sample_codec : App.codec := fun encoding file_bytes =>
  if String.eqb encoding "utf-8" then
    if forallb (fun b => (Byte.to_N b <? 128)%N) file_bytes
    then Some (string_of_list_byte file_bytes)
    else None
  else if String.eqb encoding "latin-1" then Some (string_of_list_byte file_bytes)
  else None.

(** The sample bookings with their labels in lower case. *)
Definition received : frame := lower_labels ledger.

(** An upload without any date column. *)
Definition counts_only : frame :=
  Frame 1 (list_to_map [ ("Adult Tickets"%string, [Num 5]);
                         ("Child Tickets"%string, [Num 2]) ]).

(** A sheet without a heading row: two columns numbered 0 and 1. *)
Definition unlabelled : table :=
  Numbered 1 [[Str "3/19/2025 9:37"]; [Num 7]].

(** A history whose dates are all NaT. *)
Definition undated : frame :=
  Frame 2 {[ "date"%string := [Null; Null] ]}.

(** Eighteen bookings of 19 March 2025, for 1, 2, ... 18 adults. *)
Definition busy_day : frame :=
  Frame 18
    (list_to_map
       [ ("date"%string, replicate 18 (Date (20166 * NS_PER_DAY)));
         ("adult_tickets"%string, (fun n => Num (inject_Z (Z.of_nat n))) <$> seq 1 18);
         ("child_tickets"%string, replicate 18 (Num 0)) ]).

(** [process_zoo_data busy_day], evaluated. *)
Definition busy_day_enriched : frame :=
  Eval vm_compute in
    match DataProcessing.process_zoo_data (H := env) busy_day with
    | Ok e => e
    | Raise _ => Frame 0 ∅
    end.

(** [process_zoo_data busy_day_enriched], evaluated. *)
Definition busy_day_again : frame :=
  Eval vm_compute in
    match DataProcessing.process_zoo_data (H := env) busy_day_enriched with
    | Ok e => e
    | Raise _ => Frame 0 ∅
    end.

End Demo.

(* ===================================================================== *)
(** * Properties                                                          *)
(* ===================================================================== *)

(** ** Rounding and clipping *)

Lemma round_half_even_bounds (x : Q) (n : Z) :
  (0 <= x)%Q -> (x <= inject_Z n)%Q -> 0 <= round_half_even x <= n.
Proof.
  intros H0 Hn. unfold round_half_even.
  assert (Hf0 : 0 <= Qfloor x).
  { change 0 with (Qfloor 0). now apply Qfloor_resp_le. }
  assert (Hfn : Qfloor x <= n).
  { rewrite <- (Qfloor_Z n). now apply Qfloor_resp_le. }
  assert (Hlt : (0 < x - inject_Z (Qfloor x))%Q -> Qfloor x + 1 <= n).
  { intros Hpos.
    destruct (Z.eq_dec (Qfloor x) n) as [E|E]; [|lia].
    rewrite E in Hpos. exfalso. lra. }
  destruct (Qcompare (x - inject_Z (Qfloor x)) (1 # 2)) eqn:E.
  - apply Qeq_alt in E. destruct (Z.even (Qfloor x)); [lia|].
    split; [lia|]. apply Hlt. rewrite E. reflexivity.
  - lia.
  - apply Qgt_alt in E. split; [lia|]. apply Hlt.
    eapply Qlt_trans; [|exact E]. reflexivity.
Qed.

Lemma clip_pct_range (p : Q) :
  (0 <= Prediction.py_max 0 (Prediction.py_min 100 p) <= 100)%Q.
Proof.
  unfold Prediction.py_max, Prediction.py_min.
  destruct (Qle_bool 100 p) eqn:E1.
  - simpl. split; discriminate.
  - destruct (Qle_bool p 0) eqn:E2.
    + split; discriminate.
    + assert (~ (100 <= p)%Q) by (rewrite <- Qle_bool_iff; congruence).
      assert (~ (p <= 0)%Q) by (rewrite <- Qle_bool_iff; congruence).
      split; lra.
Qed.

Lemma round_half_even_integer (x : Q) (z : Z) :
  (x == inject_Z z)%Q -> round_half_even x = z.
Proof.
  intros Hx. unfold round_half_even.
  assert (Hf : Qfloor x = z) by (rewrite Hx; apply Qfloor_Z).
  rewrite Hf.
  assert (Hc : Qcompare (x - inject_Z z) (1 # 2) = Lt).
  { apply Qlt_alt. rewrite Hx. unfold Qminus. rewrite Qplus_opp_r. reflexivity. }
  now rewrite Hc.
Qed.

(** ** float64 *)

Section Float64Facts.
Import Float64.

Lemma pow2_pos e : (0 < pow2 e)%Q.
Proof. apply Qpower_0_lt. reflexivity. Qed.

Lemma pow2_plus a b : (pow2 (a + b) == pow2 a * pow2 b)%Q.
Proof. apply Qpower_plus. discriminate. Qed.

Lemma pow2_Z n : 0 <= n -> (pow2 n == inject_Z (2 ^ n))%Q.
Proof. intros Hn. unfold pow2. now rewrite Zpower_Qpower. Qed.

Lemma pow2_le a b : a <= b -> (pow2 a <= pow2 b)%Q.
Proof. intros Hab. apply Qpower_le_compat_l; [assumption|discriminate]. Qed.

Lemma pow2_lt_inv a b : (pow2 a < pow2 b)%Q -> a < b.
Proof. intros Hab. apply (Qpower_lt_compat_l_inv 2); [assumption|reflexivity]. Qed.

Lemma pow2_le_inv a b : (pow2 a <= pow2 b)%Q -> a <= b.
Proof. intros Hab. apply (Qpower_le_compat_l_inv 2); [assumption|reflexivity]. Qed.

(** The distance to the nearest integer is at most one half. *)
Lemma round_half_even_error (y : Q) :
  (Qabs (inject_Z (round_half_even y) - y) <= 1 # 2)%Q.
Proof.
  unfold round_half_even.
  pose proof (Qfloor_le y) as Hlo. pose proof (Qlt_floor y) as Hhi.
  rewrite inject_Z_plus in Hhi. change (inject_Z 1) with 1%Q in Hhi.
  apply Qabs_Qle_condition.
  destruct (Qcompare (y - inject_Z (Qfloor y)) (1 # 2)) eqn:E.
  - apply Qeq_alt in E. destruct (Z.even (Qfloor y)).
    + split; lra.
    + rewrite inject_Z_plus. change (inject_Z 1) with 1%Q. split; lra.
  - apply Qlt_alt in E. split; lra.
  - apply Qgt_alt in E. rewrite inject_Z_plus. change (inject_Z 1) with 1%Q.
    split; lra.
Qed.

(** [binade] is the exponent of the power of two at or below [|x|]. *)
Lemma binade_spec (x : Q) :
  ~ (x == 0)%Q -> (pow2 (binade x) <= Qabs x /\ Qabs x < pow2 (binade x + 1))%Q.
Proof.
  intros Hx. destruct x as [n d]. unfold binade. cbn [Qnum Qden].
  assert (Hn : 0 < Z.abs n).
  { assert (n <> 0); [|lia]. intros ->. apply Hx. reflexivity. }
  pose proof (Z.log2_spec _ Hn) as [Ha1 Ha2].
  pose proof (Z.log2_spec (Z.pos d) ltac:(lia)) as [Hb1 Hb2].
  pose proof (Z.log2_nonneg (Z.abs n)) as Ha0.
  pose proof (Z.log2_nonneg (Z.pos d)) as Hb0.
  set (a := Z.log2 (Z.abs n)) in *. set (b := Z.log2 (Z.pos d)) in *.
  assert (Habs : (Qabs (n # d) == inject_Z (Z.abs n) / inject_Z (Z.pos d))%Q).
  { cbn [Qabs]. rewrite (Qmake_Qdiv (Z.abs n) d). reflexivity. }
  assert (Hd : (0 < inject_Z (Z.pos d))%Q) by reflexivity.
  assert (Hup : (Qabs (n # d) < pow2 (a - b + 1))%Q).
  { rewrite Habs. apply Qlt_shift_div_r; [assumption|].
    apply Qlt_le_trans with (inject_Z (2 ^ Z.succ a)).
    - rewrite <- Zlt_Qlt. assumption.
    - rewrite <- pow2_Z by lia.
      replace (Z.succ a) with ((a - b + 1) + b) by lia. rewrite pow2_plus.
      apply Qmult_le_l; [apply pow2_pos|].
      rewrite pow2_Z by lia. rewrite <- Zle_Qle. assumption. }
  assert (Hlow : (pow2 (a - b - 1) <= Qabs (n # d))%Q).
  { rewrite Habs. apply Qle_shift_div_l; [assumption|].
    apply Qle_trans with (inject_Z (2 ^ a)).
    - rewrite <- (pow2_Z a) by lia.
      replace a with ((a - b - 1) + Z.succ b) at 2 by lia. rewrite pow2_plus.
      apply Qmult_le_l; [apply pow2_pos|].
      rewrite pow2_Z by lia. rewrite <- Zle_Qle. lia.
    - rewrite <- Zle_Qle. assumption. }
  destruct (Qle_bool (pow2 (a - b)) (Qabs (n # d))) eqn:E.
  - apply Qle_bool_iff in E. split; assumption.
  - split; [assumption|].
    replace (a - b - 1 + 1) with (a - b) by lia.
    apply Qnot_le_lt. intros Hc. apply Qle_bool_iff in Hc. congruence.
Qed.

Lemma binade_le (x : Q) e : ~ (x == 0)%Q -> (Qabs x <= pow2 e)%Q -> binade x <= e.
Proof.
  intros Hx Hle. destruct (binade_spec x Hx) as [Hlo _].
  apply pow2_le_inv. eapply Qle_trans; eassumption.
Qed.

Lemma binade_ge (x : Q) e : ~ (x == 0)%Q -> (pow2 e <= Qabs x)%Q -> e <= binade x.
Proof.
  intros Hx Hle. destruct (binade_spec x Hx) as [_ Hhi].
  assert (e < binade x + 1); [|lia].
  apply pow2_lt_inv. eapply Qle_lt_trans; eassumption.
Qed.

Lemma round64_nonzero (x : Q) :
  ~ (x == 0)%Q ->
  (round64 x
   == inject_Z (round_half_even (x / pow2 (ulp_exponent x))) * pow2 (ulp_exponent x))%Q.
Proof.
  intros Hx. unfold round64.
  destruct (Qeq_bool x 0) eqn:E; [apply Qeq_bool_iff in E; contradiction|].
  apply Qred_correct.
Qed.

(** The error of rounding is at most half a unit in the last place. *)
Lemma round64_ulp (x : Q) :
  (Qabs (round64 x - x) <= pow2 (ulp_exponent x - 1))%Q.
Proof.
  destruct (Qeq_dec x 0) as [Hx|Hx].
  - unfold round64. rewrite (Qeq_eq_bool _ _ Hx).
    assert (E0 : (Qabs (0 - x) == 0)%Q).
    { rewrite Hx. reflexivity. }
    rewrite E0. apply Qlt_le_weak, pow2_pos.
  - rewrite (round64_nonzero x Hx). set (e := ulp_exponent x).
    pose proof (round_half_even_error (x / pow2 e)) as Hy.
    pose proof (pow2_pos e) as He.
    assert (Ed : (inject_Z (round_half_even (x / pow2 e)) * pow2 e - x
                  == (inject_Z (round_half_even (x / pow2 e)) - x / pow2 e) * pow2 e)%Q)
      by (field; lra).
    rewrite Ed.
    rewrite Qabs_Qmult, (Qabs_pos (pow2 e)) by lra.
    replace (e - 1) with (-1 + e) by lia. rewrite pow2_plus.
    apply Qmult_le_compat_r; [|lra].
    exact Hy.
Qed.


Lemma Qred_inject_Z z : Qred (inject_Z z) = inject_Z z.
Proof.
  unfold Qred, inject_Z.
  pose proof (Z.ggcd_gcd z 1) as Hg. pose proof (Z.ggcd_correct_divisors z 1) as Hd.
  destruct (Z.ggcd z 1) as [g [p q]]. cbn [fst snd] in *.
  rewrite Z.gcd_1_r in Hg. subst g. destruct Hd as [Hp Hq].
  rewrite Z.mul_1_l in Hp, Hq. now subst p q.
Qed.

(** A value that is a multiple of its unit in the last place is a double. *)
Lemma round64_multiple (x : Q) (z : Z) :
  (x == inject_Z z * pow2 (ulp_exponent x))%Q -> (round64 x == x)%Q.
Proof.
  intros Hz. destruct (Qeq_dec x 0) as [Hx|Hx].
  - unfold round64. rewrite (Qeq_eq_bool _ _ Hx). now rewrite Hx.
  - rewrite (round64_nonzero x Hx).
    pose proof (pow2_pos (ulp_exponent x)) as He.
    rewrite (round_half_even_integer _ z).
    + symmetry. exact Hz.
    + rewrite Hz at 1. field. lra.
Qed.

(** Integers up to [2^53] are doubles. *)
Lemma round64_integer (x : Q) (m : Z) :
  (x == inject_Z m)%Q -> Z.abs m <= 2 ^ 53 -> round64 x = inject_Z m.
Proof.
  intros Hm Hr.
  rewrite <- (Qred_inject_Z m).
  assert (Hred : forall y, round64 y = Qred (round64 y)).
  { intros y. unfold round64. destruct (Qeq_bool y 0); [reflexivity|].
    symmetry. apply Qred_complete, Qred_correct. }
  rewrite Hred. apply Qred_complete. rewrite <- Hm.
  destruct (Qeq_dec x 0) as [Hx|Hx].
  { unfold round64. rewrite (Qeq_eq_bool _ _ Hx). now rewrite Hx. }
  assert (Hm0 : m <> 0).
  { intros ->. now apply Hx. }
  assert (Habs : (Qabs x == inject_Z (Z.abs m))%Q).
  { rewrite Hm. unfold inject_Z. cbn [Qabs]. reflexivity. }
  assert (H0 : 0 <= binade x).
  { apply binade_ge; [assumption|]. rewrite Habs. rewrite pow2_Z by lia.
    rewrite <- Zle_Qle. change (2 ^ 0) with 1. lia. }
  assert (H53 : binade x <= 53).
  { apply binade_le; [assumption|]. rewrite Habs. rewrite pow2_Z by lia.
    now rewrite <- Zle_Qle. }
  assert (He : ulp_exponent x = binade x - 52).
  { unfold ulp_exponent. lia. }
  destruct (Z.eq_dec (binade x) 53) as [E53|N53].
  - (* |m| = 2^53 *)
    destruct (binade_spec x Hx) as [Hlo _]. rewrite E53, Habs in Hlo.
    rewrite pow2_Z in Hlo by lia. rewrite <- Zle_Qle in Hlo.
    apply (round64_multiple x (m / 2)). rewrite He, E53. change (53 - 52) with 1.
    rewrite Hm.
    assert (Hm2 : m = 2 ^ 53 \/ m = - 2 ^ 53) by lia.
    destruct Hm2 as [-> | ->]; reflexivity.
  - apply (round64_multiple x (m * 2 ^ (52 - binade x))). rewrite He.
    rewrite inject_Z_mult, <- pow2_Z by lia. rewrite <- Qmult_assoc, <- pow2_plus.
    replace (52 - binade x + (binade x - 52)) with 0 by lia.
    rewrite Hm. unfold pow2. rewrite Qpower_0_r. ring.
Qed.


(** The absolute error of rounding below [2^k]. *)
Lemma round64_bound (x : Q) (k : Z) :
  (Qabs x <= pow2 k)%Q -> -1022 <= k ->
  (Qabs (round64 x - x) <= pow2 (k - 53))%Q.
Proof.
  intros Hk Hr. destruct (Qeq_dec x 0) as [Hx|Hx].
  - assert (E0 : (Qabs (round64 x - x) == 0)%Q).
    { unfold round64. rewrite (Qeq_eq_bool _ _ Hx). rewrite Hx. reflexivity. }
    rewrite E0. apply Qlt_le_weak, pow2_pos.
  - eapply Qle_trans; [apply round64_ulp|].
    apply pow2_le. unfold ulp_exponent.
    pose proof (binade_le x k Hx Hk). lia.
Qed.







(** Five numbers of magnitude up to [10^8] added from left to right in
    float64: the result is within [10^-6] of their sum. *)
Lemma sum5_error (a c f k h : Q) :
  (Qabs a <= 100000000)%Q -> (Qabs c <= 100000000)%Q -> (Qabs f <= 100000000)%Q ->
  (Qabs k <= 100000000)%Q -> (Qabs h <= 100000000)%Q ->
  (Qabs (fadd (fadd (fadd (fadd a c) f) k) h - (a + c + f + k + h)) <= 1 # 1000000)%Q.
Proof.
  intros Ha Hc Hf Hk Hh.
  apply Qabs_Qle_condition in Ha, Hc, Hf, Hk, Hh.
  assert (P28 : pow2 28 = 268435456%Q) by reflexivity.
  assert (P30 : pow2 30 = 1073741824%Q) by reflexivity.
  assert (E28 : pow2 (28 - 53) = (1 # 33554432)%Q) by reflexivity.
  assert (E30 : pow2 (30 - 53) = (1 # 8388608)%Q) by reflexivity.
  unfold fadd.
  pose proof (round64_bound (a + c) 28) as E1. rewrite P28, E28 in E1.
  assert (H1 : (Qabs (a + c) <= 268435456)%Q) by (apply Qabs_Qle_condition; lra).
  specialize (E1 H1 ltac:(lia)). apply Qabs_Qle_condition in E1.
  set (s1 := round64 (a + c)) in *.
  pose proof (round64_bound (s1 + f) 30) as E2. rewrite P30, E30 in E2.
  assert (H2 : (Qabs (s1 + f) <= 1073741824)%Q) by (apply Qabs_Qle_condition; lra).
  specialize (E2 H2 ltac:(lia)). apply Qabs_Qle_condition in E2.
  set (s2 := round64 (s1 + f)) in *.
  pose proof (round64_bound (s2 + k) 30) as E3. rewrite P30, E30 in E3.
  assert (H3 : (Qabs (s2 + k) <= 1073741824)%Q) by (apply Qabs_Qle_condition; lra).
  specialize (E3 H3 ltac:(lia)). apply Qabs_Qle_condition in E3.
  set (s3 := round64 (s2 + k)) in *.
  pose proof (round64_bound (s3 + h) 30) as E4. rewrite P30, E30 in E4.
  assert (H4 : (Qabs (s3 + h) <= 1073741824)%Q) by (apply Qabs_Qle_condition; lra).
  specialize (E4 H4 ltac:(lia)). apply Qabs_Qle_condition in E4.
  set (s4 := round64 (s3 + h)) in *.
  apply Qabs_Qle_condition. lra.
Qed.

End Float64Facts.

(** [round64] and the operations built on it give what the floats of the
    kernel give, here on the constants and on some of the quotients and
    products of the program. *)
Example round64_agrees_with_the_hardware :
  Float64.round64 (1 # 10) = Float64.of_float 0.1
  /\ Float64.round64 (5 # 100) = Float64.of_float 0.05
  /\ Float64.fadd 1 (Float64.fmul (Float64.round64 (5 # 100)) 2)
     = Float64.of_float (1 + 0.05 * 2)
  /\ Float64.fadd 1 (Float64.fmul (Float64.round64 (5 # 100)) 3)
     = Float64.of_float (1 + 0.05 * 3)
  /\ Float64.fmul 55 (Float64.of_float (1 + 0.05 * 2)) = Float64.of_float (55 * (1 + 0.05 * 2))
  /\ Float64.fmul 55 (Float64.of_float (1 + 0.05 * 2)) = Float64.of_float 60.50000000000001
  /\ Float64.fdiv 7 9 = Float64.of_float (7 / 9)
  /\ Float64.fmul (Float64.fdiv 7 9) 100 = Float64.of_float (7 / 9 * 100)
  /\ Float64.fmul (Float64.fdiv 7 9) 100 = Float64.of_float 77.77777777777779
  /\ Float64.fdiv 1 3 = Float64.of_float (1 / 3)
  /\ Float64.fdiv (Qopp 2) 3 = Float64.of_float (-2 / 3)
  /\ Float64.round64 (inject_Z (2 ^ 53 + 1)) = Float64.of_float 9007199254740992
  /\ Float64.round64 (inject_Z (2 ^ 53 + 3)) = Float64.of_float 9007199254740996
  /\ Float64.round64 (1 # 2 ^ 1075) = Float64.of_float (0x1p-1074 / 2)
  /\ Float64.round64 (3 # 2 ^ 1075) = Float64.of_float (0x3p-1074 / 2)
  /\ Float64.round64 (1 # 2 ^ 1080) = Float64.of_float (0x1p-1074 / 64)
  /\ Float64.MAX = Float64.of_float 0x1.fffffffffffffp+1023.
Proof. vm_compute. repeat split. Qed.

(** ** utils/prediction.py *)

Section PredictionFacts.
Context `{PandasEnv}.
Import Prediction.

Lemma reconcile_total n models i c :
  c_total_visitors (reconcile n models i c) = c_total_visitors c.
Proof. unfold reconcile. now destruct (negb _). Qed.

Lemma reconcile_date n models i c :
  c_date (reconcile n models i c) = c_date c.
Proof. unfold reconcile. now destruct (negb _). Qed.

Lemma reconcile_sum n models i c :
  c_adult_tickets (reconcile n models i c) + c_child_tickets (reconcile n models i c)
  = c_total_visitors c.
Proof.
  unfold reconcile.
  destruct (c_adult_tickets c + c_child_tickets c =? c_total_visitors c) eqn:E; simpl.
  - now apply Z.eqb_eq.
  - lia.
Qed.

Lemma reconcile_nonneg n models i c :
  0 <= c_total_visitors c -> 0 <= c_adult_tickets c -> 0 <= c_child_tickets c ->
  0 <= c_adult_tickets (reconcile n models i c)
  /\ 0 <= c_child_tickets (reconcile n models i c).
Proof.
  intros Ht Ha Hc. unfold reconcile.
  destruct (negb _); [|now split].
  set (p := py_max 0 (py_min 100 _)).
  assert (Hp : (0 <= p <= 100)%Q) by apply clip_pct_range.
  assert (Hb : 0 <= round_half_even (inject_Z (c_total_visitors c) * p / 100)
               <= c_total_visitors c).
  { assert (Ht' : (0 <= inject_Z (c_total_visitors c))%Q).
    { change 0%Q with (inject_Z 0). now rewrite <- Zle_Qle. }
    apply round_half_even_bounds.
    - apply Qle_shift_div_l; [reflexivity|]. rewrite Qmult_0_l.
      apply Qmult_le_0_compat; tauto.
    - apply Qle_shift_div_r; [reflexivity|].
      rewrite (Qmult_comm _ p), (Qmult_comm _ 100).
      apply Qmult_le_compat_r; tauto. }
  simpl. lia.
Qed.

Lemma clipped_frame_lookup dates total adult child i c :
  clipped_frame dates total adult child !! i = Some c ->
  exists d t a ch,
    dates !! i = Some d /\ total !! i = Some t /\ adult !! i = Some a
    /\ child !! i = Some ch
    /\ c = {| c_date := d; c_total_visitors := clip_lower0 t;
              c_adult_tickets := clip_lower0 a; c_child_tickets := clip_lower0 ch |}.
Proof.
  revert total adult child i.
  induction dates as [|d dates IH]; intros [|t total] [|a adult] [|ch child] i;
    simpl; try discriminate.
  destruct i as [|i]; simpl.
  - intros [= <-]. now exists d, t, a, ch.
  - apply IH.
Qed.

Lemma clipped_frame_nil total adult child : clipped_frame [] total adult child = [].
Proof. reflexivity. Qed.

Lemma mapM_lookup {A B} (f : A -> result B) (l : list A) (k : list B) i z :
  mapM f l = Ok k -> k !! i = Some z -> exists x, l !! i = Some x /\ f x = Ok z.
Proof.
  revert k i. induction l as [|x l IH]; intros k i; simpl.
  - intros [= <-]. discriminate.
  - destruct (f x) as [y|] eqn:E; [|discriminate]. simpl.
    destruct (mapM f l) as [k'|]; [|discriminate]. simpl. intros [= <-].
    destruct i as [|i]; simpl.
    + intros [= <-]. eauto.
    + intros Hz. now apply (IH k' i).
Qed.

Lemma mapM_length {A B} (f : A -> result B) (l : list A) (k : list B) :
  mapM f l = Ok k -> length k = length l.
Proof.
  revert k. induction l as [|x l IH]; intros k; simpl.
  - now intros [= <-].
  - destruct (f x) as [y|]; [|discriminate]. simpl.
    destruct (mapM f l) as [k'|]; [|discriminate]. simpl. intros [= <-].
    simpl. f_equal. now apply IH.
Qed.

Lemma smooth_lookup yhat factor counts i z :
  smooth yhat factor = Ok counts -> counts !! i = Some z ->
  exists y f, yhat !! i = Some y /\ factor !! i = Some f /\ smooth_at y f = Ok z.
Proof.
  unfold smooth. destruct (_ =? _)%nat; [|discriminate].
  intros Hm Hz. destruct (mapM_lookup _ _ _ _ _ Hm Hz) as ([y f] & Hyf & Hs).
  apply lookup_zip_with_Some in Hyf. destruct Hyf as (y' & f' & [= <- <-] & ? & ?).
  eauto.
Qed.

Lemma round_half_even_between (x : Q) (a b : Z) :
  (inject_Z a <= x)%Q -> (x <= inject_Z b)%Q -> a <= round_half_even x <= b.
Proof.
  intros Ha Hb. unfold round_half_even.
  assert (Hfa : a <= Qfloor x).
  { rewrite <- (Qfloor_Z a). now apply Qfloor_resp_le. }
  assert (Hfb : Qfloor x <= b).
  { rewrite <- (Qfloor_Z b). now apply Qfloor_resp_le. }
  assert (Hlt : (0 < x - inject_Z (Qfloor x))%Q -> Qfloor x + 1 <= b).
  { intros Hpos.
    destruct (Z.eq_dec (Qfloor x) b) as [E|E]; [|lia].
    rewrite E in Hpos. exfalso. lra. }
  destruct (Qcompare (x - inject_Z (Qfloor x)) (1 # 2)) eqn:E.
  - apply Qeq_alt in E. destruct (Z.even (Qfloor x)); [lia|].
    split; [lia|]. apply Hlt. rewrite E. reflexivity.
  - lia.
  - apply Qgt_alt in E. split; [lia|]. apply Hlt. lra.
Qed.

Lemma int_of_inject_Z z : int_of (inject_Z z) = z.
Proof.
  unfold int_of. destruct (Qle_bool 0 (inject_Z z)); [apply Qfloor_Z|apply Qceiling_Z].
Qed.

(** Within the int64 range, where the cast is defined, a smoothed count is
    the float64 product rounded half to even. *)
Lemma smooth_at_in_range y f :
  (Qabs (Float64.fmul y f) <= inject_Z (2 ^ 62))%Q ->
  smooth_at y f = Ok (round_half_even (Float64.fmul y f)).
Proof.
  intros Hr. unfold smooth_at, np_round, astype_int.
  apply Qabs_Qle_condition in Hr. destruct Hr as [Hlo Hhi].
  assert (Hz : - 2 ^ 62 <= round_half_even (Float64.fmul y f) <= 2 ^ 62).
  { apply round_half_even_between; [|assumption].
    rewrite inject_Z_opp. exact Hlo. }
  assert (Hfin : forall q : Q,
             (- inject_Z (2 ^ 62) <= q)%Q -> (q <= inject_Z (2 ^ 62))%Q ->
             Float64.finite q = true).
  { intros q H1 H2. unfold Float64.finite. apply Qle_bool_iff.
    apply Qabs_Qle_condition. unfold Float64.MAX.
    assert (Hm : (inject_Z (2 ^ 62) <= inject_Z ((2 ^ 53 - 1) * 2 ^ 971))%Q).
    { rewrite <- Zle_Qle. vm_compute. discriminate. }
    split; lra. }
  rewrite (Hfin _ Hlo Hhi).
  rewrite Hfin.
  - rewrite int_of_inject_Z. unfold Float64.in_int64, Float64.INT64_MIN, Float64.INT64_MAX.
    replace (- 2 ^ 63 <=? _) with true by lia.
    replace (_ <=? 2 ^ 63 - 1) with true by lia. reflexivity.
  - rewrite <- inject_Z_opp, <- Zle_Qle. lia.
  - rewrite <- Zle_Qle. lia.
Qed.

(** What [smoothed_counts] went through when it returns. *)
Lemma smoothed_counts_inv df models days counts :
  smoothed_counts df models days = Ok counts ->
  exists dates future_dates yt ya yc total adult child,
    getitem "date" df = Ok dates
    /\ date_range ((fun t => t + 1 * NS_PER_DAY) <$> date_max dates) days = Ok future_dates
    /\ predict (total_visitors_model models) future_dates = Ok yt
    /\ predict (adult_tickets_model models) future_dates = Ok ya
    /\ predict (child_tickets_model models) future_dates = Ok yc
    /\ smooth yt (month_end_factor future_dates) = Ok total
    /\ smooth ya (month_end_factor future_dates) = Ok adult
    /\ smooth yc (month_end_factor future_dates) = Ok child
    /\ counts = clipped_frame future_dates total adult child.
Proof.
  unfold smoothed_counts. intros Hs.
  destruct (getitem "date" df) as [dates|] eqn:E0; [|discriminate]. simpl in Hs.
  destruct (date_range _ days) as [future_dates|] eqn:E1; [|discriminate]. simpl in Hs.
  destruct (predict (total_visitors_model models) _) as [yt|] eqn:E2; [|discriminate].
  simpl in Hs.
  destruct (predict (adult_tickets_model models) _) as [ya|] eqn:E3; [|discriminate].
  simpl in Hs.
  destruct (predict (child_tickets_model models) _) as [yc|] eqn:E4; [|discriminate].
  simpl in Hs.
  destruct (smooth yt _) as [total|] eqn:E5; [|discriminate]. simpl in Hs.
  destruct (smooth ya _) as [adult|] eqn:E6; [|discriminate]. simpl in Hs.
  destruct (smooth yc _) as [child|] eqn:E7; [|discriminate]. simpl in Hs.
  injection Hs as <-.
  exists dates, future_dates, yt, ya, yc, total, adult, child. repeat split; assumption.
Qed.

Lemma Forall2_fmap_imap {A B C} (P : A -> C -> Prop) (f : nat -> A -> B) (g : B -> C)
    (l : list A) :
  (forall i x, P x (g (f i x))) -> Forall2 P l (g <$> imap f l).
Proof.
  revert f. induction l as [|x l IH]; intros f Hf; simpl; constructor.
  - apply Hf.
  - apply IH. intros i y. apply Hf.
Qed.

(** C1. After the reconciliation loop every row of the prediction frame has
    [adult_tickets + child_tickets = total_visitors], whatever the smoothed
    and clamped counts were before it; [total_visitors] (and the date) of a
    row is the value it had before the loop, only the adult and child counts
    are rewritten. *)
Theorem reconciliation_restores_additive_invariant df models days counts :
  smoothed_counts df models days = Ok counts ->
  exists rows,
    predict_future_attendance df models days = Ok rows
    /\ Forall2 (fun c r =>
                  total_visitors r = c_total_visitors c
                  /\ date r = c_date c
                  /\ adult_tickets r + child_tickets r = total_visitors r)
         counts rows.
Proof.
  intros Hs. unfold predict_future_attendance. rewrite Hs. simpl.
  eexists. split; [reflexivity|].
  apply Forall2_fmap_imap. intros i c. simpl.
  rewrite reconcile_total, reconcile_date, reconcile_sum. auto.
Qed.

(** C8. Every row of the frame returned by [predict_future_attendance] has
    non-negative [total_visitors], [adult_tickets] and [child_tickets],
    whether or not the reconciliation loop rewrote the row. *)
Theorem prediction_counts_non_negative df models days rows :
  predict_future_attendance df models days = Ok rows ->
  Forall (fun r => 0 <= total_visitors r /\ 0 <= adult_tickets r /\ 0 <= child_tickets r)
    rows.
Proof.
  unfold predict_future_attendance.
  destruct (smoothed_counts df models days) as [counts|] eqn:Hs; [|discriminate].
  simpl. intros [= <-].
  apply smoothed_counts_inv in Hs.
  destruct Hs as (dates & fd & yt & ya & yc & total & adult & child & _ & _ & _ & _ & _
                  & _ & _ & _ & ->).
  apply Forall_lookup. intros i r Hr.
  rewrite list_lookup_fmap, list_lookup_imap in Hr.
  destruct (clipped_frame fd total adult child !! i) as [c|] eqn:Hc; [|discriminate].
  simpl in Hr. injection Hr as <-.
  apply clipped_frame_lookup in Hc.
  destruct Hc as (d & t & a & ch & _ & _ & _ & _ & ->).
  simpl. rewrite reconcile_total. simpl.
  assert (0 <= clip_lower0 t /\ 0 <= clip_lower0 a /\ 0 <= clip_lower0 ch)
    as (Ht & Ha & Hch) by (unfold clip_lower0; lia).
  split; [exact Ht|].
  now apply reconcile_nonneg.
Qed.

(** C5. For the forecast day of row [i]: the multiplier is the float64
    value of [1.0 + 0.05 * (4 - (days_in_month - day_of_month))] in the
    last five days of the month, which is the double nearest to that
    number, and exactly 1 up to [days_in_month - 5]; on the last day of a
    month it is the double [1.2]; and each of the three counts of the row
    is the forecast of its own model at that day times this one
    multiplier, a float64 product, rounded afterwards to the nearest whole
    number (and then clamped at 0). *)
Theorem month_end_smoothing df models days counts i c :
  smoothed_counts df models days = Ok counts ->
  counts !! i = Some c ->
  let month_days := dt_days_in_month (c_date c) in
  let day_of_month := dt_day (c_date c) in
  let factor := month_end_factor_at month_days day_of_month in
  ((month_days - 5 < day_of_month
    /\ factor
       = Float64.fadd 1
           (Float64.fmul (Float64.round64 (5 # 100))
              (inject_Z (4 - (month_days - day_of_month))))
    /\ (day_of_month <= month_days ->
        factor
        = Float64.round64 (1 + (5 # 100) * inject_Z (4 - (month_days - day_of_month)))))
   \/ (day_of_month <= month_days - 5 /\ factor = 1%Q))
  /\ month_end_factor_at month_days month_days = Float64.round64 (12 # 10)
  /\ exists future_dates yt ya yc t a ch zt za zch,
       predict (total_visitors_model models) future_dates = Ok yt
       /\ predict (adult_tickets_model models) future_dates = Ok ya
       /\ predict (child_tickets_model models) future_dates = Ok yc
       /\ future_dates !! i = Some (c_date c)
       /\ yt !! i = Some t /\ ya !! i = Some a /\ yc !! i = Some ch
       /\ smooth_at t factor = Ok zt
       /\ smooth_at a factor = Ok za
       /\ smooth_at ch factor = Ok zch
       /\ c_total_visitors c = clip_lower0 zt
       /\ c_adult_tickets c = clip_lower0 za
       /\ c_child_tickets c = clip_lower0 zch
       /\ ((Qabs (Float64.fmul t factor) <= inject_Z (2 ^ 62))%Q ->
           zt = round_half_even (Float64.fmul t factor))
       /\ ((Qabs (Float64.fmul a factor) <= inject_Z (2 ^ 62))%Q ->
           za = round_half_even (Float64.fmul a factor))
       /\ ((Qabs (Float64.fmul ch factor) <= inject_Z (2 ^ 62))%Q ->
           zch = round_half_even (Float64.fmul ch factor)).
Proof.
  intros Hs Hc month_days day_of_month factor.
  split; [|split].
  - unfold factor, month_end_factor_at.
    destruct (day_of_month >? month_days - 5) eqn:E.
    + left. split; [lia|]. split; [reflexivity|]. intros Hle.
      assert (Hk : month_days - day_of_month = 0 \/ month_days - day_of_month = 1
                   \/ month_days - day_of_month = 2 \/ month_days - day_of_month = 3
                   \/ month_days - day_of_month = 4) by lia.
      destruct Hk as [->|[->|[->|[->| ->]]]]; vm_compute; reflexivity.
    + right. split; [lia|]. reflexivity.
  - unfold month_end_factor_at.
    replace (month_days >? month_days - 5) with true by lia.
    replace (4 - (month_days - month_days)) with 4 by lia.
    vm_compute. reflexivity.
  - apply smoothed_counts_inv in Hs.
    destruct Hs as (dates & fd & yt & ya & yc & total & adult & child & _ & _ & Ht & Ha
                    & Hch & St & Sa & Sc & ->).
    apply clipped_frame_lookup in Hc.
    destruct Hc as (d & t & a & ch & Hd & Ht' & Ha' & Hch' & ->).
    destruct (smooth_lookup _ _ _ _ _ St Ht') as (y1 & f1 & Hy1 & Hf1 & S1).
    destruct (smooth_lookup _ _ _ _ _ Sa Ha') as (y2 & f2 & Hy2 & Hf2 & S2).
    destruct (smooth_lookup _ _ _ _ _ Sc Hch') as (y3 & f3 & Hy3 & Hf3 & S3).
    unfold month_end_factor in Hf1, Hf2, Hf3.
    rewrite list_lookup_fmap, Hd in Hf1, Hf2, Hf3. simpl in Hf1, Hf2, Hf3.
    injection Hf1 as <-. injection Hf2 as <-. injection Hf3 as <-.
    exists fd, yt, ya, yc, y1, y2, y3, t, a, ch.
    subst factor day_of_month month_days.
    cbn [c_date c_total_visitors c_adult_tickets c_child_tickets] in *.
    repeat (split; [assumption || reflexivity|]).
    repeat split; intros Hr; apply smooth_at_in_range in Hr; congruence.
Qed.

(** C4, as the code has it. [predict_future_attendance] has no check of the
    horizon and no error of its own, but for [days <= 0] it always fails
    and returns no frame: a history without a date fails first; then
    [pd.date_range] refuses a negative number of periods; and for
    [days = 0] the date range is empty and Prophet refuses the empty frame
    when the first model is asked for its forecast. *)
Theorem non_positive_horizon_outcome df models days :
  days <= 0 ->
  exists e,
    predict_future_attendance df models days = Raise e
    /\ (getitem "date" df = Raise e
        \/ (date_max (col "date" df) = None
            /\ e = ValueError "Neither `start` nor `end` can be NaT")
        \/ (days < 0 /\ e = negative_periods)
        \/ (days = 0 /\ e = ValueError "Dataframe has no rows.")).
Proof.
  intros Hdays. unfold predict_future_attendance, smoothed_counts, getitem, col.
  destruct (cols df !! "date"%string) as [dates|]; simpl;
    [|eexists; split; [reflexivity|now left]].
  unfold date_range.
  destruct (date_max dates) as [last|]; simpl.
  - destruct (days <? 0) eqn:E; simpl.
    + eexists. split; [reflexivity|]. right. right. left. split; [lia|reflexivity].
    + replace days with 0 by lia. simpl.
      eexists. split; [reflexivity|]. right. right. right. now split.
  - eexists. split; [reflexivity|]. right. left. now split.
Qed.

End PredictionFacts.

(** Four days after the sample history: the smoothed counts of each day
    violate the sum (77 + 22 against 110, ...), the returned rows satisfy
    it. *)
Lemma reconciliation_witness :
  exists rows,
    Prediction.predict_future_attendance (H := Demo.env) Demo.history
      (Demo.models_of Demo.constant_forecaster 100 70 20) 4 = Ok rows
    /\ Forall2 (fun c r =>
                  Prediction.total_visitors r = Prediction.c_total_visitors c
                  /\ Prediction.date r = Prediction.c_date c
                  /\ Prediction.adult_tickets r + Prediction.child_tickets r
                     = Prediction.total_visitors r)
         Demo.smoothed rows.
Proof.
  apply (reconciliation_restores_additive_invariant (H := Demo.env)).
  vm_compute. reflexivity.
Defined.

(** Forecasts below zero are clamped, and the rewritten rows stay
    non-negative. *)
Lemma prediction_counts_non_negative_witness :
  exists rows,
    Prediction.predict_future_attendance (H := Demo.env) Demo.history
      (Demo.models_of Demo.constant_forecaster (-5) 3 (-2)) 2 = Ok rows
    /\ Forall (fun r => 0 <= Prediction.total_visitors r
                        /\ 0 <= Prediction.adult_tickets r
                        /\ 0 <= Prediction.child_tickets r) rows.
Proof.
  eexists. split.
  - vm_compute. reflexivity.
  - apply (prediction_counts_non_negative (H := Demo.env) Demo.history
             (Demo.models_of Demo.constant_forecaster (-5) 3 (-2)) 2).
    vm_compute. reflexivity.
Defined.

(** 31 March 2025, the third forecast day of the sample: factor 1.2, and
    120 = round (100 * 1.2), 84 = round (70 * 1.2), 24 = round (20 * 1.2). *)
Lemma month_end_smoothing_witness :
  let c := Prediction.Build_Counts 1743379200000000000 120 84 24 in
  let month_days := dt_days_in_month (Prediction.c_date c) in
  let day_of_month := dt_day (Prediction.c_date c) in
  let factor := Prediction.month_end_factor_at month_days day_of_month in
  ((month_days - 5 < day_of_month
    /\ factor
       = Float64.fadd 1
           (Float64.fmul (Float64.round64 (5 # 100))
              (inject_Z (4 - (month_days - day_of_month))))
    /\ (day_of_month <= month_days ->
        factor
        = Float64.round64 (1 + (5 # 100) * inject_Z (4 - (month_days - day_of_month)))))
   \/ (day_of_month <= month_days - 5 /\ factor = 1%Q))
  /\ Prediction.month_end_factor_at month_days month_days = Float64.round64 (12 # 10)
  /\ exists future_dates yt ya yc t a ch zt za zch,
       Prediction.predict (Demo.constant_forecaster 100) future_dates = Ok yt
       /\ Prediction.predict (Demo.constant_forecaster 70) future_dates = Ok ya
       /\ Prediction.predict (Demo.constant_forecaster 20) future_dates = Ok yc
       /\ future_dates !! 2%nat = Some (Prediction.c_date c)
       /\ yt !! 2%nat = Some t /\ ya !! 2%nat = Some a /\ yc !! 2%nat = Some ch
       /\ Prediction.smooth_at (H := Demo.env) t factor = Ok zt
       /\ Prediction.smooth_at (H := Demo.env) a factor = Ok za
       /\ Prediction.smooth_at (H := Demo.env) ch factor = Ok zch
       /\ Prediction.c_total_visitors c = Prediction.clip_lower0 zt
       /\ Prediction.c_adult_tickets c = Prediction.clip_lower0 za
       /\ Prediction.c_child_tickets c = Prediction.clip_lower0 zch
       /\ ((Qabs (Float64.fmul t factor) <= inject_Z (2 ^ 62))%Q ->
           zt = round_half_even (Float64.fmul t factor))
       /\ ((Qabs (Float64.fmul a factor) <= inject_Z (2 ^ 62))%Q ->
           za = round_half_even (Float64.fmul a factor))
       /\ ((Qabs (Float64.fmul ch factor) <= inject_Z (2 ^ 62))%Q ->
           zch = round_half_even (Float64.fmul ch factor)).
Proof.
  apply (month_end_smoothing (H := Demo.env) Demo.history
           (Demo.models_of Demo.constant_forecaster 100 70 20) 4 Demo.smoothed 2).
  - vm_compute. reflexivity.
  - reflexivity.
Defined.

(** A horizon of -7 days on the sample history. *)
Lemma non_positive_horizon_witness :
  exists e,
    Prediction.predict_future_attendance (H := Demo.env) Demo.history
      (Demo.models_of Demo.constant_forecaster 100 70 20) (-7) = Raise e
    /\ (getitem "date" Demo.history = Raise e
        \/ (date_max (col "date" Demo.history) = None
            /\ e = ValueError "Neither `start` nor `end` can be NaT")
        \/ (-7 < 0 /\ e = negative_periods (PandasEnv := Demo.env))
        \/ (-7 = 0 /\ e = ValueError "Dataframe has no rows.")).
Proof.
  apply (non_positive_horizon_outcome (H := Demo.env) Demo.history
           (Demo.models_of Demo.constant_forecaster 100 70 20) (-7)).
  lia.
Defined.

(** C4 as stated fails in one respect: the call does fail for a horizon of
    0 or of -7 days, but with the [ValueError] of Prophet and with the
    error of [pd.date_range]; [InvalidHorizonError] is never raised. *)
Lemma non_positive_horizon_counterexample :
  Prediction.predict_future_attendance (H := Demo.env) Demo.history
    (Demo.models_of Demo.constant_forecaster 100 70 20) 0
  = Raise (ValueError "Dataframe has no rows.")
  /\ Prediction.predict_future_attendance (H := Demo.env) Demo.history
       (Demo.models_of Demo.constant_forecaster 100 70 20) (-7)
     = Raise (Exn "OverflowError" "out of bounds for uint64")
  /\ ~ (forall days : Z, days <= 0 ->
        exists msg,
          Prediction.predict_future_attendance (H := Demo.env) Demo.history
            (Demo.models_of Demo.constant_forecaster 100 70 20) days
          = Raise (Exn "InvalidHorizonError" msg)).
Proof.
  split; [vm_compute; reflexivity|].
  split; [vm_compute; reflexivity|].
  intros C. destruct (C 0) as [msg Hm]; [lia|].
  vm_compute in Hm. discriminate Hm.
Qed.

(** ** Frames *)

Lemma frame_eq (a b : frame) : nrows a = nrows b -> cols a = cols b -> a = b.
Proof. destruct a, b. simpl. now intros -> ->. Qed.

Lemma set_col_id k v (df : frame) : cols df !! k = Some v -> set_col k v df = df.
Proof. intros Hk. apply frame_eq; [reflexivity|]. simpl. now apply insert_id. Qed.

Lemma has_column_true k (df : frame) :
  has_column k df = true <-> is_Some (cols df !! k).
Proof. unfold has_column. apply bool_decide_eq_true. Qed.

Lemma has_column_false k (df : frame) :
  has_column k df = false <-> cols df !! k = None.
Proof.
  unfold has_column. rewrite bool_decide_eq_false. rewrite <- eq_None_not_Some. tauto.
Qed.

Lemma col_lookup k v (df : frame) : cols df !! k = Some v -> col k df = v.
Proof. unfold col. now intros ->. Qed.

Lemma rectangular_set_col k v (df : frame) :
  Assignments.rectangular df -> length v = nrows df ->
  Assignments.rectangular (set_col k v df).
Proof.
  unfold Assignments.rectangular. simpl. intros Hr Hv.
  now apply map_Forall_insert_2.
Qed.

(** ** Sequences of assignments *)

Section AssignmentFacts.
Import Assignments.

Lemma run_step_effect s df df' :
  run_step s df = Ok df' ->
  nrows df' = nrows df
  /\ (forall k, k <> target s -> cols df' !! k = cols df !! k)
  /\ (forall k, is_Some (cols df !! k) -> is_Some (cols df' !! k)).
Proof.
  unfold run_step.
  destruct (negb (always s) && has_column (target s) df).
  - intros [= <-]. auto.
  - destruct (compute s df) as [[v|]|]; simpl; try discriminate; intros [= <-]; auto.
    simpl. repeat split.
    + intros k Hk. now rewrite lookup_insert_ne.
    + intros k Hk. destruct (decide (target s = k)) as [->|Hne].
      * rewrite lookup_insert_eq. eauto.
      * now rewrite lookup_insert_ne.
Qed.

Lemma run_steps_effect l df e :
  run_steps l df = Ok e ->
  nrows e = nrows df
  /\ (forall k, k ∉ targets l -> cols e !! k = cols df !! k)
  /\ (forall k, is_Some (cols df !! k) -> is_Some (cols e !! k)).
Proof.
  revert df. induction l as [|s l IH]; intros df; simpl.
  - intros [= <-]. auto.
  - destruct (run_step s df) as [df1|] eqn:E1; [|discriminate]. simpl. intros Hr.
    apply run_step_effect in E1. destruct E1 as (N1 & O1 & P1).
    apply IH in Hr. destruct Hr as (N2 & O2 & P2).
    repeat split.
    + congruence.
    + intros k Hk. apply not_elem_of_cons in Hk. destruct Hk as [Hk1 Hk2].
      rewrite O2 by assumption. now apply O1.
    + auto.
Qed.

Lemma run_steps_app l1 l2 df :
  run_steps (l1 ++ l2) df = (df' ← run_steps l1 df; run_steps l2 df').
Proof.
  revert df. induction l1 as [|s l1 IH]; intros df; simpl; [reflexivity|].
  destruct (run_step s df); simpl; [apply IH|reflexivity].
Qed.

Lemma run_steps_fixpoint l e :
  Forall (fun s => run_step s e = Ok e) l -> run_steps l e = Ok e.
Proof.
  induction 1 as [|s l Hs _ IH]; simpl; [reflexivity|]. now rewrite Hs.
Qed.

(** A frame produced by a well ordered sequence of assignments is left as
    it is by each of them. *)
Lemma run_steps_settled l : forall avail df e,
  Forall step_ok l -> well_ordered avail l ->
  rectangular df -> present avail df ->
  run_steps l df = Ok e ->
  rectangular e
  /\ Forall (fun s => run_step s e = Ok e) l
  /\ Forall (fun s => sure s = true -> is_Some (cols e !! target s)) l.
Proof.
  induction l as [|s l IH]; intros avail df e Hok Hwo Hrect Hav; simpl.
  - intros [= <-]. auto.
  - destruct (run_step s df) as [df1|] eqn:E1; [|discriminate]. simpl. intros Hr.
    apply Forall_cons in Hok. destruct Hok as [Hs Hok].
    destruct Hwo as (Hneeds & Halways & Hguard & Hwo).
    pose proof (run_step_effect _ _ _ E1) as (N1 & O1 & P1).
    pose proof (run_steps_effect _ _ _ Hr) as (N2 & O2 & P2).
    assert (Hsure1 : sure s = true -> is_Some (cols df1 !! target s)).
    { intros Hsure. unfold run_step in E1.
      destruct (negb (always s) && has_column (target s) df) eqn:Eg.
      - injection E1 as <-. apply andb_true_iff in Eg. destruct Eg as [_ Eg].
        now apply has_column_true.
      - destruct (compute s df) as [[v|]|] eqn:Ec; simpl in E1; try discriminate.
        + injection E1 as <-. simpl. rewrite lookup_insert_eq. eauto.
        + exfalso. now apply (sure_ok s Hs Hsure df). }
    assert (Hrect1 : rectangular df1).
    { unfold run_step in E1.
      destruct (negb (always s) && has_column (target s) df).
      - now injection E1 as <-.
      - destruct (compute s df) as [[v|]|] eqn:Ec; simpl in E1; try discriminate;
          injection E1 as <-; [|assumption].
        apply rectangular_set_col; [assumption|].
        apply (length_ok s Hs df v); try assumption.
        unfold present in *. rewrite Forall_forall in *. intros k Hk.
        apply Hav. now apply Hneeds. }
    assert (Hav1 : present (if sure s then target s :: avail else avail) df1).
    { assert (present avail df1).
      { unfold present in *. rewrite Forall_forall in *. intros k Hk. apply P1. auto. }
      destruct (sure s) eqn:Es; [|assumption].
      constructor; [now apply Hsure1|assumption]. }
    destruct (IH _ _ _ Hok Hwo Hrect1 Hav1 Hr) as (Hrecte & Hfix & Hpres).
    split; [assumption|]. split.
    + constructor; [|exact Hfix].
      (* the first assignment, run on the result *)
      unfold run_step.
      destruct (always s) eqn:Ea; simpl.
      * destruct (Halways eq_refl) as [Hself Hlater].
        assert (Hagree : agree (reads s) e df).
        { split; [congruence|]. intros k Hk.
          rewrite O2, O1; [reflexivity| |].
          - intros ->. contradiction.
          - intros Hin. unfold targets in Hin. apply list_elem_of_fmap in Hin.
            destruct Hin as (s' & -> & Hs').
            rewrite Forall_forall in Hlater.
            destruct (Hlater _ Hs') as [Hnr _]. contradiction. }
        rewrite (reads_ok s Hs _ _ Hagree).
        unfold run_step in E1. rewrite Ea in E1. simpl in E1.
        destruct (compute s df) as [[v|]|] eqn:Ec; simpl in E1; try discriminate;
          injection E1 as <-; simpl; [|reflexivity].
        f_equal. apply set_col_id. rewrite O2.
        -- simpl. apply lookup_insert_eq.
        -- intros Hin. unfold targets in Hin. apply list_elem_of_fmap in Hin.
          destruct Hin as (s' & Heq & Hs').
          rewrite Forall_forall in Hlater.
          destruct (Hlater _ Hs') as [_ Hne]. congruence.
      * assert (Hpresent : is_Some (cols e !! target s)).
        { destruct (Hguard eq_refl) as [Hsure|Hex].
          - apply P2. now apply Hsure1.
          - apply Exists_exists in Hex. destruct Hex as (s' & Hs' & Hsure' & Heq).
            rewrite <- Heq. rewrite Forall_forall in Hpres. now apply Hpres. }
        apply has_column_true in Hpresent. now rewrite Hpresent.
    + constructor; [|exact Hpres].
      intros Hsure. apply P2. now apply Hsure1.
Qed.

End AssignmentFacts.

(** ** The assignments of process_zoo_data keep their promises *)

Section StepFacts.
Context `{PandasEnv}.
Import Assignments.

Lemma agree_col ks a b k : agree ks a b -> k ∈ ks -> col k a = col k b.
Proof. intros [_ Hc] Hk. unfold col. now rewrite (Hc k Hk). Qed.

Lemma agree_has ks a b k : agree ks a b -> k ∈ ks -> has_column k a = has_column k b.
Proof. intros [_ Hc] Hk. unfold has_column. now rewrite (Hc k Hk). Qed.

Lemma agree_broadcast ks a b c : agree ks a b -> broadcast a c = broadcast b c.
Proof. intros [Hn _]. unfold broadcast. now rewrite Hn. Qed.

Lemma rectangular_col (df : frame) k :
  rectangular df -> is_Some (cols df !! k) -> length (col k df) = nrows df.
Proof.
  intros Hr [v Hv]. rewrite (col_lookup _ _ _ Hv). exact (Hr k v Hv).
Qed.

Lemma col_binop_length op a b v :
  col_binop op a b = Ok v -> length v = Nat.min (length a) (length b).
Proof.
  unfold col_binop. destruct (numeric a && numeric b); [|discriminate].
  intros [= <-]. apply length_zip_with.
Qed.

Lemma col_scale_length k a v : col_scale k a = Ok v -> length v = length a.
Proof.
  unfold col_scale. destruct (numeric a); [|discriminate].
  intros [= <-]. apply length_fmap.
Qed.

Lemma rolling_mean_length w c v : rolling_mean w c = Ok v -> length v = length c.
Proof.
  unfold rolling_mean. destruct (numeric c); [|discriminate].
  intros [= <-]. rewrite length_fmap. apply length_seq.
Qed.

Lemma to_numeric_length c : length (to_numeric c) = length c.
Proof. apply length_fmap. Qed.

Lemma fillna0_length c : length (fillna0 c) = length c.
Proof. apply length_fmap. Qed.

Lemma broadcast_length df c : length (broadcast df c) = nrows df.
Proof. apply length_replicate. Qed.

Lemma main_tickets_ok t src : step_ok (main_tickets t src).
Proof.
  split; simpl.
  - intros a b Ha.
    rewrite (agree_has _ _ _ src Ha), (agree_col _ _ _ src Ha) by set_solver.
    reflexivity.
  - intros df v Hr _. destruct (has_column src df) eqn:E; [|discriminate].
    intros [= <-]. rewrite fillna0_length, to_numeric_length.
    apply rectangular_col; [assumption|]. now apply has_column_true.
  - discriminate.
Qed.

Lemma optional_tickets_ok t src : step_ok (optional_tickets t src).
Proof.
  split; simpl.
  - intros a b Ha.
    rewrite (agree_has _ _ _ src Ha), (agree_col _ _ _ src Ha) by set_solver.
    now rewrite (agree_broadcast _ _ _ _ Ha).
  - intros df v Hr _ [= <-]. destruct (has_column src df) eqn:E.
    + rewrite fillna0_length, to_numeric_length.
      apply rectangular_col; [assumption|]. now apply has_column_true.
    + apply broadcast_length.
  - discriminate.
Qed.

Lemma constant_ok t c : step_ok (constant t c).
Proof.
  split; simpl.
  - intros a b Ha. now rewrite (agree_broadcast _ _ _ _ Ha).
  - intros df v _ _ [= <-]. apply broadcast_length.
  - discriminate.
Qed.

Lemma present_2 a b df :
  present [a; b] df -> is_Some (cols df !! a) /\ is_Some (cols df !! b).
Proof.
  intros Hp. apply Forall_cons in Hp. destruct Hp as [Ha Hp].
  apply Forall_cons in Hp. tauto.
Qed.

Lemma col_binop_rect op a b v df :
  rectangular df -> is_Some (cols df !! a) -> is_Some (cols df !! b) ->
  col_binop op (col a df) (col b df) = Ok v -> length v = nrows df.
Proof.
  intros Hr Ha Hb Hv. apply col_binop_length in Hv.
  rewrite !rectangular_col in Hv by assumption. lia.
Qed.

Lemma col_binop_rect_l op u b v df :
  rectangular df -> length u = nrows df -> is_Some (cols df !! b) ->
  col_binop op u (col b df) = Ok v -> length v = nrows df.
Proof.
  intros Hr Hu Hb Hv. apply col_binop_length in Hv.
  rewrite rectangular_col in Hv by assumption. lia.
Qed.

Lemma visitors_ok : step_ok visitors.
Proof.
  split; simpl.
  - intros a b Ha.
    rewrite (agree_col _ _ _ "adult_tickets" Ha), (agree_col _ _ _ "child_tickets" Ha),
      (agree_col _ _ _ "foreigner_tickets" Ha), (agree_has _ _ _ "foreigner_tickets" Ha)
      by set_solver.
    reflexivity.
  - intros df v Hr Hp.
    apply Forall_cons in Hp. destruct Hp as [Ha Hp].
    apply Forall_cons in Hp. destruct Hp as [Hc Hp].
    apply Forall_cons in Hp. destruct Hp as [Hf _].
    destruct (col_add (col "adult_tickets" df) (col "child_tickets" df)) as [u|] eqn:E1;
      [|discriminate].
    simpl. apply col_binop_rect in E1; try assumption.
    destruct (has_column "foreigner_tickets" df).
    + destruct (col_add u (col "foreigner_tickets" df)) as [w|] eqn:E2; [|discriminate].
      simpl. intros [= <-]. now apply col_binop_rect_l in E2.
    + now intros [= <-].
  - intros _ df.
    destruct (col_add (col "adult_tickets" df) (col "child_tickets" df)) as [u|];
      [|discriminate].
    simpl. destruct (has_column "foreigner_tickets" df); [|discriminate].
    destruct (col_add u _); discriminate.
Qed.

Lemma product_ok r a b : step_ok (product r a b).
Proof.
  split; simpl.
  - intros x y Ha.
    rewrite (agree_col _ _ _ a Ha), (agree_col _ _ _ b Ha) by set_solver.
    reflexivity.
  - intros df v Hr Hp. apply present_2 in Hp. destruct Hp as [Ha Hb].
    destruct (col_mul (col a df) (col b df)) as [u|] eqn:E1; [|discriminate].
    simpl. intros [= <-]. now apply col_binop_rect in E1.
  - intros _ df. destruct (col_mul _ _); discriminate.
Qed.

Lemma optional_product_ok r t p : step_ok (optional_product r t p).
Proof.
  split; simpl.
  - intros x y Ha.
    rewrite (agree_col _ _ _ t Ha), (agree_col _ _ _ p Ha), (agree_has _ _ _ t Ha)
      by set_solver.
    now rewrite (agree_broadcast _ _ _ _ Ha).
  - intros df v Hr Hp. apply present_2 in Hp. destruct Hp as [Ha Hb].
    destruct (if has_column t df then _ else _) as [[|]|]; simpl; try discriminate.
    + destruct (col_mul (col t df) (col p df)) as [u|] eqn:E1; [|discriminate].
      simpl. intros [= <-]. now apply col_binop_rect in E1.
    + intros [= <-]. apply broadcast_length.
  - intros _ df.
    destruct (if has_column t df then _ else _) as [[|]|]; simpl; try discriminate.
    destruct (col_mul _ _); discriminate.
Qed.

Lemma revenue_total_ok : step_ok revenue_total.
Proof.
  split; simpl.
  - intros a b Ha.
    rewrite (agree_has _ _ _ "total amount (inr)" Ha),
      (agree_col _ _ _ "total amount (inr)" Ha),
      (agree_col _ _ _ "adult_revenue" Ha), (agree_col _ _ _ "child_revenue" Ha),
      (agree_col _ _ _ "foreigner_revenue" Ha), (agree_col _ _ _ "camera_revenue" Ha),
      (agree_col _ _ _ "hend_camera_revenue" Ha) by set_solver.
    reflexivity.
  - intros df v Hr Hp.
    apply Forall_cons in Hp. destruct Hp as [H1 Hp].
    apply Forall_cons in Hp. destruct Hp as [H2 Hp].
    apply Forall_cons in Hp. destruct Hp as [H3 Hp].
    apply Forall_cons in Hp. destruct Hp as [H4 Hp].
    apply Forall_cons in Hp. destruct Hp as [H5 _].
    destruct (has_column "total amount (inr)" df) eqn:E.
    + intros [= <-]. apply rectangular_col; [assumption|]. now apply has_column_true.
    + destruct (col_add (col "adult_revenue" df) _) as [u1|] eqn:E1; [|discriminate].
      simpl. apply col_binop_rect in E1; try assumption.
      destruct (col_add u1 _) as [u2|] eqn:E2; [|discriminate].
      simpl. apply col_binop_rect_l in E2; try assumption.
      destruct (col_add u2 _) as [u3|] eqn:E3; [|discriminate].
      simpl. apply col_binop_rect_l in E3; try assumption.
      destruct (col_add u3 _) as [u4|] eqn:E4; [|discriminate].
      simpl. apply col_binop_rect_l in E4; try assumption.
      now intros [= <-].
  - intros _ df. destruct (has_column "total amount (inr)" df); [discriminate|].
    destruct (col_add (col "adult_revenue" df) _) as [u1|]; [|discriminate]. simpl.
    destruct (col_add u1 _) as [u2|]; [|discriminate]. simpl.
    destruct (col_add u2 _) as [u3|]; [|discriminate]. simpl.
    destruct (col_add u3 _) as [u4|]; discriminate.
Qed.

Lemma accessor_ok t f : step_ok (accessor t f).
Proof.
  split; simpl.
  - intros a b Ha. rewrite (agree_col _ _ _ "date" Ha) by set_solver. reflexivity.
  - intros df v Hr Hp. apply Forall_cons in Hp. destruct Hp as [Hd _].
    intros [= <-]. unfold dt. rewrite length_fmap. now apply rectangular_col.
  - discriminate.
Qed.

Lemma weekend_ok : step_ok weekend.
Proof.
  split; simpl.
  - intros a b Ha. rewrite (agree_col _ _ _ "dayofweek" Ha) by set_solver. reflexivity.
  - intros df v Hr Hp. apply Forall_cons in Hp. destruct Hp as [Hd _].
    intros [= <-]. unfold isin_5_6. rewrite length_fmap. now apply rectangular_col.
  - discriminate.
Qed.

Lemma rolling_ok t w src : step_ok (rolling t w src).
Proof.
  split; simpl.
  - intros a b Ha. rewrite (agree_col _ _ _ src Ha) by set_solver. reflexivity.
  - intros df v Hr Hp. apply Forall_cons in Hp. destruct Hp as [Hd _].
    destruct (rolling_mean w (col src df)) as [u|] eqn:E; [|discriminate].
    simpl. intros [= <-]. apply rolling_mean_length in E. rewrite E.
    now apply rectangular_col.
  - intros _ df. destruct (rolling_mean _ _); discriminate.
Qed.

Lemma percentage_ok t src : step_ok (percentage t src).
Proof.
  split; simpl.
  - intros a b Ha.
    rewrite (agree_col _ _ _ src Ha), (agree_col _ _ _ "total_visitors" Ha)
      by set_solver.
    reflexivity.
  - intros df v Hr Hp. apply present_2 in Hp. destruct Hp as [Ha Hb].
    destruct (col_div (col src df) _) as [u|] eqn:E1; [|discriminate]. simpl.
    apply col_binop_rect in E1; try assumption.
    destruct (col_scale 100 u) as [w|] eqn:E2; [|discriminate]. simpl.
    intros [= <-]. apply col_scale_length in E2. congruence.
  - intros _ df. destruct (col_div _ _) as [u|]; [|discriminate]. simpl.
    destruct (col_scale 100 u); discriminate.
Qed.

Create HintDb steps.
#[local] Hint Resolve main_tickets_ok optional_tickets_ok constant_ok visitors_ok
  product_ok optional_product_ok revenue_total_ok accessor_ok weekend_ok rolling_ok
  percentage_ok : steps.

Lemma STEPS_ok : Forall step_ok STEPS.
Proof.
  unfold STEPS. rewrite !Forall_app.
  unfold TICKET_STEPS, PRICE_STEPS, REVENUE_STEPS, DATE_STEPS, AVERAGE_STEPS,
    PERCENTAGE_STEPS.
  repeat split; repeat (apply Forall_cons_2; [auto with steps|]); apply Forall_nil_2.
Qed.

Lemma STEPS_well_ordered : well_ordered ["date"%string] STEPS.
Proof.
  apply (@bool_decide_unpack _ (Assignments.well_ordered_dec ["date"%string] STEPS)).
  vm_compute. exact I.
Qed.

End StepFacts.

(** ** process_zoo_data is its sequence of assignments *)

Section ProcessAsAssignments.
Context `{PandasEnv}.
Import Assignments DataProcessing.

Lemma has_column_set_col k k' v (df : frame) :
  has_column k (set_col k' v df) = if decide (k' = k) then true else has_column k df.
Proof.
  unfold has_column, set_col. simpl. destruct (decide (k' = k)) as [->|Hne].
  - rewrite lookup_insert_eq. apply bool_decide_eq_true. eauto.
  - now rewrite lookup_insert_ne.
Qed.

Lemma col_set_col k k' v (df : frame) :
  col k (set_col k' v df) = if decide (k' = k) then v else col k df.
Proof.
  unfold col, set_col. simpl. destruct (decide (k' = k)) as [->|Hne].
  - now rewrite lookup_insert_eq.
  - now rewrite lookup_insert_ne.
Qed.

Lemma set_col_set_col k v v' (df : frame) :
  set_col k v' (set_col k v df) = set_col k v' df.
Proof. unfold set_col. simpl. now rewrite insert_insert_eq. Qed.

Lemma broadcast_set_col k v (df : frame) c :
  broadcast (set_col k v df) c = broadcast df c.
Proof. reflexivity. Qed.

Lemma run_main_tickets t src df :
  run_step (main_tickets t src) df = Ok (map_main_tickets t src df).
Proof.
  unfold run_step, map_main_tickets. simpl.
  destruct (has_column t df), (has_column src df); reflexivity.
Qed.

Lemma run_optional_tickets t src df :
  run_step (optional_tickets t src) df = Ok (map_optional_tickets t src df).
Proof.
  unfold run_step, map_optional_tickets. simpl.
  destruct (has_column t df), (has_column src df); reflexivity.
Qed.

Lemma run_zeros t df :
  run_step (constant t (Num 0)) df = Ok (zeros_if_missing t df).
Proof.
  unfold run_step, zeros_if_missing. simpl. destruct (has_column t df); reflexivity.
Qed.

Lemma run_price t p df :
  run_step (constant t (Num p)) df = Ok (default_price t p df).
Proof.
  unfold run_step, default_price. simpl. destruct (has_column t df); reflexivity.
Qed.

Lemma bind_ok {A B} (a : A) (f : A -> result B) : (Ok a ≫= f) = f a.
Proof. reflexivity. Qed.

Lemma bind_raise {A B} e (f : A -> result B) : (Raise e ≫= f) = Raise e.
Proof. reflexivity. Qed.

Lemma run_steps_cons s l df :
  run_steps (s :: l) df = (df' ← run_step s df; run_steps l df').
Proof. reflexivity. Qed.

Lemma run_steps_nil df : run_steps [] df = Ok df.
Proof. reflexivity. Qed.

Lemma run_always s df :
  always s = true ->
  run_step s df
  = (o ← compute s df;
     Ok (match o with Some v => set_col (target s) v df | None => df end)).
Proof. unfold run_step. now intros ->. Qed.

Lemma run_ticket_steps df : run_steps TICKET_STEPS df = Ok (map_ticket_columns df).
Proof.
  unfold TICKET_STEPS, map_ticket_columns.
  rewrite run_steps_cons, run_main_tickets, bind_ok.
  rewrite run_steps_cons, run_main_tickets, bind_ok.
  rewrite run_steps_cons, run_optional_tickets, bind_ok.
  rewrite run_steps_cons, run_optional_tickets, bind_ok.
  rewrite run_steps_cons, run_optional_tickets, bind_ok.
  rewrite run_steps_cons, run_zeros, bind_ok.
  rewrite run_steps_cons, run_zeros, bind_ok.
  reflexivity.
Qed.

Lemma run_price_steps df : run_steps PRICE_STEPS df = Ok (default_prices df).
Proof.
  unfold PRICE_STEPS, default_prices.
  rewrite run_steps_cons, run_price, bind_ok.
  rewrite run_steps_cons, run_price, bind_ok.
  rewrite run_steps_cons, run_price, bind_ok.
  rewrite run_steps_cons, run_price, bind_ok.
  rewrite run_steps_cons, run_price, bind_ok.
  reflexivity.
Qed.

Lemma run_visitors df : run_step visitors df = calculate_total_visitors df.
Proof.
  rewrite run_always by reflexivity.
  unfold calculate_total_visitors, visitors, compute, target.
  destruct (col_add (col "adult_tickets" df) (col "child_tickets" df)) as [v|];
    [|reflexivity].
  rewrite !bind_ok.
  rewrite has_column_set_col, !col_set_col.
  rewrite decide_False by discriminate.
  rewrite decide_True by reflexivity.
  rewrite decide_False by discriminate.
  destruct (has_column "foreigner_tickets" df); [|reflexivity].
  destruct (col_add v (col "foreigner_tickets" df)) as [w|]; [|reflexivity].
  rewrite !bind_ok. now rewrite set_col_set_col.
Qed.

Lemma run_product r a b df :
  run_step (product r a b) df
  = (v ← col_mul (col a df) (col b df); Ok (set_col r v df)).
Proof.
  rewrite run_always by reflexivity. unfold product, compute, target.
  destruct (col_mul (col a df) (col b df)); reflexivity.
Qed.

Lemma run_optional_product r t p df :
  run_step (optional_product r t p) df = optional_revenue r t p df.
Proof.
  rewrite run_always by reflexivity.
  unfold optional_revenue, optional_product, compute, target.
  destruct (if has_column t df then _ else _) as [[|]|]; try reflexivity.
  rewrite !bind_ok.
  destruct (col_mul (col t df) (col p df)); reflexivity.
Qed.

Lemma run_revenue_steps df : run_steps REVENUE_STEPS df = revenue_by_type df.
Proof.
  unfold REVENUE_STEPS, revenue_by_type.
  rewrite run_steps_cons, run_product.
  destruct (col_mul (col "adult_tickets" df) (col "adult_price" df)) as [v1|];
    [|reflexivity].
  rewrite !bind_ok.
  rewrite run_steps_cons, run_product.
  destruct (col_mul (col "child_tickets" _) _) as [v2|]; [|reflexivity].
  rewrite !bind_ok.
  rewrite run_steps_cons, run_optional_product.
  destruct (optional_revenue "foreigner_revenue" _ _ _) as [d3|]; [|reflexivity].
  rewrite !bind_ok.
  rewrite run_steps_cons, run_optional_product.
  destruct (optional_revenue "camera_revenue" _ _ _) as [d4|]; [|reflexivity].
  rewrite !bind_ok.
  rewrite run_steps_cons, run_optional_product.
  destruct (optional_revenue "hend_camera_revenue" _ _ _) as [d5|]; reflexivity.
Qed.

Lemma run_revenue_total df : run_step revenue_total df = calculate_total_revenue df.
Proof.
  rewrite run_always by reflexivity.
  unfold calculate_total_revenue, revenue_total, compute, target.
  destruct (has_column "total amount (inr)" df); [reflexivity|].
  destruct (col_add (col "adult_revenue" df) _) as [u1|]; [|reflexivity].
  rewrite !bind_ok.
  destruct (col_add u1 _) as [u2|]; [|reflexivity]. rewrite !bind_ok.
  destruct (col_add u2 _) as [u3|]; [|reflexivity]. rewrite !bind_ok.
  destruct (col_add u3 _) as [u4|]; reflexivity.
Qed.

Lemma run_accessor t f df :
  run_step (accessor t f) df = Ok (set_col t (dt f (col "date" df)) df).
Proof. now rewrite run_always by reflexivity. Qed.

Lemma run_weekend df :
  run_step weekend df = Ok (set_col "is_weekend" (isin_5_6 (col "dayofweek" df)) df).
Proof. now rewrite run_always by reflexivity. Qed.

Lemma run_date_steps df : run_steps DATE_STEPS df = Ok (date_components df).
Proof.
  unfold DATE_STEPS, date_components.
  rewrite run_steps_cons, run_accessor, bind_ok.
  rewrite run_steps_cons, run_accessor, bind_ok.
  rewrite run_steps_cons, run_accessor, bind_ok.
  rewrite run_steps_cons, run_accessor, bind_ok.
  rewrite run_steps_cons, run_weekend, bind_ok.
  rewrite run_steps_cons, run_accessor, bind_ok.
  rewrite run_steps_cons, run_accessor, bind_ok.
  reflexivity.
Qed.

Lemma run_rolling t w src df :
  run_step (rolling t w src) df
  = (v ← rolling_mean w (col src df); Ok (set_col t v df)).
Proof.
  rewrite run_always by reflexivity. unfold rolling, compute, target.
  destruct (rolling_mean w (col src df)); reflexivity.
Qed.

Lemma run_average_steps df : run_steps AVERAGE_STEPS df = moving_averages df.
Proof.
  unfold AVERAGE_STEPS, moving_averages.
  rewrite run_steps_cons, run_rolling.
  destruct (rolling_mean 7 (col "total_visitors" df)) as [v1|]; [|reflexivity].
  rewrite !bind_ok. rewrite run_steps_cons, run_rolling.
  destruct (rolling_mean 7 (col "total_revenue" _)) as [v2|]; [|reflexivity].
  rewrite !bind_ok. rewrite run_steps_cons, run_rolling.
  destruct (rolling_mean 30 (col "total_visitors" _)) as [v3|]; [|reflexivity].
  rewrite !bind_ok. rewrite run_steps_cons, run_rolling.
  destruct (rolling_mean 30 (col "total_revenue" _)) as [v4|]; reflexivity.
Qed.

Lemma run_percentage t src df :
  run_step (percentage t src) df
  = (v ← col_div (col src df) (col "total_visitors" df);
     v ← col_scale 100 v;
     Ok (set_col t v df)).
Proof.
  rewrite run_always by reflexivity. unfold percentage, compute, target.
  destruct (col_div (col src df) _) as [v|]; [|reflexivity]. rewrite !bind_ok.
  destruct (col_scale 100 v); reflexivity.
Qed.

Lemma run_percentage_steps df : run_steps PERCENTAGE_STEPS df = percentages df.
Proof.
  unfold PERCENTAGE_STEPS, percentages.
  rewrite run_steps_cons, run_percentage.
  destruct (col_div (col "adult_tickets" df) _) as [v1|]; [|reflexivity].
  rewrite !bind_ok.
  destruct (col_scale 100 v1) as [w1|]; [|reflexivity]. rewrite !bind_ok.
  rewrite run_steps_cons, run_percentage.
  destruct (col_div (col "child_tickets" _) _) as [v2|]; [|reflexivity].
  rewrite !bind_ok.
  destruct (col_scale 100 v2) as [w2|]; reflexivity.
Qed.

(** The part of [process_zoo_data] after the dates. *)
Lemma process_zoo_data_assignments (df : table) :
  process_zoo_data df
  = (df ← lower_columns df;
     df ← with_date_column df;
     df ← valid_sorted_dates df;
     run_steps STEPS df).
Proof.
  unfold process_zoo_data, STEPS.
  destruct (lower_columns df) as [df0|]; [|reflexivity].
  rewrite !bind_ok.
  destruct (with_date_column df0) as [df1|]; [|reflexivity].
  rewrite !bind_ok.
  destruct (valid_sorted_dates df1) as [df2|]; [|reflexivity].
  rewrite !bind_ok.
  rewrite run_steps_app, run_ticket_steps, bind_ok.
  cbn [app]. rewrite run_steps_cons, run_visitors.
  destruct (calculate_total_visitors _) as [df3|]; [|reflexivity].
  rewrite !bind_ok.
  rewrite run_steps_app, run_price_steps, bind_ok.
  rewrite run_steps_app, run_revenue_steps.
  destruct (revenue_by_type _) as [df4|]; [|reflexivity].
  rewrite !bind_ok.
  cbn [app]. rewrite run_steps_cons, run_revenue_total.
  destruct (calculate_total_revenue _) as [df5|]; [|reflexivity].
  rewrite !bind_ok.
  rewrite run_steps_app, run_date_steps, bind_ok.
  rewrite run_steps_app, run_average_steps.
  destruct (moving_averages _) as [df6|]; [|reflexivity].
  rewrite !bind_ok.
  symmetry. apply run_percentage_steps.
Qed.

End ProcessAsAssignments.

(** ** Dates: conversion, dropping, sorting *)

Section DateFacts.
Context `{PandasEnv}.

Lemma nth_seq {A} (d : A) (c : list A) : (fun i => nth i c d) <$> seq 0 (length c) = c.
Proof.
  induction c as [|x c IH]; [reflexivity|].
  simpl. f_equal. rewrite <- fmap_S_seq, <- list_fmap_compose.
  exact IH.
Qed.

Lemma nth_seq_id (c : list cell) : (fun i => nth i c Null) <$> seq 0 (length c) = c.
Proof. apply nth_seq. Qed.

Lemma take_rows_all (df : frame) :
  Assignments.rectangular df -> take_rows (seq 0 (nrows df)) df = df.
Proof.
  intros Hr. apply frame_eq; simpl.
  - apply length_seq.
  - apply map_eq. intros k. rewrite lookup_fmap.
    destruct (cols df !! k) as [c|] eqn:E; [|reflexivity].
    simpl. f_equal. rewrite <- (Hr k c E). apply nth_seq_id.
Qed.

Lemma take_rows_rectangular idxs df : Assignments.rectangular (take_rows idxs df).
Proof.
  intros k c. simpl. rewrite lookup_fmap.
  destruct (cols df !! k); simpl; [|discriminate].
  intros [= <-]. apply length_fmap.
Qed.

Lemma take_rows_lookup idxs (df : frame) k :
  cols (take_rows idxs df) !! k
  = (fun c => (fun i => nth i c Null) <$> idxs) <$> cols df !! k.
Proof. simpl. apply lookup_fmap. Qed.

(** *** [to_datetime] *)

Lemma to_datetime_cells fmt u c d :
  to_datetime fmt u c = Ok d -> Forall (fun x => is_date x = true \/ x = Null) d.
Proof.
  unfold to_datetime. revert d. induction c as [|x c IH]; intros d; simpl.
  - intros [= <-]. constructor.
  - destruct (to_datetime_cell fmt u x) as [y|] eqn:E; [|discriminate]. simpl.
    destruct (mapM _ c) as [k|]; [|discriminate]. simpl. intros [= <-].
    constructor; [|now apply IH].
    destruct x as [q|s|t|]; simpl in E.
    + injection E as <-. unfold timestamp_of_ns. destruct (_ && _); auto.
    + destruct (parse_datetime fmt s) as [[t|]|]; simpl in E; try discriminate;
        injection E as <-; auto.
    + injection E as <-. auto.
    + injection E as <-. auto.
Qed.

Lemma to_datetime_dates fmt u c :
  forallb is_date c = true -> to_datetime fmt u c = Ok c.
Proof.
  unfold to_datetime. induction c as [|x c IH]; simpl; [reflexivity|].
  intros Hc. apply andb_true_iff in Hc. destruct Hc as [Hx Hc].
  destruct x; try discriminate. simpl. now rewrite (IH Hc).
Qed.

Lemma count_null_dates c : forallb is_date c = true -> count_null c = 0%nat.
Proof.
  unfold count_null. induction c as [|x c IH]; simpl; [reflexivity|].
  intros Hc. apply andb_true_iff in Hc. destruct Hc as [Hx Hc].
  destruct x; try discriminate. rewrite filter_cons_False by (simpl; discriminate).
  now apply IH.
Qed.

Lemma count_null_zero c :
  count_null c = 0%nat -> Forall (fun x => is_date x = true \/ x = Null) c ->
  forallb is_date c = true.
Proof.
  unfold count_null. induction c as [|x c IH]; simpl; [reflexivity|].
  intros Hn Hc. apply Forall_cons in Hc. destruct Hc as [Hx Hc].
  destruct Hx as [Hx| ->].
  - rewrite Hx. simpl. apply IH; [|assumption].
    destruct x; try discriminate.
    now rewrite filter_cons_False in Hn by (simpl; discriminate).
  - rewrite filter_cons_True in Hn by reflexivity. discriminate.
Qed.

(** *** [dropna] *)

Lemma forallb_cons {A} (f : A -> bool) a l :
  forallb f (a :: l) = f a && forallb f l.
Proof. reflexivity. Qed.

Lemma notnull_positions_cells pre c :
  Forall (fun x => is_date x = true \/ x = Null) c ->
  forallb is_date
    ((fun i => nth i (pre ++ c) Null) <$> notnull_positions (length pre) c) = true.
Proof.
  revert pre. induction c as [|x c IH]; intros pre Hc; [reflexivity|].
  apply Forall_cons in Hc. destruct Hc as [Hx Hc].
  specialize (IH (pre ++ [x]) Hc).
  rewrite length_app, <- app_assoc in IH. cbn [length app] in IH.
  rewrite Nat.add_1_r in IH.
  destruct Hx as [Hx| ->].
  - destruct x; try discriminate. cbn [notnull_positions is_null].
    rewrite fmap_cons, forallb_cons, IH.
    rewrite app_nth2 by lia. now rewrite Nat.sub_diag.
  - cbn [notnull_positions is_null]. exact IH.
Qed.

(** *** [sort_values] *)

Lemma date_le_total a b : date_le a b = false -> date_le b a = true.
Proof.
  destruct a, b; simpl; try discriminate; try reflexivity.
  intros Hle. apply Z.leb_le. apply Z.leb_gt in Hle. lia.
Qed.

Lemma ascending_cons x c :
  ascending (x :: c) = match c with y :: _ => date_le x y && ascending c | [] => true end.
Proof. reflexivity. Qed.

Lemma insert_by_date_ascending x l :
  ascending l.*1 = true -> ascending (insert_by_date x l).*1 = true.
Proof.
  induction l as [|y l IH]; [reflexivity|].
  intros Hl. simpl insert_by_date.
  destruct (date_le x.1 y.1) eqn:E.
  - change (ascending (x.1 :: y.1 :: l.*1) = true).
    rewrite ascending_cons. rewrite E. exact Hl.
  - change (ascending (y.1 :: (insert_by_date x l).*1) = true).
    rewrite ascending_cons.
    assert (Hl' : ascending l.*1 = true).
    { change (ascending (y.1 :: l.*1) = true) in Hl. rewrite ascending_cons in Hl.
      destruct (l.*1); [reflexivity|]. now apply andb_true_iff in Hl. }
    specialize (IH Hl').
    destruct (insert_by_date x l) as [|z l'] eqn:Ei.
    + reflexivity.
    + change ((z :: l').*1) with (z.1 :: l'.*1) in *.
      rewrite IH, andb_true_r.
      destruct l as [|w l0]; simpl in Ei.
      * injection Ei as <- <-. now apply date_le_total.
      * destruct (date_le x.1 w.1).
        -- injection Ei as <- <-. now apply date_le_total.
        -- injection Ei as <- <-.
           change (ascending (y.1 :: w.1 :: l0.*1) = true) in Hl.
           rewrite ascending_cons in Hl. now apply andb_true_iff in Hl.
Qed.

Lemma insert_by_date_Forall (P : cell * nat -> Prop) x l :
  P x -> Forall P l -> Forall P (insert_by_date x l).
Proof.
  intros Hx. induction 1 as [|y l Hy Hl IH]; simpl.
  - now constructor.
  - destruct (date_le x.1 y.1); repeat constructor; assumption.
Qed.

Lemma sorted_Forall (P : cell * nat -> Prop) l :
  Forall P l -> Forall P (foldr insert_by_date [] l).
Proof.
  induction 1 as [|x l Hx Hl IH]; simpl; [constructor|].
  now apply insert_by_date_Forall.
Qed.

Lemma sorted_ascending l : ascending (foldr insert_by_date [] l).*1 = true.
Proof.
  induction l as [|x l IH]; [reflexivity|]. simpl.
  now apply insert_by_date_ascending.
Qed.

Lemma zip_seq_Forall (c pre : list cell) :
  Forall (fun p : cell * nat => nth p.2 (pre ++ c) Null = p.1 /\ p.1 ∈ c)
    (zip c (seq (length pre) (length c))).
Proof.
  revert pre. induction c as [|x c IH]; intros pre; simpl; constructor.
  - simpl. split; [|left]. rewrite app_nth2 by lia. now rewrite Nat.sub_diag.
  - specialize (IH (pre ++ [x])).
    rewrite length_app, <- app_assoc in IH. simpl in IH. rewrite Nat.add_1_r in IH.
    eapply Forall_impl; [exact IH|]. simpl. intros p [Hp Hin]. split; [exact Hp|].
    now right.
Qed.

(** The date column in the stable order. *)
Lemma stable_argsort_column c :
  (fun i => nth i c Null) <$> stable_argsort c
  = (foldr insert_by_date [] (zip c (seq 0 (length c)))).*1.
Proof.
  unfold stable_argsort. rewrite <- list_fmap_compose.
  apply Forall_fmap_ext.
  eapply Forall_impl; [apply sorted_Forall, (zip_seq_Forall c [])|].
  simpl. intros p [Hp _]. exact Hp.
Qed.

Lemma stable_argsort_ascending c :
  ascending ((fun i => nth i c Null) <$> stable_argsort c) = true.
Proof. rewrite stable_argsort_column. apply sorted_ascending. Qed.

Lemma insert_by_date_perm x l : insert_by_date x l ≡ₚ x :: l.
Proof.
  induction l as [|y l IH]; simpl; [reflexivity|].
  destruct (date_le x.1 y.1); [reflexivity|].
  rewrite IH. apply Permutation_swap.
Qed.

Lemma stable_argsort_perm c : stable_argsort c ≡ₚ seq 0 (length c).
Proof.
  unfold stable_argsort.
  assert (Hp : forall l : list (cell * nat), foldr insert_by_date [] l ≡ₚ l).
  { induction l as [|x l IH]; simpl; [reflexivity|].
    now rewrite insert_by_date_perm, IH. }
  rewrite Hp. rewrite snd_zip; [reflexivity|]. rewrite length_seq. lia.
Qed.

Lemma foldr_insert_ascending l :
  ascending l.*1 = true -> foldr insert_by_date [] l = l.
Proof.
  induction l as [|x l IH]; [reflexivity|].
  intros Hl. change (ascending (x.1 :: l.*1) = true) in Hl.
  rewrite ascending_cons in Hl. simpl.
  destruct l as [|y l'].
  - reflexivity.
  - change ((y :: l').*1) with (y.1 :: l'.*1) in Hl.
    apply andb_true_iff in Hl. destruct Hl as [Hxy Hl].
    rewrite (IH Hl). simpl. now rewrite Hxy.
Qed.

(** The stable order leaves an ascending column as it is. *)
Lemma stable_argsort_sorted c : ascending c = true -> stable_argsort c = seq 0 (length c).
Proof.
  intros Hc. unfold stable_argsort.
  rewrite foldr_insert_ascending.
  - apply snd_zip. rewrite length_seq. lia.
  - rewrite fst_zip; [exact Hc|]. rewrite length_seq. lia.
Qed.

(** What the check of [quicksort] establishes. *)
Lemma is_permutation_perm p n : is_permutation p n = true -> p ≡ₚ seq 0 n.
Proof.
  unfold is_permutation. intros Hp. apply andb_true_iff in Hp.
  destruct Hp as [Hlen Hall]. apply Nat.eqb_eq in Hlen. symmetry.
  apply submseteq_length_Permutation.
  - apply NoDup_submseteq; [apply NoDup_seq|].
    intros i Hi. rewrite forallb_forall in Hall. apply list_elem_of_In in Hi.
    specialize (Hall i Hi). apply existsb_exists in Hall.
    destruct Hall as (j & Hj & Heq). apply Nat.eqb_eq in Heq. subst j.
    now apply list_elem_of_In.
  - rewrite length_seq. lia.
Qed.

Lemma perm_seq_bound p n : p ≡ₚ seq 0 n -> Forall (fun i => (i < n)%nat) p.
Proof.
  intros Hp. apply Forall_forall. intros i Hi. rewrite Hp in Hi.
  apply elem_of_seq in Hi. lia.
Qed.

Lemma nth_Date ts i :
  (i < length ts)%nat -> nth i (Date <$> ts) Null = Date (nth i ts 0).
Proof.
  revert i. induction ts as [|t ts IH]; intros [|i] Hi; simpl in *; try lia.
  - reflexivity.
  - apply IH. lia.
Qed.

Lemma positions_Date ts p :
  Forall (fun i => (i < length ts)%nat) p ->
  (fun i => nth i (Date <$> ts) Null) <$> p = Date <$> ((fun i => nth i ts 0) <$> p).
Proof.
  intros Hp. rewrite <- list_fmap_compose. apply Forall_fmap_ext.
  eapply Forall_impl; [exact Hp|]. intros i Hi. now apply nth_Date.
Qed.

Lemma ascending_Date ts : ascending (Date <$> ts) = nondecreasing ts.
Proof.
  induction ts as [|x ts IH]; [reflexivity|].
  destruct ts as [|y ts]; [reflexivity|].
  rewrite !fmap_cons, ascending_cons. rewrite !fmap_cons in IH. rewrite IH.
  reflexivity.
Qed.

Lemma dates_Date ts : forallb is_date (Date <$> ts) = true.
Proof. induction ts as [|x ts IH]; [reflexivity|]. exact IH. Qed.

Lemma non_nans_Date ts : non_nans (Date <$> ts) = ts.
Proof.
  induction ts as [|x ts IH]; [reflexivity|].
  unfold non_nans in *. rewrite fmap_cons. cbn [omap list_omap]. now rewrite IH.
Qed.

(** A column of dates is the column of its timestamps. *)
Lemma all_dates c : forallb is_date c = true -> exists ts, c = Date <$> ts.
Proof.
  induction c as [|x c IH]; [now exists []|].
  rewrite forallb_cons. intros Hc. apply andb_true_iff in Hc. destruct Hc as [Hx Hc].
  destruct (IH Hc) as [ts ->]. destruct x as [| |t|]; try discriminate.
  now exists (t :: ts).
Qed.

Lemma quicksort_perm v : quicksort v ≡ₚ seq 0 (length v).
Proof.
  unfold quicksort. destruct (is_permutation _ _ && _) eqn:E.
  - apply andb_true_iff in E. now apply is_permutation_perm.
  - rewrite stable_argsort_perm. now rewrite length_fmap.
Qed.

Lemma quicksort_bound v : Forall (fun i => (i < length v)%nat) (quicksort v).
Proof. apply perm_seq_bound, quicksort_perm. Qed.

Lemma quicksort_sorted v :
  nondecreasing ((fun i => nth i v 0) <$> quicksort v) = true.
Proof.
  unfold quicksort. destruct (is_permutation _ _ && _) eqn:E.
  - now apply andb_true_iff in E.
  - pose proof (perm_seq_bound _ _ (stable_argsort_perm (Date <$> v))) as Hb.
    rewrite length_fmap in Hb.
    rewrite <- ascending_Date, <- (positions_Date _ _ Hb).
    apply stable_argsort_ascending.
Qed.

Lemma filter_all {A} (f : A -> bool) l : forallb f l = true -> List.filter f l = l.
Proof.
  induction l as [|x l IH]; [reflexivity|]. simpl. intros Hl.
  apply andb_true_iff in Hl. destruct Hl as [-> Hl]. now rewrite IH.
Qed.

Lemma filter_nothing {A} (f : A -> bool) l :
  forallb (fun x => negb (f x)) l = true -> List.filter f l = [].
Proof.
  induction l as [|x l IH]; [reflexivity|]. simpl. intros Hl.
  apply andb_true_iff in Hl. destruct Hl as [Hx Hl].
  apply negb_true_iff in Hx. rewrite Hx. now apply IH.
Qed.

(** On a column of dates [argsort] is [quicksort] on the timestamps. *)
Lemma argsort_Date ts : argsort (Date <$> ts) = quicksort ts.
Proof.
  unfold argsort. rewrite non_nans_Date, length_fmap.
  rewrite filter_all, filter_nothing.
  - rewrite app_nil_r.
    rewrite <- (list_fmap_id (quicksort ts)) at 2. apply Forall_fmap_ext.
    eapply Forall_impl; [apply quicksort_bound|].
    intros i Hi. simpl. now rewrite seq_nth.
  - apply forallb_forall. intros i Hi. apply in_seq in Hi.
    rewrite nth_Date by lia. reflexivity.
  - apply forallb_forall. intros i Hi. apply in_seq in Hi.
    rewrite nth_Date by lia. reflexivity.
Qed.

Lemma argsort_perm c : forallb is_date c = true -> argsort c ≡ₚ seq 0 (length c).
Proof.
  intros Hc. destruct (all_dates c Hc) as [ts ->].
  rewrite argsort_Date, length_fmap. apply quicksort_perm.
Qed.

(** The date column after [sort_values]. *)
Lemma argsort_dates c :
  forallb is_date c = true ->
  forallb is_date ((fun i => nth i c Null) <$> argsort c) = true.
Proof.
  intros Hc. destruct (all_dates c Hc) as [ts ->].
  rewrite argsort_Date, (positions_Date _ _ (quicksort_bound ts)).
  apply dates_Date.
Qed.

Lemma argsort_ascending c :
  forallb is_date c = true ->
  ascending ((fun i => nth i c Null) <$> argsort c) = true.
Proof.
  intros Hc. destruct (all_dates c Hc) as [ts ->].
  rewrite argsort_Date, (positions_Date _ _ (quicksort_bound ts)), ascending_Date.
  apply quicksort_sorted.
Qed.

Lemma nondecreasing_Sorted l : nondecreasing l = true -> Sorted Z.le l.
Proof.
  induction l as [|x l IH]; [constructor|].
  destruct l as [|y l]; [repeat constructor|].
  intros Hl. cbn [nondecreasing] in Hl. apply andb_true_iff in Hl.
  destruct Hl as [Hxy Hl]. constructor; [now apply IH|].
  constructor. now apply Z.leb_le.
Qed.

Lemma positions_inj (ts : list Z) p q :
  NoDup ts ->
  Forall (fun i => (i < length ts)%nat) p ->
  Forall (fun i => (i < length ts)%nat) q ->
  (fun i => nth i ts 0) <$> p = (fun i => nth i ts 0) <$> q -> p = q.
Proof.
  intros Hnd Hp. revert q. induction Hp as [|i p Hi Hp IH]; intros q Hq Heq.
  - destruct q; [reflexivity|discriminate].
  - destruct Hq as [|j q Hj Hq]; [discriminate|].
    rewrite !fmap_cons in Heq. injection Heq as Hij Heq.
    f_equal; [|now apply IH].
    apply NoDup_ListNoDup in Hnd.
    exact (proj1 (List.NoDup_nth ts 0) Hnd i j Hi Hj Hij).
Qed.

(** Distinct dates in ascending order are left where they are, whatever
    the sort. *)
Lemma argsort_sorted c :
  forallb is_date c = true -> ascending c = true -> NoDup c ->
  argsort c = seq 0 (length c).
Proof.
  intros Hc Hasc Hnd. destruct (all_dates c Hc) as [ts ->].
  rewrite argsort_Date, length_fmap.
  rewrite ascending_Date in Hasc. apply NoDup_fmap_1 in Hnd.
  apply (positions_inj ts); [assumption|apply quicksort_bound| |].
  - apply Forall_forall. intros i Hi. apply elem_of_seq in Hi. lia.
  - rewrite nth_seq.
    apply (Sorted_unique Z.le).
    + apply nondecreasing_Sorted, quicksort_sorted.
    + now apply nondecreasing_Sorted.
    + rewrite (quicksort_perm ts). now rewrite nth_seq.
Qed.

Lemma non_nans_length pre c :
  (length (non_nans c)
   + length (List.filter (fun i => negb (is_date (nth i (pre ++ c) Null)))
               (seq (length pre) (length c))))%nat
  = length c.
Proof.
  revert pre. induction c as [|x c IH]; intros pre; [reflexivity|].
  specialize (IH (pre ++ [x])).
  rewrite length_app, <- app_assoc in IH. cbn [length app] in IH.
  rewrite Nat.add_1_r in IH.
  cbn [length seq List.filter]. rewrite app_nth2 by lia. rewrite Nat.sub_diag.
  unfold non_nans in *. cbn [nth].
  destruct x; cbn [omap list_omap is_date negb length]; lia.
Qed.

Lemma argsort_length c : length (argsort c) = length c.
Proof.
  unfold argsort. rewrite length_app, length_fmap.
  rewrite (Permutation_length (quicksort_perm _)), length_seq.
  apply (non_nans_length [] c).
Qed.

End DateFacts.

(** ** process_zoo_data on its own output *)

Section Idempotence.
Context `{PandasEnv}.
Import Assignments DataProcessing.

Lemma lower_char_idem c : lower_char (lower_char c) = lower_char c.
Proof.
  destruct c as [[] [] [] [] [] [] [] []]; reflexivity.
Qed.

Lemma lower_idem s : lower (lower s) = lower s.
Proof. induction s as [|c s IH]; simpl; [reflexivity|]. now rewrite lower_char_idem, IH. Qed.

Lemma lower_labels_lowercase df : lowercase_labels (lower_labels df).
Proof.
  intros k v Hk. simpl in Hk. apply elem_of_list_to_map_2 in Hk.
  apply list_elem_of_fmap in Hk. destruct Hk as ([k0 v0] & Heq & _).
  injection Heq as -> ->. apply lower_idem.
Qed.

Lemma lower_labels_id df : lowercase_labels df -> lower_labels df = df.
Proof.
  intros Hl. apply frame_eq; [reflexivity|]. simpl.
  rewrite <- (list_to_map_to_list (cols df)) at 2. f_equal.
  rewrite <- (list_fmap_id (map_to_list (cols df))) at 2.
  apply Forall_fmap_ext, Forall_forall. intros [k v] Hkv.
  apply elem_of_map_to_list in Hkv. unfold prod_map. simpl.
  now rewrite (Hl k v Hkv).
Qed.

Lemma lowercase_set_col k v df :
  lower k = k -> lowercase_labels df -> lowercase_labels (set_col k v df).
Proof. intros Hk Hl. now apply map_Forall_insert_2. Qed.

Lemma with_date_column_shape df df1 :
  with_date_column df = Ok df1 -> df1 = df \/ exists x, df1 = set_col "date" x df.
Proof.
  unfold with_date_column.
  destruct (negb (has_column "date" df)); [|intros [= <-]; now left].
  destruct (has_column "booking date" df); [|discriminate].
  intros Hr. right. unfold try_except in Hr.
  destruct (to_datetime (Some FMT_AMPM_SECONDS) 1 _) as [d0|].
  - rewrite bind_ok in Hr.
    destruct (if all_null d0 then _ else _) as [d1|].
    + rewrite bind_ok in Hr.
      destruct (if all_null d1 then _ else _) as [d2|].
      * rewrite bind_ok in Hr. injection Hr as <-. eauto.
      * rewrite bind_raise in Hr. injection Hr as <-. eauto.
    + rewrite bind_raise in Hr. injection Hr as <-. eauto.
  - rewrite bind_raise in Hr. injection Hr as <-. eauto.
Qed.

Lemma with_date_column_labels df df1 :
  lowercase_labels df -> with_date_column df = Ok df1 -> lowercase_labels df1.
Proof.
  intros Hl Hr. apply with_date_column_shape in Hr.
  destruct Hr as [->|[x ->]]; [assumption|]. now apply lowercase_set_col.
Qed.

Lemma with_date_column_id df :
  is_Some (cols df !! "date"%string) -> with_date_column df = Ok df.
Proof.
  intros Hd. unfold with_date_column. apply has_column_true in Hd. now rewrite Hd.
Qed.

Lemma take_rows_labels idxs df :
  lowercase_labels df -> lowercase_labels (take_rows idxs df).
Proof.
  intros Hl k v Hk. rewrite take_rows_lookup in Hk.
  destruct (cols df !! k) as [c|] eqn:E; [|discriminate]. exact (Hl k c E).
Qed.

Lemma take_rows_col idxs (df : frame) k :
  col k (take_rows idxs df)
  = match cols df !! k with
    | Some c => (fun i => nth i c Null) <$> idxs
    | None => []
    end.
Proof. unfold col. rewrite take_rows_lookup. now destruct (cols df !! k). Qed.

Lemma valid_sorted_dates_post df1 df2 :
  valid_sorted_dates df1 = Ok df2 ->
  rectangular df2 /\ dated df2 /\ (lowercase_labels df1 -> lowercase_labels df2).
Proof.
  unfold valid_sorted_dates.
  destruct (to_datetime None 1 (col "date" df1)) as [d|] eqn:Ed; [|discriminate].
  rewrite bind_ok. intros [= <-].
  apply to_datetime_cells in Ed.
  set (f := set_col "date" d df1).
  assert (Hf : cols f !! "date"%string = Some d) by apply lookup_insert_eq.
  set (f' := if (0 <? count_null (col "date" f))%nat then dropna "date" f else f).
  assert (Hf' : exists d', cols f' !! "date"%string = Some d'
                           /\ forallb is_date d' = true).
  { unfold f'. rewrite (col_lookup _ _ _ Hf).
    destruct (0 <? count_null d)%nat eqn:E.
    - unfold dropna. rewrite (col_lookup _ _ _ Hf), take_rows_lookup, Hf. simpl.
      eexists. split; [reflexivity|]. apply (notnull_positions_cells [] d Ed).
    - exists d. split; [assumption|]. apply count_null_zero; [|assumption].
      apply Nat.ltb_ge in E. lia. }
  destruct Hf' as (d' & Hd' & Hdates).
  unfold sort_values. rewrite (col_lookup _ _ _ Hd').
  split; [apply take_rows_rectangular|]. split.
  - exists ((fun i => nth i d' Null) <$> argsort d'). split; [|split].
    + rewrite take_rows_lookup, Hd'. reflexivity.
    + now apply argsort_dates.
    + now apply argsort_ascending.
  - intros Hl. apply take_rows_labels. unfold f'.
    destruct (0 <? _)%nat; [apply take_rows_labels|]; now apply lowercase_set_col.
Qed.

Lemma valid_sorted_dates_id e :
  rectangular e -> dated e -> NoDup (col "date" e) -> valid_sorted_dates e = Ok e.
Proof.
  intros Hr (d & Hd & Hdates & Hasc) Hnd. unfold valid_sorted_dates.
  rewrite (col_lookup _ _ _ Hd) in Hnd.
  rewrite (col_lookup _ _ _ Hd), (to_datetime_dates _ _ _ Hdates), bind_ok.
  rewrite (set_col_id _ _ _ Hd), (col_lookup _ _ _ Hd).
  rewrite (count_null_dates _ Hdates). simpl.
  unfold sort_values.
  rewrite (col_lookup _ _ _ Hd), (argsort_sorted _ Hdates Hasc Hnd).
  f_equal. rewrite (Hr _ _ Hd). now apply take_rows_all.
Qed.

Lemma run_steps_origin l df e k :
  run_steps l df = Ok e -> is_Some (cols e !! k) ->
  is_Some (cols df !! k) \/ k ∈ targets l.
Proof.
  intros Hr Hk. destruct (decide (k ∈ targets l)) as [Hin|Hout]; [now right|].
  left. apply run_steps_effect in Hr. destruct Hr as (_ & Ho & _).
  now rewrite <- (Ho k Hout).
Qed.

Lemma STEPS_targets_lowercase : Forall (fun k => lower k = k) (targets STEPS).
Proof. apply (bool_decide_unpack _). vm_compute. exact I. Qed.

Lemma STEPS_keep_date : "date"%string ∉ targets STEPS.
Proof. apply (bool_decide_unpack _). vm_compute. exact I. Qed.

(** What is known of a frame returned by [process_zoo_data]. *)
Lemma process_zoo_data_settled (df : table) e :
  process_zoo_data df = Ok e ->
  rectangular e /\ dated e /\ lowercase_labels e
  /\ Forall (fun s => run_step s e = Ok e) STEPS
  /\ Forall (fun s => sure s = true -> is_Some (cols e !! target s)) STEPS.
Proof.
  rewrite process_zoo_data_assignments.
  destruct df as [df|rows columns]; [|discriminate].
  cbn [lower_columns]. rewrite bind_ok.
  destruct (with_date_column (lower_labels df)) as [df1|] eqn:E1; [|discriminate].
  rewrite bind_ok.
  destruct (valid_sorted_dates df1) as [df2|] eqn:E2; [|discriminate].
  rewrite bind_ok. intros Hr.
  pose proof (with_date_column_labels _ _ (lower_labels_lowercase df) E1) as Hl1.
  destruct (valid_sorted_dates_post _ _ E2) as (Hrect2 & Hdated2 & Hl2).
  specialize (Hl2 Hl1).
  assert (Hpresent : present ["date"%string] df2).
  { destruct Hdated2 as (d & Hd & _). constructor; [eauto|constructor]. }
  destruct (run_steps_settled _ _ _ _ STEPS_ok STEPS_well_ordered Hrect2 Hpresent Hr)
    as (Hrect & Hfix & Hsure).
  pose proof (run_steps_effect _ _ _ Hr) as (_ & Hother & _).
  repeat split; try assumption.
  - destruct Hdated2 as (d & Hd & Hdd). exists d. split; [|exact Hdd].
    rewrite Hother; [exact Hd|apply STEPS_keep_date].
  - intros k v Hk.
    destruct (run_steps_origin _ _ _ k Hr) as [[v2 Hk2]|Hin]; [eauto| |].
    + exact (Hl2 k v2 Hk2).
    + pose proof STEPS_targets_lowercase as Ht. rewrite Forall_forall in Ht. auto.
Qed.

Lemma process_zoo_data_labelled (df : frame) :
  process_zoo_data df
  = (df ← with_date_column (lower_labels df);
     df ← valid_sorted_dates df;
     run_steps STEPS df).
Proof. now rewrite process_zoo_data_assignments. Qed.

(** C9. Running [process_zoo_data] on a frame it has produced, in which no
    two rows have the same date, gives that frame back: every column, the
    derived ones included, has the same values. (Rows of one date are in
    the order [sort_values] leaves them in, and its quicksort need not
    leave them twice in the same one.) *)
Theorem process_zoo_data_idempotent (df : table) e :
  process_zoo_data df = Ok e ->
  NoDup (col "date" e) ->
  process_zoo_data e = Ok e.
Proof.
  intros Hr Hnd.
  destruct (process_zoo_data_settled _ _ Hr) as (Hrect & Hdated & Hl & Hfix & _).
  rewrite process_zoo_data_labelled.
  rewrite (lower_labels_id _ Hl).
  rewrite with_date_column_id, bind_ok by (destruct Hdated as (d & Hd & _); eauto).
  rewrite (valid_sorted_dates_id _ Hrect Hdated Hnd), bind_ok.
  now apply run_steps_fixpoint.
Qed.

End Idempotence.

(** ** The enriched frame *)

Section EnrichedFacts.
Context `{PandasEnv}.
Import Assignments DataProcessing.

Ltac in_steps :=
  unfold STEPS, TICKET_STEPS, PRICE_STEPS, REVENUE_STEPS, DATE_STEPS, AVERAGE_STEPS,
    PERCENTAGE_STEPS;
  cbn [app];
  repeat first [ apply list_elem_of_here | apply list_elem_of_further ].

Lemma settled_step s df e :
  process_zoo_data df = Ok e -> s ∈ STEPS -> run_step s e = Ok e.
Proof.
  intros Hr Hs. apply process_zoo_data_settled in Hr.
  destruct Hr as (_ & _ & _ & Hfix & _). rewrite Forall_forall in Hfix. auto.
Qed.

Lemma settled_present s df e :
  process_zoo_data df = Ok e -> s ∈ STEPS -> sure s = true ->
  is_Some (cols e !! target s).
Proof.
  intros Hr Hs. apply process_zoo_data_settled in Hr.
  destruct Hr as (_ & _ & _ & _ & Hp). rewrite Forall_forall in Hp. auto.
Qed.

Lemma set_col_fixed k v (e : frame) : set_col k v e = e -> col k e = v.
Proof.
  intros He. apply col_lookup. rewrite <- He. simpl. apply lookup_insert_eq.
Qed.

(** The columns behind [total_visitors]. *)
Lemma enriched_total_visitors df e :
  process_zoo_data df = Ok e ->
  exists v,
    col_add (col "adult_tickets" e) (col "child_tickets" e) = Ok v
    /\ col_add v (col "foreigner_tickets" e) = Ok (col "total_visitors" e).
Proof.
  intros Hr.
  pose proof (settled_step visitors _ _ Hr ltac:(in_steps)) as Hv.
  pose proof (settled_present (optional_tickets "foreigner_tickets" "foreigner tickets")
                _ _ Hr ltac:(in_steps) eq_refl) as Hf.
  apply has_column_true in Hf. cbn [target optional_tickets] in Hf.
  rewrite run_always in Hv by reflexivity.
  unfold visitors, compute, target in Hv. rewrite Hf in Hv.
  destruct (col_add (col "adult_tickets" e) (col "child_tickets" e)) as [v|];
    [|discriminate].
  rewrite bind_ok in Hv.
  destruct (col_add v (col "foreigner_tickets" e)) as [w|] eqn:Ew; [|discriminate].
  rewrite !bind_ok in Hv. injection Hv as Hv.
  exists v. split; [reflexivity|]. rewrite Ew. f_equal. symmetry.
  now apply set_col_fixed.
Qed.


Lemma col_binop_lookup op a b v i z :
  col_binop op a b = Ok v -> v !! i = Some z ->
  exists x y, a !! i = Some x /\ b !! i = Some y /\ z = cell_binop op x y
              /\ is_number x = true /\ is_number y = true.
Proof.
  unfold col_binop. destruct (numeric a && numeric b) eqn:E; [|discriminate].
  intros [= <-] Hz. apply lookup_zip_with_Some in Hz.
  destruct Hz as (x & y & -> & Hx & Hy).
  apply andb_true_iff in E. destruct E as [Ea Eb].
  unfold numeric in *. rewrite forallb_forall in Ea, Eb.
  exists x, y. repeat split; try assumption.
  - apply Ea. apply list_elem_of_In. eapply list_elem_of_lookup_2. eassumption.
  - apply Eb. apply list_elem_of_In. eapply list_elem_of_lookup_2. eassumption.
Qed.




Lemma wrap64_small z : Z.abs z <= 2 ^ 62 -> Float64.wrap64 z = z.
Proof.
  intros Hz. unfold Float64.wrap64. rewrite Z.mod_small; lia.
Qed.

(** C7. In every row of the enriched frame [total_visitors] is
    [adult_tickets + child_tickets + foreigner_tickets], and NaN when one
    of them is; the camera columns are not part of it. The sum is the one
    the machine computes, in int64 and in float64 alike, for whole numbers
    of tickets of magnitude up to [2^51]. *)
Theorem total_visitors_is_adult_child_foreigner (df : table) e i :
  process_zoo_data df = Ok e ->
  (i < nrows e)%nat ->
  exists a c f,
    col "adult_tickets" e !! i = Some a
    /\ col "child_tickets" e !! i = Some c
    /\ col "foreigner_tickets" e !! i = Some f
    /\ (a = Null \/ c = Null \/ f = Null -> col "total_visitors" e !! i = Some Null)
    /\ forall (qa qc qf : Q) (x y z : Z),
         a = Num qa -> c = Num qc -> f = Num qf ->
         (qa == inject_Z x)%Q -> (qc == inject_Z y)%Q -> (qf == inject_Z z)%Q ->
         Z.abs x <= 2 ^ 51 -> Z.abs y <= 2 ^ 51 -> Z.abs z <= 2 ^ 51 ->
         col "total_visitors" e !! i = Some (Num (qa + qc + qf))
         /\ (qa + qc + qf == inject_Z (x + y + z))%Q
         /\ Float64.wrap64 (Float64.wrap64 (x + y) + z) = x + y + z
         /\ Float64.fadd (Float64.fadd qa qc) qf = inject_Z (x + y + z).
Proof.
  intros Hr Hi.
  destruct (enriched_total_visitors _ _ Hr) as (v & Hv & Ht).
  destruct (process_zoo_data_settled _ _ Hr) as (Hrect & _).
  pose proof (settled_present visitors _ _ Hr ltac:(in_steps) eq_refl) as Hp.
  cbn [target visitors] in Hp.
  pose proof (rectangular_col _ _ Hrect Hp) as Hlen.
  destruct (lookup_lt_is_Some_2 (col "total_visitors" e) i) as [t Hti]; [lia|].
  destruct (col_binop_lookup _ _ _ _ _ _ Ht Hti) as (s & f & Hs & Hf & -> & _ & Nf).
  destruct (col_binop_lookup _ _ _ _ _ _ Hv Hs) as (a & c & Ha & Hc & -> & Na & Nc).
  exists a, c, f. split; [assumption|]. split; [assumption|]. split; [assumption|].
  rewrite Hti. split.
  - intros Hnull. f_equal.
    destruct a, c, f; try discriminate; try reflexivity;
      destruct Hnull as [Hn|[Hn|Hn]]; discriminate Hn.
  - intros qa qc qf x y z -> -> -> Hx Hy Hz Rx Ry Rz.
    assert (Hxy : (qa + qc == inject_Z (x + y))%Q).
    { rewrite Hx, Hy. now rewrite inject_Z_plus. }
    split; [reflexivity|]. split; [|split].
    + rewrite Hxy, Hz. now rewrite <- inject_Z_plus.
    + rewrite (wrap64_small (x + y)) by lia. apply wrap64_small. lia.
    + unfold Float64.fadd.
      rewrite (round64_integer (qa + qc) (x + y) Hxy) by lia.
      apply round64_integer; [|lia].
      rewrite Hz. now rewrite <- inject_Z_plus.
Qed.




(** The rule for [total_revenue]: the column [total amount (inr)] when the
    frame has it, the sum of the five revenues otherwise. *)
Lemma enriched_total_revenue df e :
  process_zoo_data df = Ok e ->
  if has_column "total amount (inr)" e then
    col "total_revenue" e = col "total amount (inr)" e
  else
    exists v1 v2 v3,
      col_add (col "adult_revenue" e) (col "child_revenue" e) = Ok v1
      /\ col_add v1 (col "foreigner_revenue" e) = Ok v2
      /\ col_add v2 (col "camera_revenue" e) = Ok v3
      /\ col_add v3 (col "hend_camera_revenue" e) = Ok (col "total_revenue" e).
Proof.
  intros Hr.
  pose proof (settled_step revenue_total _ _ Hr ltac:(in_steps)) as Hv.
  rewrite run_always in Hv by reflexivity.
  unfold revenue_total, compute, target in Hv.
  destruct (has_column "total amount (inr)" e).
  - rewrite bind_ok in Hv. injection Hv as Hv. now apply set_col_fixed.
  - destruct (col_add (col "adult_revenue" e) _) as [v1|] eqn:E1; [|discriminate].
    rewrite bind_ok in Hv.
    destruct (col_add v1 _) as [v2|] eqn:E2; [|discriminate]. rewrite bind_ok in Hv.
    destruct (col_add v2 _) as [v3|] eqn:E3; [|discriminate]. rewrite bind_ok in Hv.
    destruct (col_add v3 _) as [v4|] eqn:E4; [|discriminate]. rewrite !bind_ok in Hv.
    injection Hv as Hv. exists v1, v2, v3. repeat split; try assumption.
    rewrite E4. f_equal. symmetry. now apply set_col_fixed.
Qed.

End EnrichedFacts.

(** *** On the sample bookings *)

Lemma enriched_sample :
  DataProcessing.process_zoo_data (H := Demo.env) Demo.ledger = Ok Demo.enriched.
Proof. vm_compute. reflexivity. Qed.

Lemma enriched_sample_dates :
  col "date" Demo.enriched = [Date (20166 * NS_PER_DAY); Date (20177 * NS_PER_DAY)].
Proof. vm_compute. reflexivity. Qed.

(** The sample bookings, enriched, have two dates and are a fixed point. *)
Lemma process_zoo_data_idempotent_witness :
  DataProcessing.process_zoo_data (H := Demo.env) Demo.enriched = Ok Demo.enriched.
Proof.
  apply (process_zoo_data_idempotent (H := Demo.env) Demo.ledger).
  - exact enriched_sample.
  - rewrite enriched_sample_dates. apply NoDup_cons. split.
    + intros Hin. apply list_elem_of_singleton in Hin. discriminate Hin.
    + apply NoDup_singleton.
Defined.

(** C9 as stated fails on eighteen bookings of one day: the frame that
    [process_zoo_data] returns has the bookings for 1, 16, 15, ... adults
    in this order, and [process_zoo_data] on that frame returns them in
    the order 1, 2, 3, ... *)
Lemma process_zoo_data_idempotent_counterexample :
  DataProcessing.process_zoo_data (H := Demo.env) Demo.busy_day
  = Ok Demo.busy_day_enriched
  /\ DataProcessing.process_zoo_data (H := Demo.env) Demo.busy_day_enriched
     = Ok Demo.busy_day_again
  /\ take 3 (col "adult_tickets" Demo.busy_day_enriched) = [Num 1; Num 16; Num 15]
  /\ take 3 (col "adult_tickets" Demo.busy_day_again) = [Num 1; Num 2; Num 3]
  /\ DataProcessing.process_zoo_data (H := Demo.env) Demo.busy_day_enriched
     <> Ok Demo.busy_day_enriched.
Proof.
  assert (H2 : DataProcessing.process_zoo_data (H := Demo.env) Demo.busy_day_enriched
               = Ok Demo.busy_day_again) by (vm_compute; reflexivity).
  split; [vm_compute; reflexivity|].
  split; [exact H2|].
  split; [vm_compute; reflexivity|].
  split; [vm_compute; reflexivity|].
  rewrite H2. intros Heq.
  apply (f_equal (fun r => match r with
                           | Ok e => take 3 (col "adult_tickets" e)
                           | Raise _ => []
                           end)) in Heq.
  vm_compute in Heq. discriminate Heq.
Qed.

(** 19 March 2025: 7 adults, 1 child, 1 foreigner and 2 camera tickets make
    9 visitors. *)
Lemma total_visitors_witness :
  col "camera_tickets" Demo.enriched !! 0%nat = Some (Num 2)
  /\ col "total_visitors" Demo.enriched !! 0%nat = Some (Num 9)
  /\ exists a c f,
       col "adult_tickets" Demo.enriched !! 0%nat = Some a
       /\ col "child_tickets" Demo.enriched !! 0%nat = Some c
       /\ col "foreigner_tickets" Demo.enriched !! 0%nat = Some f
       /\ (a = Null \/ c = Null \/ f = Null ->
           col "total_visitors" Demo.enriched !! 0%nat = Some Null)
       /\ forall (qa qc qf : Q) (x y z : Z),
            a = Num qa -> c = Num qc -> f = Num qf ->
            (qa == inject_Z x)%Q -> (qc == inject_Z y)%Q -> (qf == inject_Z z)%Q ->
            Z.abs x <= 2 ^ 51 -> Z.abs y <= 2 ^ 51 -> Z.abs z <= 2 ^ 51 ->
            col "total_visitors" Demo.enriched !! 0%nat = Some (Num (qa + qc + qf))
            /\ (qa + qc + qf == inject_Z (x + y + z))%Q
            /\ Float64.wrap64 (Float64.wrap64 (x + y) + z) = x + y + z
            /\ Float64.fadd (Float64.fadd qa qc) qf = inject_Z (x + y + z).
Proof.
  split; [vm_compute; reflexivity|].
  split; [vm_compute; reflexivity|].
  apply (total_visitors_is_adult_child_foreigner (H := Demo.env) Demo.ledger).
  - exact enriched_sample.
  - vm_compute. lia.
Defined.



(** The percentages of the program in rows without foreigner tickets need
    not add up to 100 either: 6 adults and 3 children of 9 visitors give
    99.99999999999999, and the three shares of 7, 1 and 1 of 9 visitors
    give 100.00000000000001. *)
Example percentages_in_float64 :
  Float64.fadd (Float64.fmul (Float64.fdiv 6 9) 100) (Float64.fmul (Float64.fdiv 3 9) 100)
  = Float64.of_float 99.99999999999999
  /\ Float64.fadd
       (Float64.fadd (Float64.fmul (Float64.fdiv 7 9) 100)
          (Float64.fmul (Float64.fdiv 1 9) 100))
       (Float64.fmul (Float64.fdiv 1 9) 100)
     = Float64.of_float 100.00000000000001.
Proof. vm_compute. split; reflexivity. Qed.

(** The sample bookings have the amount without service charge as their
    only total: that column is in the enriched frame, 550 and 600, no
    statement of [process_zoo_data] reads it, and [total_revenue] is the
    sum of the category revenues at the default prices, 260 and 345. *)
Example amount_without_service_charge_is_not_read :
  DataProcessing.process_zoo_data (H := Demo.env) Demo.ledger = Ok Demo.enriched
  /\ DataProcessing.has_total_amount Demo.enriched = true
  /\ col "total amount without service charge" Demo.enriched = [Num 550; Num 600]
  /\ col "total_revenue" Demo.enriched = [Num 260; Num 345].
Proof.
  split; [exact enriched_sample|].
  split; [vm_compute; reflexivity|].
  split; vm_compute; reflexivity.
Qed.

(** ** Delimiters *)

(** [main] prefers the tab, as the comment above its test says. *)
Lemma app_delimiter_tab_first content :
  char_in DataProcessing.TAB (str_take 1000 content) = true ->
  App.detect_delimiter content = DataProcessing.TAB.
Proof. unfold App.detect_delimiter. now intros ->. Qed.

(** C3 in [validate_csv_format]: when the first 1000 characters hold a
    semicolon and a tab, the validation reads the file with the semicolon,
    while [main] reads it with the tab. *)
Theorem validation_prefers_semicolon_over_tab content :
  char_in ";" (str_take 1000 content) = true ->
  char_in DataProcessing.TAB (str_take 1000 content) = true ->
  DataProcessing.guess_delimiter content = ";"%char
  /\ App.detect_delimiter content = DataProcessing.TAB.
Proof.
  intros Hs Ht. unfold DataProcessing.guess_delimiter, App.detect_delimiter.
  now rewrite Hs, Ht.
Qed.

Lemma validation_prefers_semicolon_over_tab_witness :
  DataProcessing.guess_delimiter Demo.tabbed_export = ";"%char
  /\ App.detect_delimiter Demo.tabbed_export = DataProcessing.TAB.
Proof.
  apply validation_prefers_semicolon_over_tab; vm_compute; reflexivity.
Defined.

(** ** validate_csv_format *)

Section ValidationFacts.
Context `{PandasEnv}.
Import DataProcessing.










End ValidationFacts.

(** ** The definitions on known values *)

Example civil_dates :
  civil_from_days 20166 = Civil 2025 3 19
  /\ civil_from_days 19782 = Civil 2024 2 29
  /\ civil_from_days 0 = Civil 1970 1 1
  /\ civil_from_days (-1) = Civil 1969 12 31
  /\ days_in 2024 2 = 29 /\ days_in 1900 2 = 28 /\ days_in 2025 4 = 30
  /\ dt_dayofweek (20166 * NS_PER_DAY) = 2.
Proof. repeat split; reflexivity. Qed.

Example rounding_ties_to_even :
  round_half_even (1 # 2) = 0 /\ round_half_even (3 # 2) = 2
  /\ round_half_even (5 # 2) = 2 /\ round_half_even (- (1 # 2)) = 0
  /\ round_half_even (161 # 2) = 80 /\ round_half_even (- (3 # 2)) = -2
  /\ round_half_even (7 # 3) = 2.
Proof. repeat split; reflexivity. Qed.

Example month_end_factors :
  Prediction.month_end_factor_at 30 30 = Float64.round64 (12 # 10)
  /\ Prediction.month_end_factor_at 30 29 = Float64.round64 (115 # 100)
  /\ Prediction.month_end_factor_at 30 28 = Float64.round64 (11 # 10)
  /\ Prediction.month_end_factor_at 30 27 = Float64.round64 (105 # 100)
  /\ Prediction.month_end_factor_at 30 26 = 1%Q
  /\ Prediction.month_end_factor_at 30 25 = 1%Q
  /\ Prediction.month_end_factor_at 31 1 = 1%Q.
Proof. vm_compute. repeat split; reflexivity. Qed.

(** The factor is a double: 1.1 is a little more than 11/10, so that a
    forecast of 55 becomes 60.50000000000001 and then 61, where 55 * 11/10
    would round to 60; 80.5 and 34.5 are ties and go to 80 and 34. *)
Example smoothing_in_float64 :
  Prediction.smooth_at (H := Demo.env) 55 (Prediction.month_end_factor_at 30 28) = Ok 61
  /\ round_half_even (55 * (11 # 10)) = 60
  /\ Prediction.smooth_at (H := Demo.env) 70 (Prediction.month_end_factor_at 30 29) = Ok 80
  /\ Prediction.smooth_at (H := Demo.env) 30 (Prediction.month_end_factor_at 30 29) = Ok 34
  /\ Prediction.smooth_at (H := Demo.env) (inject_Z (10 ^ 19)) 1
     = Ok Float64.INT64_MIN.
Proof. vm_compute. repeat split; reflexivity. Qed.

(** The template of the application is accepted, and enriched it has the
    reported totals as revenue. *)
Example template_is_valid :
  DataProcessing.validate_csv_format (H := Demo.reading Demo.template) Demo.tabbed_export
  = DataProcessing.Validation true None.
Proof. vm_compute. reflexivity. Qed.

Example template_enriched :
  match DataProcessing.process_zoo_data (H := Demo.reading Demo.template) Demo.template with
  | Ok e =>
      nrows e = 2%nat
      /\ col "total_visitors" e = [Num 9; Num 12]
      /\ col "total_revenue" e = [Num (1133 # 2); Num 618]
      /\ col "day" e = [Num 19; Num 30]
  | Raise _ => False
  end.
Proof. vm_compute. repeat split; reflexivity. Qed.

(** A [KeyError] of the body comes back as an invalid result. *)
Example key_error_is_reported :
  DataProcessing.validate_body (H := Demo.reading Demo.ambiguous) "date,adult child ticket price"
  = DataProcessing.Throw (KeyError "adult_tickets")
  /\ DataProcessing.validate_csv_format (H := Demo.reading Demo.ambiguous)
       "date,adult child ticket price"
     = DataProcessing.invalid "Validation error: 'adult_tickets'".
Proof. split; vm_compute; reflexivity. Qed.

(** Without a parsable file the result names the parser's error. *)
Example unreadable_is_invalid :
  DataProcessing.valid (DataProcessing.validate_csv_format (H := Demo.env) "a,b") = false.
Proof. vm_compute. reflexivity. Qed.

(* ===================================================================== *)
(** * Further properties                                                  *)
(* ===================================================================== *)

(** ** predict_future_attendance: dates, untouched rows, clipped share *)

Section ForecastFacts.
Context `{PandasEnv}.
Import Prediction.

Lemma clipped_frame_length dates total adult child :
  length total = length dates -> length adult = length dates ->
  length child = length dates ->
  length (clipped_frame dates total adult child) = length dates.
Proof.
  revert total adult child.
  induction dates as [|d dates IH]; intros [|t total] [|a adult] [|c child];
    simpl; try discriminate; try reflexivity.
  intros [= Ht] [= Ha] [= Hc]. f_equal. now apply IH.
Qed.

Lemma smooth_length yhat factor counts :
  smooth yhat factor = Ok counts -> length counts = length factor.
Proof.
  unfold smooth. destruct (length yhat =? length factor)%nat eqn:E; [|discriminate].
  intros Hm. apply mapM_length in Hm. apply Nat.eqb_eq in E.
  rewrite Hm, length_zip. lia.
Qed.

Lemma date_range_dates start periods fd :
  0 <= periods -> date_range start periods = Ok fd ->
  exists s, start = Some s
            /\ fd = (fun i => s + Z.of_nat i * NS_PER_DAY) <$> seq 0 (Z.to_nat periods).
Proof.
  intros Hp. unfold date_range. destruct start as [s|]; [|discriminate].
  replace (periods <? 0) with false by lia. intros [= <-]. eauto.
Qed.

Lemma predict_rows_lookup df models days counts rows i r :
  smoothed_counts df models days = Ok counts ->
  predict_future_attendance df models days = Ok rows ->
  rows !! i = Some r ->
  exists c, counts !! i = Some c /\ r = finish models (reconcile (nrows df) models i c).
Proof.
  intros Hs. unfold predict_future_attendance. rewrite Hs. simpl. intros [= <-].
  rewrite list_lookup_fmap, list_lookup_imap.
  destruct (counts !! i) as [c|]; [|discriminate]. simpl. intros [= <-]. eauto.
Qed.

Lemma forecast_shape df models days rows :
  0 <= days ->
  predict_future_attendance df models days = Ok rows ->
  length rows = Z.to_nat days
  /\ exists last,
       date_max (col "date" df) = Some last
       /\ forall i r, rows !! i = Some r ->
                      date r = last + (Z.of_nat i + 1) * NS_PER_DAY.
Proof.
  intros Hdays Hp.
  destruct (smoothed_counts df models days) as [counts|] eqn:Hs;
    [|unfold predict_future_attendance in Hp; rewrite Hs in Hp; discriminate].
  pose proof Hs as Hinv. apply smoothed_counts_inv in Hinv.
  destruct Hinv as (dates & fd & yt & ya & yc & total & adult & child & Hd & Hr & _ & _
                    & _ & St & Sa & Sc & Hc).
  destruct (date_range_dates _ _ _ Hdays Hr) as (s & Hstart & Hfd).
  assert (Hcol : col "date" df = dates).
  { unfold getitem in Hd. unfold col. destruct (cols df !! "date"%string); [|discriminate].
    now injection Hd as ->. }
  destruct (date_max dates) as [last|] eqn:Hlast; [|discriminate].
  simpl in Hstart. injection Hstart as <-.
  assert (Hlen : length fd = Z.to_nat days).
  { rewrite Hfd, length_fmap. apply length_seq. }
  split.
  - pose proof Hp as Hp'. unfold predict_future_attendance in Hp'. rewrite Hs in Hp'.
    simpl in Hp'. injection Hp' as <-.
    rewrite length_fmap, length_imap, Hc, clipped_frame_length; try assumption.
    + now rewrite (smooth_length _ _ _ St); unfold month_end_factor; rewrite length_fmap.
    + now rewrite (smooth_length _ _ _ Sa); unfold month_end_factor; rewrite length_fmap.
    + now rewrite (smooth_length _ _ _ Sc); unfold month_end_factor; rewrite length_fmap.
  - exists last. rewrite Hcol. split; [assumption|]. intros i r Hr'.
    destruct (predict_rows_lookup _ _ _ _ _ _ _ Hs Hp Hr') as (c & Hci & ->).
    simpl. rewrite reconcile_date. rewrite Hc in Hci.
    apply clipped_frame_lookup in Hci.
    destruct Hci as (d & t & a & ch & Hdi & _ & _ & _ & ->). simpl.
    rewrite Hfd, list_lookup_fmap in Hdi.
    destruct (seq 0 (Z.to_nat days) !! i) as [j|] eqn:Hj; [|discriminate].
    apply lookup_seq in Hj. destruct Hj as [-> _]. simpl in Hdi.
    injection Hdi as <-. lia.
Qed.

(** X1. A forecast over [days >= 0] days has exactly [days] rows, and row
    [i] is dated [i + 1] days after the latest date of the history, at the
    same time of day. *)
Theorem forecast_rows_are_the_next_days df models days rows :
  0 <= days ->
  predict_future_attendance df models days = Ok rows ->
  length rows = Z.to_nat days
  /\ exists last,
       date_max (col "date" df) = Some last
       /\ forall i r, rows !! i = Some r ->
                      date r = last + (Z.of_nat i + 1) * NS_PER_DAY.
Proof. apply forecast_shape. Qed.

(** X2. A row whose smoothed and clamped adult and child counts already add
    up to its total is returned with exactly those counts. *)
Theorem consistent_rows_are_kept df models days counts i c :
  smoothed_counts df models days = Ok counts ->
  counts !! i = Some c ->
  c_adult_tickets c + c_child_tickets c = c_total_visitors c ->
  exists rows r,
    predict_future_attendance df models days = Ok rows
    /\ rows !! i = Some r
    /\ total_visitors r = c_total_visitors c
    /\ adult_tickets r = c_adult_tickets c
    /\ child_tickets r = c_child_tickets c.
Proof.
  intros Hs Hc Hsum. unfold predict_future_attendance. rewrite Hs. simpl.
  eexists _, _. split; [reflexivity|].
  rewrite list_lookup_fmap, list_lookup_imap, Hc. simpl.
  split; [reflexivity|]. unfold reconcile.
  apply Z.eqb_eq in Hsum. rewrite Hsum. simpl. auto.
Qed.

(** X3. In a row that the loop rewrites, a predicted adult share of 100 or
    more makes every visitor an adult, and a predicted share of 0 or less
    makes every visitor a child. *)
Theorem clipped_share_extremes df models days counts i c :
  smoothed_counts df models days = Ok counts ->
  counts !! i = Some c ->
  c_adult_tickets c + c_child_tickets c <> c_total_visitors c ->
  let share := lr_predict (adult_percentage_model models)
                 (Z.of_nat (nrows df) + Z.of_nat i + 1) in
  exists rows r,
    predict_future_attendance df models days = Ok rows
    /\ rows !! i = Some r
    /\ ((100 <= share)%Q ->
        adult_tickets r = c_total_visitors c /\ child_tickets r = 0)
    /\ ((share <= 0)%Q ->
        adult_tickets r = 0 /\ child_tickets r = c_total_visitors c).
Proof.
  intros Hs Hc Hsum share. unfold predict_future_attendance. rewrite Hs. simpl.
  eexists _, _. split; [reflexivity|].
  rewrite list_lookup_fmap, list_lookup_imap, Hc. simpl.
  split; [reflexivity|]. unfold reconcile.
  apply Z.eqb_neq in Hsum. rewrite Hsum. simpl.
  replace (Z.of_nat (nrows df) + (Z.of_nat i - 0) + 1)
    with (Z.of_nat (nrows df) + Z.of_nat i + 1) by lia.
  fold share. split.
  - intros Hhigh.
    assert (Hp : py_max 0 (py_min 100 share) = 100%Q).
    { unfold py_min. apply Qle_bool_iff in Hhigh. now rewrite Hhigh. }
    rewrite Hp.
    rewrite (round_half_even_integer _ (c_total_visitors c)) by (field; discriminate).
    lia.
  - intros Hlow.
    assert (Hp : py_max 0 (py_min 100 share) = 0%Q).
    { unfold py_min, py_max.
      destruct (Qle_bool 100 share) eqn:E.
      - apply Qle_bool_iff in E. exfalso. lra.
      - apply Qle_bool_iff in Hlow. now rewrite Hlow. }
    rewrite Hp.
    rewrite (round_half_even_integer _ 0) by (field; discriminate).
    lia.
Qed.

(** X4. Without a usable date the forecast fails before any forecaster is
    asked: a history without [date] column is a [KeyError], one whose
    [date] column holds no date at all is the [ValueError] of
    [pd.date_range]. *)
Theorem forecast_needs_a_dated_history df models days :
  date_max (col "date" df) = None ->
  predict_future_attendance df models days
  = Raise (if has_column "date" df
           then ValueError "Neither `start` nor `end` can be NaT"
           else KeyError "date").
Proof.
  intros Hmax. unfold predict_future_attendance, smoothed_counts, getitem, has_column.
  unfold col in Hmax.
  destruct (cols df !! "date"%string) as [d|] eqn:E; simpl.
  - simpl in Hmax. rewrite Hmax. reflexivity.
  - reflexivity.
Qed.

End ForecastFacts.

Lemma forecast_rows_witness :
  length Demo.forecast = Z.to_nat 4
  /\ exists last,
       date_max (col "date" Demo.history) = Some last
       /\ forall i r, Demo.forecast !! i = Some r ->
                      Prediction.date r = last + (Z.of_nat i + 1) * NS_PER_DAY.
Proof.
  apply (forecast_rows_are_the_next_days (H := Demo.env) Demo.history
           (Demo.models_of Demo.constant_forecaster 100 70 20) 4).
  - lia.
  - vm_compute. reflexivity.
Defined.

Lemma consistent_rows_witness :
  exists rows r,
    Prediction.predict_future_attendance (H := Demo.env) Demo.history
      (Demo.models_of Demo.constant_forecaster 100 70 30) 2 = Ok rows
    /\ rows !! 0%nat = Some r
    /\ Prediction.total_visitors r = 110
    /\ Prediction.adult_tickets r = 77
    /\ Prediction.child_tickets r = 33.
Proof.
  apply (consistent_rows_are_kept (H := Demo.env) Demo.history
           (Demo.models_of Demo.constant_forecaster 100 70 30) 2
           Demo.smoothed_consistent 0
           (Prediction.Build_Counts 1743206400000000000 110 77 33)).
  - vm_compute. reflexivity.
  - reflexivity.
  - reflexivity.
Defined.

Lemma clipped_share_witness :
  exists rows r,
    Prediction.predict_future_attendance (H := Demo.env) Demo.history Demo.optimistic 4
    = Ok rows
    /\ rows !! 0%nat = Some r
    /\ Prediction.adult_tickets r = 110 /\ Prediction.child_tickets r = 0.
Proof.
  destruct (clipped_share_extremes (H := Demo.env) Demo.history Demo.optimistic 4
              Demo.smoothed 0 (Prediction.Build_Counts 1743206400000000000 110 77 22))
    as (rows & r & Hp & Hr & Hhigh & _).
  - vm_compute. reflexivity.
  - reflexivity.
  - simpl. lia.
  - exists rows, r. split; [exact Hp|]. split; [exact Hr|].
    apply Hhigh. vm_compute. discriminate.
Defined.

Lemma forecast_needs_a_dated_history_witness :
  Prediction.predict_future_attendance (H := Demo.env) Demo.undated
    (Demo.models_of Demo.constant_forecaster 100 70 20) 30
  = Raise (if has_column "date" Demo.undated
           then ValueError "Neither `start` nor `end` can be NaT"
           else KeyError "date").
Proof.
  apply (forecast_needs_a_dated_history (H := Demo.env)). reflexivity.
Defined.

(** ** process_zoo_data: what the returned frame looks like *)

Section EnrichedShape.
Context `{PandasEnv}.
Import Assignments DataProcessing.

Lemma lower_labels_lookup_None df k :
  (forall k0, is_Some (cols df !! k0) -> lower k0 <> k) ->
  cols (lower_labels df) !! k = None.
Proof.
  intros Hno. simpl. apply not_elem_of_list_to_map_1.
  intros Hin. apply list_elem_of_fmap in Hin. destruct Hin as ([k1 v1] & -> & Hin).
  apply list_elem_of_fmap in Hin. destruct Hin as ([k0 v0] & Heq & Hin).
  injection Heq as -> ->. apply elem_of_map_to_list in Hin.
  apply (Hno k0); [eauto|reflexivity].
Qed.

(** X5. A frame whose labels are text, none of them [date] or
    [booking date] in any mix of upper and lower case, is refused with a
    [ValueError]; a frame whose labels are not text is refused before
    that, with the [AttributeError] of the [.str] accessor. *)
Theorem process_needs_a_date_column (df : table) :
  (forall df0 k, df = Labelled df0 -> is_Some (cols df0 !! k) ->
                 lower k <> "date"%string /\ lower k <> "booking date"%string) ->
  process_zoo_data df
  = Raise (match df with
           | Labelled _ =>
               ValueError "No 'date' or 'booking date' column found in the data"
           | Numbered _ _ =>
               AttributeError "Can only use .str accessor with string values!"
           end).
Proof.
  intros Hno. destruct df as [df|rows columns]; [|reflexivity].
  unfold process_zoo_data, with_date_column. cbn [lower_columns]. rewrite bind_ok.
  assert (Hd : has_column "date" (lower_labels df) = false).
  { apply has_column_false, lower_labels_lookup_None. intros k Hk.
    now apply (Hno df k eq_refl). }
  assert (Hb : has_column "booking date" (lower_labels df) = false).
  { apply has_column_false, lower_labels_lookup_None. intros k Hk.
    now apply (Hno df k eq_refl). }
  rewrite Hd, Hb. reflexivity.
Qed.

Lemma ascending_pairs d i a b :
  ascending d = true -> d !! i = Some (Date a) -> d !! S i = Some (Date b) -> a <= b.
Proof.
  revert i. induction d as [|x d IH]; intros i Hasc Hi HS; [discriminate|].
  rewrite ascending_cons in Hasc. destruct d as [|y d']; [discriminate|].
  apply andb_true_iff in Hasc. destruct Hasc as [Hxy Hasc].
  destruct i as [|i].
  - simpl in Hi, HS. injection Hi as ->. injection HS as ->.
    simpl in Hxy. now apply Z.leb_le.
  - apply (IH i); assumption.
Qed.

(** X6. In the returned frame the [date] column has one entry per row,
    every entry is a valid date (no NaT is kept), and the dates ascend. *)
Theorem enriched_dates_valid_and_ascending df e :
  process_zoo_data df = Ok e ->
  exists d,
    cols e !! "date"%string = Some d
    /\ length d = nrows e
    /\ (forall i x, d !! i = Some x -> exists t, x = Date t)
    /\ (forall i a b, d !! i = Some (Date a) -> d !! S i = Some (Date b) -> a <= b).
Proof.
  intros Hr. destruct (process_zoo_data_settled _ _ Hr) as (Hrect & Hdated & _).
  destruct Hdated as (d & Hd & Hdates & Hasc).
  exists d. split; [assumption|]. split; [exact (Hrect _ _ Hd)|]. split.
  - intros i x Hx. rewrite forallb_forall in Hdates.
    assert (Hin : In x d) by (apply list_elem_of_In; eapply list_elem_of_lookup_2; eauto).
    specialize (Hdates x Hin). destruct x; try discriminate. eauto.
  - intros i a b. now apply ascending_pairs.
Qed.

(** X7. The returned frame has every canonical column, each with one entry
    per row. *)
Theorem enriched_has_canonical_columns df e :
  process_zoo_data df = Ok e ->
  Forall (fun k => exists c, cols e !! k = Some c /\ length c = nrows e)
    CANONICAL_COLUMNS.
Proof.
  intros Hr.
  destruct (process_zoo_data_settled _ _ Hr) as (Hrect & Hdated & _ & _ & Hsure).
  assert (Hall : Forall (fun k => k = "date"%string
                                  \/ Exists (fun s => sure s = true /\ target s = k) STEPS)
                   CANONICAL_COLUMNS).
  { apply (bool_decide_unpack _). vm_compute. exact I. }
  eapply Forall_impl; [exact Hall|]. simpl. intros k Hk.
  assert (Hsome : is_Some (cols e !! k)).
  { destruct Hk as [->|Hex].
    - destruct Hdated as (d & Hd & _). eauto.
    - apply Exists_exists in Hex. destruct Hex as (s & Hs & Hsu & <-).
      rewrite Forall_forall in Hsure. now apply Hsure. }
  destruct Hsome as [c Hc]. exists c. split; [assumption|]. exact (Hrect _ _ Hc).
Qed.

End EnrichedShape.

Lemma process_needs_a_date_column_witness :
  DataProcessing.process_zoo_data (H := Demo.env) Demo.counts_only
  = Raise (ValueError "No 'date' or 'booking date' column found in the data")
  /\ DataProcessing.process_zoo_data (H := Demo.env) Demo.unlabelled
     = Raise (AttributeError "Can only use .str accessor with string values!").
Proof.
  split.
  - apply (process_needs_a_date_column (H := Demo.env) (Labelled Demo.counts_only)).
    intros df0 k [= <-] [v Hk]. unfold Demo.counts_only in Hk. cbn [cols] in Hk.
    apply elem_of_list_to_map_2 in Hk.
    apply list_elem_of_In in Hk. simpl in Hk.
    destruct Hk as [[= <- _]|[[= <- _]|[]]]; split; discriminate.
  - apply (process_needs_a_date_column (H := Demo.env) Demo.unlabelled).
    intros df0 k Heq. discriminate Heq.
Defined.

Lemma enriched_dates_witness :
  exists d,
    cols Demo.enriched !! "date"%string = Some d
    /\ length d = nrows Demo.enriched
    /\ (forall i x, d !! i = Some x -> exists t, x = Date t)
    /\ (forall i a b, d !! i = Some (Date a) -> d !! S i = Some (Date b) -> a <= b).
Proof.
  apply (enriched_dates_valid_and_ascending (H := Demo.env) Demo.ledger).
  exact enriched_sample.
Defined.

Lemma enriched_has_canonical_columns_witness :
  Forall (fun k => exists c, cols Demo.enriched !! k = Some c
                             /\ length c = nrows Demo.enriched)
    Assignments.CANONICAL_COLUMNS.
Proof.
  apply (enriched_has_canonical_columns (H := Demo.env) Demo.ledger).
  exact enriched_sample.
Defined.

(** ** process_zoo_data: revenues, prices, calendar and averages *)

Section EnrichedColumns.
Context `{PandasEnv}.
Import Assignments DataProcessing.

Ltac step_in_steps :=
  unfold STEPS, TICKET_STEPS, PRICE_STEPS, REVENUE_STEPS, DATE_STEPS, AVERAGE_STEPS,
    PERCENTAGE_STEPS;
  cbn [app];
  repeat first [ apply list_elem_of_here | apply list_elem_of_further ].

Lemma enriched_column_length s df e :
  process_zoo_data df = Ok e -> s ∈ STEPS -> sure s = true ->
  length (col (target s) e) = nrows e.
Proof.
  intros Hr Hs Hsu.
  destruct (process_zoo_data_settled _ _ Hr) as (Hrect & _).
  apply rectangular_col; [assumption|]. eapply settled_present; eassumption.
Qed.

Lemma cell_sum5_number a c f k h :
  cell_binop (fun x y => Num (x + y))
    (cell_binop (fun x y => Num (x + y))
       (cell_binop (fun x y => Num (x + y))
          (cell_binop (fun x y => Num (x + y)) a c) f) k) h
  = match a, c, f, k, h with
    | Num qa, Num qc, Num qf, Num qk, Num qh => Num (qa + qc + qf + qk + qh)
    | _, _, _, _, _ => Null
    end.
Proof. destruct a, c, f, k, h; reflexivity. Qed.





(** A label absent at the start, and assigned by one guarded constant
    assignment only, ends up holding the constant. *)
Lemma run_steps_constant l1 t c l2 df e :
  run_steps (l1 ++ constant t c :: l2) df = Ok e ->
  cols df !! t = None -> (t ∉ targets l1) -> (t ∉ targets l2) ->
  cols e !! t = Some (replicate (nrows e) c).
Proof.
  intros Hr Hnone H1 H2. rewrite run_steps_app in Hr.
  destruct (run_steps l1 df) as [df1|] eqn:E1; [|discriminate]. rewrite bind_ok in Hr.
  apply run_steps_effect in E1. destruct E1 as (N1 & O1 & _).
  rewrite run_steps_cons in Hr.
  assert (Hmiss : has_column t df1 = false).
  { apply has_column_false. rewrite (O1 t H1). exact Hnone. }
  unfold run_step in Hr. cbn [always target compute constant] in Hr.
  rewrite Hmiss in Hr. cbn [negb andb] in Hr. rewrite !bind_ok in Hr.
  apply run_steps_effect in Hr. destruct Hr as (N2 & O2 & _).
  rewrite (O2 t H2), N2. simpl. now rewrite lookup_insert_eq.
Qed.

Lemma valid_sorted_dates_missing df1 df2 k :
  valid_sorted_dates df1 = Ok df2 -> k <> "date"%string ->
  cols df1 !! k = None -> cols df2 !! k = None.
Proof.
  unfold valid_sorted_dates.
  destruct (to_datetime None 1 (col "date" df1)) as [d|]; [|discriminate].
  rewrite bind_ok. intros [= <-] Hk Hnone.
  unfold sort_values. rewrite take_rows_lookup.
  assert (Hset : cols (set_col "date" d df1) !! k = None).
  { simpl. rewrite lookup_insert_ne by congruence. exact Hnone. }
  destruct (0 <? count_null _)%nat.
  - unfold dropna. rewrite take_rows_lookup, Hset. reflexivity.
  - rewrite Hset. reflexivity.
Qed.

Lemma process_zoo_data_missing (df : frame) e k :
  process_zoo_data df = Ok e ->
  (forall k0, is_Some (cols df !! k0) -> lower k0 <> k) -> k <> "date"%string ->
  exists df2, run_steps STEPS df2 = Ok e /\ cols df2 !! k = None.
Proof.
  rewrite process_zoo_data_labelled. intros Hr Hno Hk.
  destruct (with_date_column (lower_labels df)) as [df1|] eqn:E1; [|discriminate].
  rewrite bind_ok in Hr.
  destruct (valid_sorted_dates df1) as [df2|] eqn:E2; [|discriminate].
  rewrite bind_ok in Hr. exists df2. split; [assumption|].
  apply (valid_sorted_dates_missing _ _ _ E2 Hk).
  pose proof (lower_labels_lookup_None df k Hno) as Hl.
  apply with_date_column_shape in E1. destruct E1 as [->|[x ->]]; [assumption|].
  simpl. rewrite lookup_insert_ne by congruence. exact Hl.
Qed.

Lemma has_column_take_rows idxs df k :
  has_column k (take_rows idxs df) = has_column k df.
Proof.
  unfold has_column. apply bool_decide_ext. rewrite take_rows_lookup.
  apply fmap_is_Some.
Qed.

Lemma has_column_set_other k k' v (df : frame) :
  k' <> k -> has_column k (set_col k' v df) = has_column k df.
Proof. intros Hne. rewrite has_column_set_col. now rewrite decide_False. Qed.

Lemma valid_sorted_dates_has df1 df2 k :
  valid_sorted_dates df1 = Ok df2 -> k <> "date"%string ->
  has_column k df2 = has_column k df1.
Proof.
  unfold valid_sorted_dates.
  destruct (to_datetime None 1 (col "date" df1)) as [d|]; [|discriminate].
  rewrite bind_ok. intros [= <-] Hk.
  unfold sort_values. rewrite has_column_take_rows.
  destruct (0 <? count_null _)%nat.
  - unfold dropna. rewrite has_column_take_rows. apply has_column_set_other. congruence.
  - apply has_column_set_other. congruence.
Qed.

(** A column of the upload that the program does not assign is in the
    result exactly when it is in the upload. *)
Lemma process_zoo_data_keeps (df : frame) e k :
  process_zoo_data df = Ok e -> k <> "date"%string -> (k ∉ targets STEPS) ->
  has_column k e = has_column k (lower_labels df).
Proof.
  rewrite process_zoo_data_labelled. intros Hr Hk Ht.
  destruct (with_date_column (lower_labels df)) as [df1|] eqn:E1; [|discriminate].
  rewrite bind_ok in Hr.
  destruct (valid_sorted_dates df1) as [df2|] eqn:E2; [|discriminate].
  rewrite bind_ok in Hr.
  apply run_steps_effect in Hr. destruct Hr as (_ & Ho & _).
  unfold has_column at 1. rewrite (Ho k Ht). fold (has_column k df2).
  rewrite (valid_sorted_dates_has _ _ _ E2 Hk).
  apply with_date_column_shape in E1. destruct E1 as [->|[x ->]]; [reflexivity|].
  apply has_column_set_other. congruence.
Qed.

Lemma total_amount_is_kept : "total amount (inr)"%string ∉ targets STEPS.
Proof. apply (bool_decide_unpack _). vm_compute. exact I. Qed.

Lemma wrap64_sum5 (a c f k h : Z) :
  Z.abs a <= 10 ^ 8 -> Z.abs c <= 10 ^ 8 -> Z.abs f <= 10 ^ 8 ->
  Z.abs k <= 10 ^ 8 -> Z.abs h <= 10 ^ 8 ->
  Float64.wrap64
    (Float64.wrap64 (Float64.wrap64 (Float64.wrap64 (a + c) + f) + k) + h)
  = a + c + f + k + h.
Proof.
  intros Ha Hc Hf Hk Hh.
  assert (H62 : 5 * 10 ^ 8 <= 2 ^ 62) by (vm_compute; discriminate).
  rewrite (wrap64_small (a + c)) by lia.
  rewrite (wrap64_small (a + c + f)) by lia.
  rewrite (wrap64_small (a + c + f + k)) by lia.
  apply wrap64_small. lia.
Qed.

(** C6. [total_revenue] is the column [total amount (inr)] of the upload,
    cell by cell, when the upload has a column of that name in any mix of
    upper and lower case. Otherwise it is in every row the sum of the five
    category revenues, and NaN when one of them is: for revenues of
    magnitude up to [10^8] the sum taken from left to right in float64 is
    within [10^-6] of it, and the sum of whole numbers in int64 is that
    sum. *)
Theorem total_revenue_is_reported_total_or_sum (df : frame) e :
  process_zoo_data df = Ok e ->
  if has_column "total amount (inr)" (lower_labels df) then
    has_column "total amount (inr)" e = true
    /\ col "total_revenue" e = col "total amount (inr)" e
  else
    has_column "total amount (inr)" e = false
    /\ forall i, (i < nrows e)%nat ->
       exists a c f k h,
         col "adult_revenue" e !! i = Some a
         /\ col "child_revenue" e !! i = Some c
         /\ col "foreigner_revenue" e !! i = Some f
         /\ col "camera_revenue" e !! i = Some k
         /\ col "hend_camera_revenue" e !! i = Some h
         /\ (a = Null \/ c = Null \/ f = Null \/ k = Null \/ h = Null ->
             col "total_revenue" e !! i = Some Null)
         /\ forall qa qc qf qk qh : Q,
              a = Num qa -> c = Num qc -> f = Num qf -> k = Num qk -> h = Num qh ->
              (Qabs qa <= 100000000)%Q -> (Qabs qc <= 100000000)%Q ->
              (Qabs qf <= 100000000)%Q -> (Qabs qk <= 100000000)%Q ->
              (Qabs qh <= 100000000)%Q ->
              col "total_revenue" e !! i = Some (Num (qa + qc + qf + qk + qh))
              /\ (Qabs (Float64.fadd
                          (Float64.fadd (Float64.fadd (Float64.fadd qa qc) qf) qk) qh
                        - (qa + qc + qf + qk + qh)) <= 1 # 1000000)%Q
              /\ forall za zc zf zk zh : Z,
                   (qa == inject_Z za)%Q -> (qc == inject_Z zc)%Q ->
                   (qf == inject_Z zf)%Q -> (qk == inject_Z zk)%Q ->
                   (qh == inject_Z zh)%Q ->
                   (qa + qc + qf + qk + qh
                    == inject_Z
                         (Float64.wrap64
                            (Float64.wrap64
                               (Float64.wrap64 (Float64.wrap64 (za + zc) + zf) + zk)
                             + zh)))%Q.
Proof.
  intros Hr. pose proof (enriched_total_revenue _ _ Hr) as Hrule.
  assert (Hne : "total amount (inr)"%string <> "date"%string) by discriminate.
  rewrite <- (process_zoo_data_keeps df e _ Hr Hne total_amount_is_kept).
  destruct (has_column "total amount (inr)" e); [now split|].
  split; [reflexivity|]. intros i Hi.
  destruct Hrule as (v1 & v2 & v3 & H1 & H2 & H3 & H4).
  pose proof (enriched_column_length revenue_total _ _ Hr ltac:(step_in_steps) eq_refl)
    as Hlen.
  cbn [target revenue_total] in Hlen.
  destruct (lookup_lt_is_Some_2 (col "total_revenue" e) i) as [t Ht]; [lia|].
  destruct (col_binop_lookup _ _ _ _ _ _ H4 Ht) as (x3 & h & Hx3 & Hh & -> & _ & Nh).
  destruct (col_binop_lookup _ _ _ _ _ _ H3 Hx3) as (x2 & k & Hx2 & Hk & -> & _ & Nk).
  destruct (col_binop_lookup _ _ _ _ _ _ H2 Hx2) as (x1 & f & Hx1 & Hf & -> & _ & Nf).
  destruct (col_binop_lookup _ _ _ _ _ _ H1 Hx1) as (a & c & Ha & Hc & -> & Na & Nc).
  exists a, c, f, k, h.
  split; [assumption|]. split; [assumption|]. split; [assumption|].
  split; [assumption|]. split; [assumption|].
  rewrite Ht, cell_sum5_number. split.
  - intros Hnull. f_equal.
    destruct a, c, f, k, h; try discriminate; try reflexivity;
      destruct Hnull as [Hn|[Hn|[Hn|[Hn|Hn]]]]; discriminate Hn.
  - intros qa qc qf qk qh -> -> -> -> -> Ra Rc Rf Rk Rh.
    split; [reflexivity|]. split; [now apply sum5_error|].
    intros za zc zf zk zh Ea Ec Ef Ek Eh.
    assert (Hz : forall (q : Q) (z : Z),
               (q == inject_Z z)%Q -> (Qabs q <= 100000000)%Q -> Z.abs z <= 10 ^ 8).
    { intros q z Eq Rq. rewrite Eq in Rq.
      change 100000000%Q with (inject_Z (10 ^ 8)) in Rq.
      assert (Hq : (Qabs (inject_Z z) == inject_Z (Z.abs z))%Q) by reflexivity.
      rewrite Hq in Rq. now rewrite <- Zle_Qle in Rq. }
    rewrite wrap64_sum5 by eauto.
    rewrite Ea, Ec, Ef, Ek, Eh. now rewrite <- !inject_Z_plus.
Qed.

Lemma default_price_at n name price df e :
  STEPS !! n = Some (constant name (Num price)) ->
  (name ∉ targets (take n STEPS)) -> (name ∉ targets (drop (S n) STEPS)) ->
  name <> "date"%string ->
  (forall k, is_Some (cols df !! k) -> lower k <> name) ->
  process_zoo_data df = Ok e ->
  col name e = replicate (nrows e) (Num price).
Proof.
  intros Hn H1 H2 Hd Hno Hr.
  destruct (process_zoo_data_missing _ _ _ Hr Hno Hd) as (df2 & Hrun & Hnone).
  rewrite <- (take_drop_middle _ _ _ Hn) in Hrun.
  apply col_lookup. exact (run_steps_constant _ _ _ _ _ _ Hrun Hnone H1 H2).
Qed.

(** X10. A price column that the upload does not have under any spelling
    of its lower-case name is filled with the default price in every row:
    25 for adults, 15 for children, 50 for foreigners, 10 for cameras, 20
    for high-end cameras. *)
Theorem default_price_when_missing df e name price :
  (name, price) ∈ DEFAULT_PRICES ->
  (forall k, is_Some (cols df !! k) -> lower k <> name) ->
  process_zoo_data df = Ok e ->
  col name e = replicate (nrows e) (Num price).
Proof.
  intros Hin. apply list_elem_of_In in Hin. unfold DEFAULT_PRICES in Hin.
  cbn [In] in Hin.
  destruct Hin as [Heq|[Heq|[Heq|[Heq|[Heq|[]]]]]]; injection Heq as <- <-.
  - apply (default_price_at 8); [reflexivity| | |discriminate];
      apply (bool_decide_unpack _); vm_compute; exact I.
  - apply (default_price_at 9); [reflexivity| | |discriminate];
      apply (bool_decide_unpack _); vm_compute; exact I.
  - apply (default_price_at 10); [reflexivity| | |discriminate];
      apply (bool_decide_unpack _); vm_compute; exact I.
  - apply (default_price_at 11); [reflexivity| | |discriminate];
      apply (bool_decide_unpack _); vm_compute; exact I.
  - apply (default_price_at 12); [reflexivity| | |discriminate];
      apply (bool_decide_unpack _); vm_compute; exact I.
Qed.

Lemma enriched_accessor t f df e :
  process_zoo_data df = Ok e -> accessor t f ∈ STEPS ->
  col t e = dt f (col "date" e).
Proof.
  intros Hr Hin. pose proof (settled_step _ _ _ Hr Hin) as Hv.
  rewrite run_accessor in Hv. injection Hv as Hv. now apply set_col_fixed.
Qed.

Lemma dt_lookup f c i t : c !! i = Some (Date t) -> dt f c !! i = Some (f t).
Proof. intros Hc. unfold dt. now rewrite list_lookup_fmap, Hc. Qed.

Lemma Qeq_bool_inject_Z a b : Qeq_bool (inject_Z a) (inject_Z b) = (a =? b).
Proof.
  unfold Qeq_bool, inject_Z. simpl. now rewrite !Z.mul_1_r.
Qed.

(** X11. In a row dated [t] the calendar columns hold the year, month, day
    and weekday (Monday 0) of [t], the English day and month names, and
    [is_weekend] is 1 exactly on Saturday and Sunday. *)
Theorem calendar_columns df e i t :
  process_zoo_data df = Ok e ->
  col "date" e !! i = Some (Date t) ->
  col "year" e !! i = Some (Num (inject_Z (dt_year t)))
  /\ col "month" e !! i = Some (Num (inject_Z (dt_month t)))
  /\ col "day" e !! i = Some (Num (inject_Z (dt_day t)))
  /\ col "dayofweek" e !! i = Some (Num (inject_Z (dt_dayofweek t)))
  /\ col "is_weekend" e !! i = Some (Num (inject_Z (is_weekend_of (dt_dayofweek t))))
  /\ col "day_name" e !! i = Some (Str (dt_day_name t))
  /\ col "month_name" e !! i = Some (Str (dt_month_name t)).
Proof.
  intros Hr Ht.
  assert (Hdow : col "dayofweek" e !! i = Some (Num (inject_Z (dt_dayofweek t)))).
  { rewrite (enriched_accessor "dayofweek" (num_of dt_dayofweek) _ _ Hr)
      by step_in_steps.
    exact (dt_lookup _ _ _ _ Ht). }
  repeat split.
  - rewrite (enriched_accessor "year" (num_of dt_year) _ _ Hr) by step_in_steps.
    exact (dt_lookup _ _ _ _ Ht).
  - rewrite (enriched_accessor "month" (num_of dt_month) _ _ Hr) by step_in_steps.
    exact (dt_lookup _ _ _ _ Ht).
  - rewrite (enriched_accessor "day" (num_of dt_day) _ _ Hr) by step_in_steps.
    exact (dt_lookup _ _ _ _ Ht).
  - exact Hdow.
  - pose proof (settled_step weekend _ _ Hr ltac:(step_in_steps)) as Hv.
    rewrite run_weekend in Hv. injection Hv as Hv. apply set_col_fixed in Hv.
    rewrite Hv. unfold isin_5_6. rewrite list_lookup_fmap, Hdow. simpl. f_equal.
    change 5%Q with (inject_Z 5). change 6%Q with (inject_Z 6).
    rewrite !Qeq_bool_inject_Z. unfold is_weekend_of.
    now destruct ((dt_dayofweek t =? 5) || (dt_dayofweek t =? 6)).
  - rewrite (enriched_accessor "day_name" (fun t => Str (dt_day_name t)) _ _ Hr)
      by step_in_steps.
    exact (dt_lookup _ _ _ _ Ht).
  - rewrite (enriched_accessor "month_name" (fun t => Str (dt_month_name t)) _ _ Hr)
      by step_in_steps.
    exact (dt_lookup _ _ _ _ Ht).
Qed.

Lemma rolling_mean_short w1 w2 c :
  (length c <= w1)%nat -> (length c <= w2)%nat ->
  rolling_mean w1 c = rolling_mean w2 c.
Proof.
  intros H1 H2. unfold rolling_mean. destruct (numeric c); [|reflexivity]. f_equal.
  apply Forall_fmap_ext, Forall_forall. intros i Hi.
  apply elem_of_seq in Hi.
  replace (S i - w1)%nat with 0%nat by lia.
  replace (S i - w2)%nat with 0%nat by lia. reflexivity.
Qed.

Lemma enriched_rolling t w src df e :
  process_zoo_data df = Ok e -> rolling t w src ∈ STEPS ->
  rolling_mean w (col src e) = Ok (col t e).
Proof.
  intros Hr Hin. pose proof (settled_step _ _ _ Hr Hin) as Hv.
  rewrite run_rolling in Hv.
  destruct (rolling_mean w (col src e)) as [v|]; [|discriminate].
  rewrite bind_ok in Hv. injection Hv as Hv. f_equal. symmetry.
  now apply set_col_fixed.
Qed.

(** X12. With at most seven rows the 7-day and the 30-day moving averages
    are the same columns: both windows reach back to the first row. *)
Theorem short_history_averages_coincide df e :
  process_zoo_data df = Ok e ->
  (nrows e <= 7)%nat ->
  col "ma7_visitors" e = col "ma30_visitors" e
  /\ col "ma7_revenue" e = col "ma30_revenue" e.
Proof.
  intros Hr Hn.
  pose proof (enriched_column_length visitors _ _ Hr ltac:(step_in_steps) eq_refl) as Lv.
  pose proof (enriched_column_length revenue_total _ _ Hr ltac:(step_in_steps) eq_refl)
    as Lr.
  cbn [target visitors revenue_total] in Lv, Lr.
  pose proof (enriched_rolling "ma7_visitors" 7 _ _ _ Hr ltac:(step_in_steps)) as V7.
  pose proof (enriched_rolling "ma30_visitors" 30 _ _ _ Hr ltac:(step_in_steps)) as V30.
  pose proof (enriched_rolling "ma7_revenue" 7 _ _ _ Hr ltac:(step_in_steps)) as R7.
  pose proof (enriched_rolling "ma30_revenue" 30 _ _ _ Hr ltac:(step_in_steps)) as R30.
  rewrite (rolling_mean_short 7 30) in V7 by lia.
  rewrite (rolling_mean_short 7 30) in R7 by lia.
  split; congruence.
Qed.

Lemma notnull_positions_length i c :
  (length (notnull_positions i c) + count_null c = length c)%nat.
Proof.
  unfold count_null. revert i. induction c as [|x c IH]; intros i; [reflexivity|].
  cbn [notnull_positions]. destruct x; cbn [is_null length].
  - rewrite filter_cons_False by (simpl; discriminate). specialize (IH (S i)). lia.
  - rewrite filter_cons_False by (simpl; discriminate). specialize (IH (S i)). lia.
  - rewrite filter_cons_False by (simpl; discriminate). specialize (IH (S i)). lia.
  - rewrite filter_cons_True by reflexivity. cbn [length]. specialize (IH (S i)). lia.
Qed.

Lemma to_datetime_length fmt u c d : to_datetime fmt u c = Ok d -> length d = length c.
Proof.
  unfold to_datetime. revert d. induction c as [|x c IH]; intros d; simpl.
  - now intros [= <-].
  - destruct (to_datetime_cell fmt u x) as [y|]; [|discriminate]. simpl.
    destruct (mapM _ c) as [k|]; [|discriminate]. simpl. intros [= <-].
    simpl. f_equal. now apply IH.
Qed.

(** X13. When the frame comes with lower-case labels and a [date] column,
    the rows of the result are the rows whose date could be read: the
    number of rows returned plus the number of unreadable dates is the
    length of the [date] column. *)
Theorem rows_kept_are_the_dated_rows df e d :
  lowercase_labels df ->
  cols df !! "date"%string = Some d ->
  process_zoo_data df = Ok e ->
  exists d',
    to_datetime None 1 d = Ok d'
    /\ length d' = length d
    /\ (nrows e + count_null d' = length d)%nat.
Proof.
  intros Hl Hd. rewrite process_zoo_data_labelled.
  rewrite (lower_labels_id _ Hl), with_date_column_id by eauto. rewrite bind_ok.
  unfold valid_sorted_dates. rewrite (col_lookup _ _ _ Hd).
  destruct (to_datetime None 1 d) as [d'|] eqn:Ed; [|discriminate].
  rewrite !bind_ok. intros Hr. exists d'. split; [reflexivity|].
  pose proof (to_datetime_length _ _ _ _ Ed) as Hlen. split; [assumption|].
  apply run_steps_effect in Hr. destruct Hr as (-> & _).
  unfold sort_values. cbn [nrows take_rows]. rewrite argsort_length.
  assert (Hset : cols (set_col "date" d' df) !! "date"%string = Some d')
    by apply lookup_insert_eq.
  rewrite (col_lookup _ _ _ Hset).
  destruct (0 <? count_null d')%nat eqn:E0.
  - unfold dropna. rewrite take_rows_col, Hset, length_fmap.
    rewrite (col_lookup _ _ _ Hset), <- Hlen. apply notnull_positions_length.
  - apply Nat.ltb_ge in E0. rewrite (col_lookup _ _ _ Hset). lia.
Qed.

End EnrichedColumns.

(** *** On the sample bookings *)


(** The sample bookings have no [Total Amount (INR)]: on 19 March 2025
    the revenues 175, 15, 50, 20 and 0 make 260. *)
Lemma total_revenue_witness :
  col "total_revenue" Demo.enriched !! 0%nat = Some (Num 260)
  /\ if has_column "total amount (inr)" (lower_labels Demo.ledger) then
       has_column "total amount (inr)" Demo.enriched = true
       /\ col "total_revenue" Demo.enriched = col "total amount (inr)" Demo.enriched
     else
       has_column "total amount (inr)" Demo.enriched = false
       /\ forall i, (i < nrows Demo.enriched)%nat ->
          exists a c f k h,
            col "adult_revenue" Demo.enriched !! i = Some a
            /\ col "child_revenue" Demo.enriched !! i = Some c
            /\ col "foreigner_revenue" Demo.enriched !! i = Some f
            /\ col "camera_revenue" Demo.enriched !! i = Some k
            /\ col "hend_camera_revenue" Demo.enriched !! i = Some h
            /\ (a = Null \/ c = Null \/ f = Null \/ k = Null \/ h = Null ->
                col "total_revenue" Demo.enriched !! i = Some Null)
            /\ forall qa qc qf qk qh : Q,
                 a = Num qa -> c = Num qc -> f = Num qf -> k = Num qk -> h = Num qh ->
                 (Qabs qa <= 100000000)%Q -> (Qabs qc <= 100000000)%Q ->
                 (Qabs qf <= 100000000)%Q -> (Qabs qk <= 100000000)%Q ->
                 (Qabs qh <= 100000000)%Q ->
                 col "total_revenue" Demo.enriched !! i
                 = Some (Num (qa + qc + qf + qk + qh))
                 /\ (Qabs (Float64.fadd
                             (Float64.fadd (Float64.fadd (Float64.fadd qa qc) qf) qk) qh
                           - (qa + qc + qf + qk + qh)) <= 1 # 1000000)%Q
                 /\ forall za zc zf zk zh : Z,
                      (qa == inject_Z za)%Q -> (qc == inject_Z zc)%Q ->
                      (qf == inject_Z zf)%Q -> (qk == inject_Z zk)%Q ->
                      (qh == inject_Z zh)%Q ->
                      (qa + qc + qf + qk + qh
                       == inject_Z
                            (Float64.wrap64
                               (Float64.wrap64
                                  (Float64.wrap64 (Float64.wrap64 (za + zc) + zf) + zk)
                                + zh)))%Q.
Proof.
  split; [vm_compute; reflexivity|].
  apply (total_revenue_is_reported_total_or_sum (H := Demo.env) Demo.ledger).
  exact enriched_sample.
Defined.


Lemma ledger_labels k :
  is_Some (cols Demo.ledger !! k) ->
  k ∈ [ "date"; "Adult Tickets"; "Child Tickets"; "Foreigner Tickets";
        "Camera Tickets"; "Total Amount Without Service Charge" ]%string.
Proof.
  intros [v Hk]. unfold Demo.ledger in Hk. cbn [cols] in Hk.
  apply elem_of_list_to_map_2 in Hk. apply list_elem_of_In in Hk. cbn [In] in Hk.
  apply list_elem_of_In. cbn [In].
  repeat (destruct Hk as [[= <- _]|Hk]; [tauto|]). destruct Hk.
Qed.

Lemma default_price_when_missing_witness :
  col "adult_price" Demo.enriched = replicate (nrows Demo.enriched) (Num 25).
Proof.
  apply (default_price_when_missing (H := Demo.env) Demo.ledger).
  - apply list_elem_of_here.
  - intros k Hk. apply ledger_labels in Hk. apply list_elem_of_In in Hk. cbn [In] in Hk.
    repeat (destruct Hk as [<-|Hk]; [discriminate|]). destruct Hk.
  - exact enriched_sample.
Defined.

Lemma calendar_columns_witness :
  col "year" Demo.enriched !! 0%nat = Some (Num 2025)
  /\ col "month" Demo.enriched !! 0%nat = Some (Num 3)
  /\ col "day" Demo.enriched !! 0%nat = Some (Num 19)
  /\ col "dayofweek" Demo.enriched !! 0%nat = Some (Num 2)
  /\ col "is_weekend" Demo.enriched !! 0%nat = Some (Num 0)
  /\ col "day_name" Demo.enriched !! 0%nat = Some (Str "Wednesday")
  /\ col "month_name" Demo.enriched !! 0%nat = Some (Str "March").
Proof.
  exact (calendar_columns (H := Demo.env) Demo.ledger Demo.enriched 0
           (20166 * NS_PER_DAY) enriched_sample eq_refl).
Defined.

Lemma short_history_averages_witness :
  col "ma7_visitors" Demo.enriched = col "ma30_visitors" Demo.enriched
  /\ col "ma7_revenue" Demo.enriched = col "ma30_revenue" Demo.enriched.
Proof.
  apply (short_history_averages_coincide (H := Demo.env) Demo.ledger).
  - exact enriched_sample.
  - vm_compute. lia.
Defined.

Lemma received_sample :
  DataProcessing.process_zoo_data (H := Demo.env) Demo.received = Ok Demo.enriched.
Proof. vm_compute. reflexivity. Qed.

(** Three rows come in, one without a usable date; two are returned. *)
Lemma rows_kept_witness :
  exists d',
    to_datetime (H := Demo.env) None 1
      [Date (20177 * NS_PER_DAY); Null; Date (20166 * NS_PER_DAY)] = Ok d'
    /\ length d' = 3%nat
    /\ (nrows Demo.enriched + count_null d' = 3)%nat.
Proof.
  apply (rows_kept_are_the_dated_rows (H := Demo.env) Demo.received).
  - apply lower_labels_lowercase.
  - vm_compute. reflexivity.
  - exact received_sample.
Defined.

(** ** app.py: decoding the upload, cached forecasts, the date selector *)

Section UploadFacts.
Import App.

(** X14. When the loop over the encodings ends with a content, it was
    decoded with the first encoding of the list that does not fail: every
    encoding before it raised [UnicodeDecodeError]. *)
Theorem decode_first_is_first_success decode encodings file_bytes content encoding :
  decode_first decode encodings file_bytes = Some (content, encoding) ->
  exists before after,
    encodings = before ++ encoding :: after
    /\ decode encoding file_bytes = Some content
    /\ Forall (fun e => decode e file_bytes = None) before.
Proof.
  induction encodings as [|e rest IH]; [discriminate|]. simpl.
  destruct (decode e file_bytes) as [c|] eqn:E.
  - intros [= <- <-]. exists [], rest. auto.
  - intros Hr. destruct (IH Hr) as (before & after & -> & Hd & Hall).
    exists (e :: before), after. auto.
Qed.

(** X15. Every byte string is valid latin-1. With such a codec the loop
    over [ENCODINGS] always ends with a content, decoded as utf-8 or as
    latin-1: the eight encodings after them are never used and the
    "unable to decode" branch is never taken. *)
Theorem decoding_never_fails (decode : codec) file_bytes :
  (forall b, is_Some (decode "latin-1"%string b)) ->
  exists content encoding,
    decode_first decode ENCODINGS file_bytes = Some (content, encoding)
    /\ (encoding = "utf-8"%string \/ encoding = "latin-1"%string).
Proof.
  intros Hlatin. unfold ENCODINGS. cbn [decode_first].
  destruct (decode "utf-8"%string file_bytes) as [c|]; [eauto|].
  destruct (Hlatin file_bytes) as [c Hc]. rewrite Hc. eauto.
Qed.

End UploadFacts.

Section InterfaceFacts.
Context `{PandasEnv}.
Import Prediction App.

Lemma prediction_days_positive period days : prediction_days period = Ok days -> 0 < days.
Proof.
  unfold prediction_days, days_map. cbn [List.find fst snd].
  repeat (destruct (String.eqb _ period); [intros [= <-]; lia|]). discriminate.
Qed.

(** X16. Once a forecast was generated for a period of the selector, it is
    what the session shows for that period from then on, whatever frame
    and models the session holds by then; selecting a period of another
    length generates a forecast again. *)
Theorem cached_forecast_is_reused period days df models rows :
  prediction_days period = Ok days ->
  session_predictions None df models days = Ok rows ->
  (forall df' models', session_predictions (Some rows) df' models' days = Ok rows)
  /\ (forall df' models' days',
        days' <> days ->
        session_predictions (Some rows) df' models' days'
        = predict_future_attendance df' models' days').
Proof.
  intros Hdays Hgen. apply prediction_days_positive in Hdays.
  cbn [session_predictions] in Hgen.
  assert (Hnn : 0 <= days) by lia.
  destruct (forecast_shape _ _ _ _ Hnn Hgen) as [Hlen _].
  split.
  - intros df' models'. cbn [session_predictions].
    replace (Z.of_nat (length rows) =? days) with true by lia. reflexivity.
  - intros df' models' days' Hne. cbn [session_predictions].
    replace (Z.of_nat (length rows) =? days') with false by lia. reflexivity.
Qed.

Lemma NS_PER_DAY_pos : 0 < NS_PER_DAY.
Proof. reflexivity. Qed.

Lemma filter_by_date (l : list PredictionRecord) base k :
  (forall i r, l !! i = Some r -> date r = base + Z.of_nat i * NS_PER_DAY) ->
  filter (fun r => date r = base + k * NS_PER_DAY) l
  = match (if 0 <=? k then l !! Z.to_nat k else None) with
    | Some r => [r]
    | None => []
    end.
Proof.
  pose proof NS_PER_DAY_pos as Hpos.
  revert base k. induction l as [|x l IH]; intros base k Hl.
  - destruct (0 <=? k); [rewrite lookup_nil|]; reflexivity.
  - assert (Hx : date x = base) by (rewrite (Hl 0%nat x eq_refl); lia).
    assert (Hrest : forall i r, l !! i = Some r ->
                                date r = (base + NS_PER_DAY) + Z.of_nat i * NS_PER_DAY).
    { intros i r Hr. rewrite (Hl (S i) r Hr). lia. }
    specialize (IH (base + NS_PER_DAY) (k - 1) Hrest).
    replace (base + NS_PER_DAY + (k - 1) * NS_PER_DAY) with (base + k * NS_PER_DAY)
      in IH by lia.
    destruct (decide (k = 0)) as [->|Hk].
    + rewrite filter_cons_True by (rewrite Hx; lia). rewrite IH. reflexivity.
    + rewrite filter_cons_False by (rewrite Hx; nia). rewrite IH.
      destruct (0 <=? k) eqn:Ek.
      * replace (0 <=? k - 1) with true by lia.
        replace (Z.to_nat k) with (S (Z.to_nat (k - 1))) by lia. reflexivity.
      * replace (0 <=? k - 1) with false by lia. reflexivity.
Qed.

(** X17. When the latest date of the history is a midnight, every day of
    the selector, from the day after it to [days] days after it, selects
    exactly one row of the forecast: the row of that day. *)
Theorem selected_day_has_one_prediction df models days rows latest_day selected_date :
  0 <= days ->
  predict_future_attendance df models days = Ok rows ->
  date_max (col "date" df) = Some (timestamp_of_date latest_day) ->
  day_number (min_date (timestamp_of_date latest_day)) <= selected_date
    <= day_number (max_date (timestamp_of_date latest_day) days) ->
  exists r,
    selected_pred rows selected_date = [r]
    /\ rows !! Z.to_nat (selected_date - latest_day - 1) = Some r
    /\ date r = timestamp_of_date selected_date.
Proof.
  intros Hdays Hp Hlast Hsel.
  destruct (forecast_shape _ _ _ _ Hdays Hp) as (Hlen & last & Hl & Hdates).
  rewrite Hlast in Hl. injection Hl as <-.
  unfold min_date, max_date, timestamp_of_date, day_number in *.
  pose proof NS_PER_DAY_pos as Hpos.
  replace (latest_day * NS_PER_DAY + 1 * NS_PER_DAY)
    with ((latest_day + 1) * NS_PER_DAY) in Hsel by lia.
  replace (latest_day * NS_PER_DAY + days * NS_PER_DAY)
    with ((latest_day + days) * NS_PER_DAY) in Hsel by lia.
  rewrite !Z.div_mul in Hsel by lia.
  set (k := selected_date - latest_day - 1).
  assert (Hfilter := filter_by_date rows (latest_day * NS_PER_DAY + NS_PER_DAY) k).
  unfold selected_pred, timestamp_of_date.
  replace (latest_day * NS_PER_DAY + NS_PER_DAY + k * NS_PER_DAY)
    with (selected_date * NS_PER_DAY) in Hfilter by (unfold k; lia).
  rewrite Hfilter by (intros i r Hr; rewrite (Hdates i r Hr); lia).
  replace (0 <=? k) with true by (unfold k; lia).
  destruct (lookup_lt_is_Some_2 rows (Z.to_nat k)) as [r Hr]; [unfold k; lia|].
  rewrite Hr. exists r. repeat split.
  rewrite (Hdates _ _ Hr). unfold k. lia.
Qed.

Lemma filter_none {A} (P : A -> Prop) `{forall x, Decision (P x)} (l : list A) :
  Forall (fun x => ~ P x) l -> filter P l = [].
Proof.
  induction 1 as [|x l Hx _ IH]; [reflexivity|].
  now rewrite filter_cons_False.
Qed.

(** X18. When the latest date of the history has a time of day, as a
    booking time has, no day of the selector selects a row of the
    forecast: the rows keep that time of day and the selected date is
    compared as a midnight. *)
Theorem timed_history_selects_nothing df models days rows latest selected_date :
  0 <= days ->
  predict_future_attendance df models days = Ok rows ->
  date_max (col "date" df) = Some latest ->
  latest mod NS_PER_DAY <> 0 ->
  selected_pred rows selected_date = [].
Proof.
  intros Hdays Hp Hlast Htime.
  destruct (forecast_shape _ _ _ _ Hdays Hp) as (_ & last & Hl & Hdates).
  rewrite Hlast in Hl. injection Hl as <-.
  unfold selected_pred, timestamp_of_date.
  apply filter_none. apply Forall_lookup. intros i r Hr Heq.
  rewrite (Hdates i r Hr) in Heq. apply Htime.
  replace latest with ((selected_date - (Z.of_nat i + 1)) * NS_PER_DAY) by lia.
  apply Z.mod_mul. discriminate.
Qed.

End InterfaceFacts.

(** *** On sample uploads and forecasts *)

(** The byte E9 alone is not utf-8; it is decoded as latin-1. *)
Lemma decode_first_witness :
  exists before after,
    App.ENCODINGS = before ++ "latin-1"%string :: after
    /\ Demo.sample_codec "latin-1" [Byte.xe9]
       = Some (string_of_list_byte [Byte.xe9])
    /\ Forall (fun e => Demo.sample_codec e [Byte.xe9] = None) before.
Proof.
  apply (decode_first_is_first_success Demo.sample_codec App.ENCODINGS [Byte.xe9]).
  reflexivity.
Defined.

Lemma decoding_never_fails_witness :
  exists content encoding,
    App.decode_first Demo.sample_codec App.ENCODINGS [Byte.x50; Byte.x4b; Byte.xe9]
    = Some (content, encoding)
    /\ (encoding = "utf-8"%string \/ encoding = "latin-1"%string).
Proof.
  apply (decoding_never_fails Demo.sample_codec).
  intros b. unfold Demo.sample_codec. cbn [String.eqb Ascii.eqb Bool.eqb]. eauto.
Defined.

Lemma forecast30_sample :
  Prediction.predict_future_attendance (H := Demo.env) Demo.history
    (Demo.models_of Demo.constant_forecaster 100 70 20) 30 = Ok Demo.forecast30.
Proof. vm_compute. reflexivity. Qed.

Lemma forecast_sample :
  Prediction.predict_future_attendance (H := Demo.env) Demo.history
    (Demo.models_of Demo.constant_forecaster 100 70 20) 4 = Ok Demo.forecast.
Proof. vm_compute. reflexivity. Qed.

Lemma timed_forecast_sample :
  Prediction.predict_future_attendance (H := Demo.env) Demo.timed_history
    (Demo.models_of Demo.constant_forecaster 100 70 20) 4 = Ok Demo.timed_forecast.
Proof. vm_compute. reflexivity. Qed.

Lemma cached_forecast_witness :
  (forall df' models',
     App.session_predictions (H := Demo.env) (Some Demo.forecast30) df' models' 30
     = Ok Demo.forecast30)
  /\ (forall df' models' days',
        days' <> 30 ->
        App.session_predictions (H := Demo.env) (Some Demo.forecast30) df' models' days'
        = Prediction.predict_future_attendance (H := Demo.env) df' models' days').
Proof.
  apply (cached_forecast_is_reused (H := Demo.env) "30 days" 30 Demo.history
           (Demo.models_of Demo.constant_forecaster 100 70 20)).
  - reflexivity.
  - exact forecast30_sample.
Defined.

(** The history ends on 28 March 2025; 30 March selects the second row. *)
Lemma selected_day_witness :
  exists r,
    App.selected_pred Demo.forecast 20177 = [r]
    /\ Demo.forecast !! Z.to_nat (20177 - 20175 - 1) = Some r
    /\ Prediction.date r = App.timestamp_of_date 20177.
Proof.
  apply (selected_day_has_one_prediction (H := Demo.env) Demo.history
           (Demo.models_of Demo.constant_forecaster 100 70 20) 4).
  - lia.
  - exact forecast_sample.
  - reflexivity.
  - vm_compute. split; discriminate.
Defined.

(** The booking of 30 March 2025, 9:06: 31 March selects nothing. *)
Lemma timed_history_witness : App.selected_pred Demo.timed_forecast 20178 = [].
Proof.
  apply (timed_history_selects_nothing (H := Demo.env) Demo.timed_history
           (Demo.models_of Demo.constant_forecaster 100 70 20) 4 _
           (20177 * NS_PER_DAY + 32760000000000)).
  - lia.
  - exact timed_forecast_sample.
  - reflexivity.
  - vm_compute. discriminate.
Defined.

(** ** create_prediction_table: the monthly summary of a forecast *)

Section SummaryFacts.
Import Prediction Visualization.

(** The sum of a count over the groups. *)
Lemma add_row_total (f : Sums -> Z) k s groups :
  (forall a b, f (add_sums a b) = f a + f b) ->
  foldr Z.add 0 ((fun g => f g.2) <$> add_row k s groups)
  = foldr Z.add 0 ((fun g => f g.2) <$> groups) + f s.
Proof.
  intros Hf. induction groups as [|[k' s'] groups IH]; [simpl; lia|].
  cbn [add_row]. destruct (key_compare k k'); rewrite !fmap_cons; cbn [foldr snd].
  - rewrite Hf. lia.
  - lia.
  - rewrite IH. lia.
Qed.

Lemma fold_add_row_total (f : Sums -> Z) predictions groups :
  (forall a b, f (add_sums a b) = f a + f b) ->
  foldr Z.add 0
    ((fun g => f g.2)
       <$> fold_left (fun groups r => add_row (key_of r) (sums_of r) groups)
             predictions groups)
  = foldr Z.add 0 ((fun g => f g.2) <$> groups)
    + foldr Z.add 0 ((fun r => f (sums_of r)) <$> predictions).
Proof.
  intros Hf. revert groups. induction predictions as [|r predictions IH]; intros groups.
  - simpl. lia.
  - cbn [fold_left]. rewrite IH, (add_row_total f) by assumption.
    rewrite fmap_cons. cbn [foldr]. lia.
Qed.

(** X19. The monthly table loses and invents no ticket: over its rows the
    total visitors, the adult tickets and the child tickets add up to what
    they add up to over the days of the forecast. *)
Theorem monthly_table_conserves_counts predictions :
  foldr Z.add 0 (Total_Visitors <$> create_prediction_table predictions)
  = foldr Z.add 0 (total_visitors <$> predictions)
  /\ foldr Z.add 0 (Adult_Tickets <$> create_prediction_table predictions)
     = foldr Z.add 0 (adult_tickets <$> predictions)
  /\ foldr Z.add 0 (Child_Tickets <$> create_prediction_table predictions)
     = foldr Z.add 0 (child_tickets <$> predictions).
Proof.
  unfold create_prediction_table, monthly_summary.
  rewrite <- !list_fmap_compose. repeat split.
  - exact (fold_add_row_total s_total_visitors predictions [] (fun _ _ => eq_refl)).
  - exact (fold_add_row_total s_adult_tickets predictions [] (fun _ _ => eq_refl)).
  - exact (fold_add_row_total s_child_tickets predictions [] (fun _ _ => eq_refl)).
Qed.

Lemma add_row_adds_up k s groups :
  s_adult_tickets s + s_child_tickets s = s_total_visitors s ->
  Forall (fun g => s_adult_tickets g.2 + s_child_tickets g.2 = s_total_visitors g.2)
    groups ->
  Forall (fun g => s_adult_tickets g.2 + s_child_tickets g.2 = s_total_visitors g.2)
    (add_row k s groups).
Proof.
  intros Hs. induction 1 as [|[k' s'] groups Hg Hall IH]; simpl.
  - repeat constructor. exact Hs.
  - destruct (key_compare k k').
    + constructor; [|assumption]. simpl in *. lia.
    + repeat constructor; assumption.
    + constructor; assumption.
Qed.

Lemma fold_add_row_adds_up predictions groups :
  Forall (fun r => adult_tickets r + child_tickets r = total_visitors r) predictions ->
  Forall (fun g => s_adult_tickets g.2 + s_child_tickets g.2 = s_total_visitors g.2)
    groups ->
  Forall (fun g => s_adult_tickets g.2 + s_child_tickets g.2 = s_total_visitors g.2)
    (fold_left (fun groups r => add_row (key_of r) (sums_of r) groups)
       predictions groups).
Proof.
  revert groups. induction predictions as [|r predictions IH]; intros groups Hall Hg;
    [exact Hg|].
  apply Forall_cons in Hall. destruct Hall as [Hr Hall].
  cbn [fold_left]. apply IH; [assumption|]. now apply add_row_adds_up.
Qed.

End SummaryFacts.

Section ForecastSummary.
Context `{PandasEnv}.
Import Prediction Visualization.

Lemma forecast_rows_add_up df models days rows :
  predict_future_attendance df models days = Ok rows ->
  Forall (fun r => adult_tickets r + child_tickets r = total_visitors r) rows.
Proof.
  unfold predict_future_attendance.
  destruct (smoothed_counts df models days) as [counts|]; [|discriminate].
  simpl. intros [= <-]. apply Forall_lookup. intros i r Hr.
  rewrite list_lookup_fmap, list_lookup_imap in Hr.
  destruct (counts !! i) as [c|]; [|discriminate]. simpl in Hr. injection Hr as <-.
  simpl. now rewrite reconcile_sum, reconcile_total.
Qed.

(** X20. In every row of the monthly table of a forecast the adult and
    the child tickets add up to the total visitors of the month. *)
Theorem monthly_table_of_forecast_adds_up df models days rows :
  predict_future_attendance df models days = Ok rows ->
  Forall (fun m => Adult_Tickets m + Child_Tickets m = Total_Visitors m)
    (create_prediction_table rows).
Proof.
  intros Hp. apply forecast_rows_add_up in Hp.
  unfold create_prediction_table, monthly_summary. apply Forall_fmap.
  eapply Forall_impl; [apply (fold_add_row_adds_up rows [] Hp); constructor|].
  intros g Hg. exact Hg.
Qed.

End ForecastSummary.

(** The forecast for 29 March to 1 April 2025 has a row for March and a
    row for April. *)
Lemma monthly_table_witness :
  Forall (fun m => Visualization.Adult_Tickets m + Visualization.Child_Tickets m
                   = Visualization.Total_Visitors m)
    (Visualization.create_prediction_table Demo.forecast)
  /\ Visualization.Month <$> Visualization.create_prediction_table Demo.forecast
     = ["March 2025"; "April 2025"]%string.
Proof.
  split; [|vm_compute; reflexivity].
  apply (monthly_table_of_forecast_adds_up (H := Demo.env) Demo.history
           (Demo.models_of Demo.constant_forecaster 100 70 20) 4).
  exact forecast_sample.
Defined.

(** ** validate_csv_format: what is reported missing, what is accepted *)

Section AcceptedFiles.
Context `{PandasEnv}.
Import DataProcessing.

Lemma find_existsb {A} (f : A -> bool) (l : list A) :
  List.find f l = None <-> existsb f l = false.
Proof.
  induction l as [|x l IH]; simpl; [tauto|].
  destruct (f x); simpl; [split; discriminate|exact IH].
Qed.

(** What [map_columns] adds to the list of missing columns. *)
Lemma map_columns_missing zoo_format df required mapping missing :
  (map_columns zoo_format df required mapping missing).2
  = missing
    ++ List.filter
         (fun req_col =>
            negb (has_column req_col df)
            && (zoo_format
                || negb (existsb (fun c => fuzzy_match req_col (lower c)) (columns df))))
         required.
Proof.
  revert mapping missing.
  induction required as [|r required IH]; intros mapping missing.
  - simpl. now rewrite app_nil_r.
  - cbn [map_columns List.filter]. destruct (has_column r df).
    + rewrite IH. reflexivity.
    + cbn [negb andb]. destruct zoo_format.
      * rewrite IH, <- app_assoc. reflexivity.
      * cbn [orb].
        destruct (List.find _ (columns df)) as [c|] eqn:E.
        -- assert (Hex : existsb (fun c => fuzzy_match r (lower c)) (columns df) = true).
           { destruct (existsb _ _) eqn:Ex; [reflexivity|].
             apply find_existsb in Ex. congruence. }
           rewrite Hex, IH. reflexivity.
        -- apply find_existsb in E. rewrite E, IH, <- app_assoc. reflexivity.
Qed.

(** X21. The columns reported as missing are the required columns that the
    file has under no label: not under the exact name and, outside the zoo
    booking format, not under a label that matches by substring. They are
    reported in the order of the requirement. *)
Theorem missing_columns_are_the_unmatched zoo_format df required mapping missing :
  (map_columns zoo_format df required mapping missing).2
  = missing
    ++ List.filter
         (fun req_col =>
            negb (has_column req_col df)
            && (zoo_format
                || negb (existsb (fun c => fuzzy_match req_col (lower c)) (columns df))))
         required.
Proof. apply map_columns_missing. Qed.

(** X22. In the zoo booking format no column is ever reported missing:
    the three columns required there are the three that make the format. *)
Theorem zoo_format_reports_nothing_missing df :
  is_zoo_format df = true ->
  (map_columns true df (required_columns_of true) ∅ []).2 = [].
Proof.
  intros Hz. rewrite map_columns_missing.
  unfold is_zoo_format in Hz.
  apply andb_true_iff in Hz. destruct Hz as [Hz Hc].
  apply andb_true_iff in Hz. destruct Hz as [Hb Ha].
  unfold required_columns_of. cbn [List.filter app]. now rewrite Hb, Ha, Hc.
Qed.

(** X23. A content that starts with the signature of a ZIP archive, as an
    [.xlsx] workbook does, is refused as an Excel file whatever follows. *)
Theorem zip_archive_is_refused rest :
  validate_csv_format (ZIP_MAGIC ++ rest)
  = invalid "This appears to be an Excel file saved with a .csv extension. Please save it as an actual CSV file.".
Proof. reflexivity. Qed.

Lemma read_frame_invalid csv_content : returns_invalid (read_frame csv_content).
Proof.
  unfold read_frame. destruct (read_csv _ _); [exact I|].
  destruct (_ ≫= _); [exact I|]. reflexivity.
Qed.

Lemma notnull_positions_nil i c : notnull_positions i c = [] -> all_null c = true.
Proof.
  revert i. induction c as [|x c IH]; intros i; [reflexivity|].
  cbn [notnull_positions all_null forallb]. destruct (is_null x); [|discriminate].
  intros Hn. apply (IH _ Hn).
Qed.

Lemma any_null_false_dates d :
  Forall (fun x => is_date x = true \/ x = Null) d -> any_null d = false ->
  forallb is_date d = true.
Proof.
  induction 1 as [|x d Hx _ IH]; [reflexivity|].
  cbn [any_null existsb forallb]. destruct Hx as [Hx| ->]; [|discriminate].
  destruct x; try discriminate. simpl. exact IH.
Qed.

(** What the date check hands on. *)
Lemma check_dates_next df dated :
  check_dates df = Next dated ->
  exists d, cols dated !! "date"%string = Some d
            /\ d <> [] /\ forallb is_date d = true.
Proof.
  unfold check_dates, flow_try, getitem.
  destruct (cols df !! "date"%string) as [c|]; [|discriminate].
  cbn [lift mbind flow_bind].
  destruct (to_datetime None 1 c) as [d|] eqn:Ed; [|discriminate].
  cbn [lift mbind flow_bind].
  assert (Hset : cols (set_col "date" d df) !! "date"%string = Some d)
    by apply lookup_insert_eq.
  rewrite (col_lookup _ _ _ Hset).
  destruct (all_null d) eqn:Eall; [discriminate|].
  apply to_datetime_cells in Ed.
  destruct (any_null d) eqn:Eany; intros [= <-].
  - unfold dropna. rewrite take_rows_lookup, Hset, (col_lookup _ _ _ Hset).
    eexists. split; [reflexivity|]. split.
    + intros Hnil. apply fmap_nil_inv in Hnil. apply notnull_positions_nil in Hnil.
      congruence.
    + exact (notnull_positions_cells [] d Ed).
  - exists d. split; [assumption|]. split.
    + intros ->. discriminate.
    + now apply any_null_false_dates.
Qed.

Lemma check_dates_invalid df : returns_invalid (check_dates df).
Proof.
  unfold check_dates, flow_try, getitem.
  destruct (cols df !! "date"%string) as [c|]; [|reflexivity].
  cbn [lift mbind flow_bind].
  destruct (to_datetime None 1 c) as [d|]; [|reflexivity].
  cbn [lift mbind flow_bind].
  destruct (all_null _); [reflexivity|exact I].
Qed.

Lemma to_numeric_numbers v :
  any_null (to_numeric v) = false -> Forall (fun x => exists q, x = Num q) (to_numeric v).
Proof.
  unfold to_numeric. induction v as [|x v IH]; [constructor|].
  rewrite fmap_cons. cbn [any_null existsb]. intros Hn.
  apply orb_false_iff in Hn. destruct Hn as [Hx Hv].
  constructor; [|now apply IH].
  destruct x as [q|s|t|]; try (eexists; reflexivity).
  - destruct (parse_numeric s); [eexists; reflexivity|discriminate].
  - discriminate.
Qed.

(** What the loop over the numeric columns hands on. *)
Lemma check_numeric_next l : forall df checked,
  check_numeric l df = Next checked ->
  (forall k, k ∉ l -> cols checked !! k = cols df !! k)
  /\ Forall (fun k => exists v, cols checked !! k = Some v
                                /\ Forall (fun x => exists q, x = Num q) v) l.
Proof.
  induction l as [|c l IH]; intros df checked.
  - intros [= <-]. split; [reflexivity|constructor].
  - cbn [check_numeric]. unfold getitem.
    destruct (cols df !! c) as [v|]; [|discriminate].
    cbn [lift mbind flow_bind].
    assert (Hset : cols (set_col c (to_numeric v) df) !! c = Some (to_numeric v))
      by apply lookup_insert_eq.
    rewrite (col_lookup _ _ _ Hset).
    destruct (any_null (to_numeric v)) eqn:En; [discriminate|].
    intros Hr. destruct (IH _ _ Hr) as [Hout Hin]. split.
    + intros k Hk. apply not_elem_of_cons in Hk. destruct Hk as [Hkc Hkl].
      rewrite (Hout k Hkl). simpl. now rewrite lookup_insert_ne.
    + constructor; [|assumption].
      destruct (decide (c ∈ l)) as [Hcl|Hcl].
      * rewrite Forall_forall in Hin. now apply Hin.
      * rewrite (Hout c Hcl), Hset. eexists. split; [reflexivity|].
        now apply to_numeric_numbers.
Qed.

Lemma check_numeric_invalid l : forall df, returns_invalid (check_numeric l df).
Proof.
  induction l as [|c l IH]; intros df; [exact I|].
  cbn [check_numeric]. destruct (getitem c df); [|exact I].
  cbn [lift mbind flow_bind]. destruct (any_null _); [reflexivity|apply IH].
Qed.

Lemma check_non_negative_next l df :
  check_non_negative l df = Next tt ->
  Forall (fun k => exists v, cols df !! k = Some v /\ any_negative v = false) l.
Proof.
  induction l as [|c l IH]; [constructor|].
  cbn [check_non_negative]. unfold getitem.
  destruct (cols df !! c) as [v|] eqn:Ec; [|discriminate].
  cbn [lift mbind flow_bind].
  destruct (any_negative v) eqn:En; [discriminate|].
  intros Hr. constructor; [|now apply IH].
  exists v. split; assumption.
Qed.

Lemma check_non_negative_invalid l df : returns_invalid (check_non_negative l df).
Proof.
  induction l as [|c l IH]; [exact I|].
  cbn [check_non_negative]. destruct (getitem c df); [|exact I].
  cbn [lift mbind flow_bind]. destruct (any_negative _); [reflexivity|apply IH].
Qed.

Lemma non_negative_numbers v :
  Forall (fun x => exists q, x = Num q) v -> any_negative v = false ->
  Forall (fun x => exists q, x = Num q /\ (0 <= q)%Q) v.
Proof.
  induction 1 as [|x v [q ->] _ IH]; [constructor|].
  cbn [any_negative existsb]. intros Hn.
  apply orb_false_iff in Hn. destruct Hn as [Hq Hv].
  constructor; [|now apply IH].
  exists q. split; [reflexivity|]. apply negb_false_iff in Hq.
  now apply Qle_bool_iff.
Qed.

(** The body after the file was read, by its stages. *)
Lemma validate_body_stages csv_content :
  validate_body csv_content
  = if looks_like_excel csv_content then
      Return (invalid "This appears to be an Excel file saved with a .csv extension. Please save it as an actual CSV file.")
    else
      raw ← read_frame csv_content;
      if empty_or_narrow (normalized raw) then
        Return (invalid "The file appears to be empty or improperly formatted. Please check that it contains valid CSV data.")
      else
        let zoo_format := is_zoo_format (normalized raw) in
        let missing_columns :=
          (map_columns zoo_format (normalized raw) (required_columns_of zoo_format)
             ∅ []).2 in
        if negb (bool_decide (missing_columns = [])) then
          Return (invalid ("Missing required columns: " ++ join ", " missing_columns
            ++ ". Available columns: " ++ join ", " (columns (normalized raw))))
        else
          df ← check_dates (mapped (normalized raw));
          df ← check_numeric NUMERIC_COLUMNS df;
          _ ← check_non_negative NUMERIC_COLUMNS df;
          Return (Validation true None).
Proof.
  unfold validate_body. destruct (looks_like_excel csv_content); [reflexivity|].
  destruct (read_frame csv_content) as [raw| |]; try reflexivity.
  cbn [mbind flow_bind]. fold (normalized raw).
  destruct (empty_or_narrow (normalized raw)); [reflexivity|].
  unfold mapped. cbv zeta.
  destruct (is_zoo_format (normalized raw));
    unfold required_columns_of;
    destruct (map_columns _ (normalized raw) _ ∅ []) as [mapping missing];
    reflexivity.
Qed.

(** X24. A content is only declared valid when it is not an Excel file,
    was read into a frame that is neither empty nor of one column, and
    passed the three checks: the frame checked last has at least one date
    and only dates in [date], and only numbers, none of them negative, in
    the ticket and price columns of adults and children. *)
Theorem accepted_file_is_dated_and_non_negative csv_content :
  valid (validate_csv_format csv_content) = true ->
  looks_like_excel csv_content = false
  /\ exists raw dated checked,
       read_frame csv_content = Next raw
       /\ empty_or_narrow (normalized raw) = false
       /\ check_dates (mapped (normalized raw)) = Next dated
       /\ check_numeric NUMERIC_COLUMNS dated = Next checked
       /\ (exists d, cols checked !! "date"%string = Some d
                     /\ d <> [] /\ Forall (fun x => exists t, x = Date t) d)
       /\ Forall (fun k => exists v,
                     cols checked !! k = Some v
                     /\ Forall (fun x => exists q, x = Num q /\ (0 <= q)%Q) v)
            NUMERIC_COLUMNS.
Proof.
  unfold validate_csv_format. rewrite validate_body_stages.
  destruct (looks_like_excel csv_content); [discriminate|].
  pose proof (read_frame_invalid csv_content) as Hread.
  destruct (read_frame csv_content) as [raw|v|e];
    [|cbn [mbind flow_bind]; unfold returns_invalid in Hread; congruence|discriminate].
  cbn [mbind flow_bind].
  destruct (empty_or_narrow (normalized raw)) eqn:Eempty; [discriminate|].
  cbv zeta. destruct (negb (bool_decide _)); [discriminate|].
  pose proof (check_dates_invalid (mapped (normalized raw))) as Hdates.
  destruct (check_dates (mapped (normalized raw))) as [dated|v|e] eqn:Edates;
    [|cbn [mbind flow_bind]; unfold returns_invalid in Hdates; congruence|discriminate].
  cbn [mbind flow_bind].
  pose proof (check_numeric_invalid NUMERIC_COLUMNS dated) as Hnum.
  destruct (check_numeric NUMERIC_COLUMNS dated) as [checked|v|e] eqn:Enum;
    [|cbn [mbind flow_bind]; unfold returns_invalid in Hnum; congruence|discriminate].
  cbn [mbind flow_bind].
  pose proof (check_non_negative_invalid NUMERIC_COLUMNS checked) as Hneg.
  destruct (check_non_negative NUMERIC_COLUMNS checked) as [[]|v|e] eqn:Eneg;
    [|cbn [mbind flow_bind]; unfold returns_invalid in Hneg; congruence|discriminate].
  intros _. split; [reflexivity|]. exists raw, dated, checked.
  split; [reflexivity|]. split; [first [reflexivity|assumption]|].
  split; [first [reflexivity|assumption]|]. split; [first [reflexivity|assumption]|].
  split.
  - destruct (check_dates_next _ _ Edates) as (d & Hd & Hne & Hall).
    destruct (check_numeric_next _ _ _ Enum) as [Hout _].
    exists d. split; [|split; [assumption|]].
    + rewrite Hout; [assumption|].
      unfold NUMERIC_COLUMNS. apply (bool_decide_unpack _). vm_compute. exact I.
    + apply Forall_forall. intros x Hx. rewrite forallb_forall in Hall.
      apply list_elem_of_In in Hx. specialize (Hall x Hx).
      destruct x; try discriminate. eauto.
  - destruct (check_numeric_next _ _ _ Enum) as [_ Hin].
    apply check_non_negative_next in Eneg.
    apply Forall_forall. intros k Hk.
    rewrite Forall_forall in Hin, Eneg.
    destruct (Hin k Hk) as (v & Hv & Hnum'). destruct (Eneg k Hk) as (v' & Hv' & Hnn).
    rewrite Hv in Hv'. injection Hv' as <-.
    exists v. split; [assumption|]. now apply non_negative_numbers.
Qed.

End AcceptedFiles.

(** The template is in the zoo booking format. *)
Lemma zoo_format_witness :
  (DataProcessing.map_columns (H := Demo.reading Demo.template) true
     (DataProcessing.normalized Demo.template)
     (DataProcessing.required_columns_of true) ∅ []).2 = [].
Proof.
  apply (zoo_format_reports_nothing_missing (H := Demo.reading Demo.template)).
  vm_compute. reflexivity.
Defined.

Lemma accepted_file_witness :
  DataProcessing.looks_like_excel Demo.tabbed_export = false
  /\ exists raw dated checked,
       DataProcessing.read_frame (H := Demo.reading Demo.template) Demo.tabbed_export
       = DataProcessing.Next raw
       /\ DataProcessing.empty_or_narrow (DataProcessing.normalized raw) = false
       /\ DataProcessing.check_dates (H := Demo.reading Demo.template)
            (DataProcessing.mapped (H := Demo.reading Demo.template)
               (DataProcessing.normalized raw))
          = DataProcessing.Next dated
       /\ DataProcessing.check_numeric (H := Demo.reading Demo.template)
            DataProcessing.NUMERIC_COLUMNS dated
          = DataProcessing.Next checked
       /\ (exists d, cols checked !! "date"%string = Some d
                     /\ d <> [] /\ Forall (fun x => exists t, x = Date t) d)
       /\ Forall (fun k => exists v,
                     cols checked !! k = Some v
                     /\ Forall (fun x => exists q, x = Num q /\ (0 <= q)%Q) v)
            DataProcessing.NUMERIC_COLUMNS.
Proof.
  apply (accepted_file_is_dated_and_non_negative (H := Demo.reading Demo.template)).
  vm_compute. reflexivity.
Defined.

(** ** app.py: the frame handed to process_zoo_data *)

Section UploadedFrames.
Context `{PandasEnv}.
Import App DataProcessing Assignments.

Lemma try_assign_date_shape fmt df :
  try_assign_date fmt df = df \/ exists d, try_assign_date fmt df = set_col "date" d df.
Proof. unfold try_assign_date. destruct (to_datetime _ _ _); eauto. Qed.

Lemma try_assign_date_labels fmt df :
  lowercase_labels df -> lowercase_labels (try_assign_date fmt df).
Proof.
  intros Hl. destruct (try_assign_date_shape fmt df) as [->|[d ->]]; [assumption|].
  now apply lowercase_set_col.
Qed.

Lemma try_assign_date_dated fmt df :
  is_Some (cols df !! "date"%string) ->
  is_Some (cols (try_assign_date fmt df) !! "date"%string).
Proof.
  intros Hd. destruct (try_assign_date_shape fmt df) as [->|[d ->]]; [assumption|].
  simpl. rewrite lookup_insert_eq. eauto.
Qed.

Lemma getitem_ok k df v : getitem k df = Ok v -> is_Some (cols df !! k).
Proof. unfold getitem. destruct (cols df !! k); [eauto|discriminate]. Qed.

Lemma load_dates_post df df' :
  load_dates df = Ok df' ->
  lowercase_labels df'
  /\ (is_Some (cols (lower_labels df) !! "booking date"%string) ->
      is_Some (cols df' !! "date"%string)).
Proof.
  unfold load_dates. pose proof (lower_labels_lowercase df) as Hl0.
  destruct (has_column "booking date" (lower_labels df)) eqn:Eb.
  - set (df1 := try_assign_date FMT_AMPM_SECONDS (lower_labels df)).
    assert (Hl1 : lowercase_labels df1) by now apply try_assign_date_labels.
    destruct (getitem "date" df1) as [d1|] eqn:E1; [|discriminate]. rewrite bind_ok.
    apply getitem_ok in E1.
    set (df2 := if all_null d1 then try_assign_date FMT_AMPM df1 else df1).
    assert (Hl2 : lowercase_labels df2).
    { unfold df2. destruct (all_null d1); [now apply try_assign_date_labels|assumption]. }
    assert (Hd2 : is_Some (cols df2 !! "date"%string)).
    { unfold df2. destruct (all_null d1); [now apply try_assign_date_dated|assumption]. }
    destruct (getitem "date" df2) as [d2|]; [|discriminate]. rewrite bind_ok.
    set (df3 := if all_null d2 then try_assign_date FMT_24H df2 else df2).
    assert (Hl3 : lowercase_labels df3).
    { unfold df3. destruct (all_null d2); [now apply try_assign_date_labels|assumption]. }
    assert (Hd3 : is_Some (cols df3 !! "date"%string)).
    { unfold df3. destruct (all_null d2); [now apply try_assign_date_dated|assumption]. }
    destruct (getitem "date" df3) as [d3|]; [|discriminate]. rewrite bind_ok.
    destruct (all_null d3).
    + destruct (to_datetime None 1 _) as [d4|]; [|discriminate]. rewrite bind_ok.
      intros [= <-]. split.
      * now apply lowercase_set_col.
      * intros _. simpl. rewrite lookup_insert_eq. eauto.
    + intros [= <-]. auto.
  - intros [= <-]. split; [assumption|].
    intros Hb. apply has_column_true in Hb. congruence.
Qed.

(** X25. A CSV upload with a [booking date] column, in any mix of upper
    and lower case, reaches [process_zoo_data] with a [date] column and
    lower-case labels: the first two stages of [process_zoo_data] leave the
    frame as it is, its own reading of the booking dates is not used, and
    it does not fail for a missing date column. (A workbook is handed to
    [process_zoo_data] as [pd.read_excel] returned it.) *)
Theorem upload_with_booking_date_is_dated df df' :
  load_dates df = Ok df' ->
  is_Some (cols (lower_labels df) !! "booking date"%string) ->
  is_Some (cols df' !! "date"%string)
  /\ (lowered ← lower_columns df'; with_date_column lowered) = Ok df'
  /\ process_upload (Csv df) = (dated ← valid_sorted_dates df'; run_steps STEPS dated).
Proof.
  intros Hload Hb. destruct (load_dates_post _ _ Hload) as [Hl Hd].
  specialize (Hd Hb). split; [assumption|].
  assert (Hw : with_date_column (lower_labels df') = Ok df').
  { rewrite (lower_labels_id _ Hl). now apply with_date_column_id. }
  split; [exact Hw|].
  unfold process_upload. rewrite Hload, bind_ok, process_zoo_data_labelled, Hw.
  now rewrite bind_ok.
Qed.

End UploadedFrames.

Lemma template_loaded :
  exists df', App.load_dates (H := Demo.reading Demo.template) Demo.template = Ok df'.
Proof. eexists. vm_compute. reflexivity. Qed.

Lemma upload_with_booking_date_witness :
  exists df',
    App.load_dates (H := Demo.reading Demo.template) Demo.template = Ok df'
    /\ is_Some (cols df' !! "date"%string)
    /\ (lowered ← lower_columns df';
        DataProcessing.with_date_column (H := Demo.reading Demo.template) lowered)
       = Ok df'.
Proof.
  destruct template_loaded as [df' Hload]. exists df'. split; [exact Hload|].
  destruct (upload_with_booking_date_is_dated (H := Demo.reading Demo.template)
              Demo.template df' Hload) as (Hd & Hw & _).
  - apply (bool_decide_unpack _). vm_compute. exact I.
  - split; assumption.
Defined.
